(** * Sapine bot hosting API: the bot lifecycle engine

    A shallow embedding of [app/utils.py], [app/docker.py], [app/bots.py] and
    [app/sockets.py], and the properties of the lifecycle engine proved over
    it.

    Conventions of the embedding.
    - A Python [str] is a list of characters ([str]); a character is a code
      point below 256 ([ascii]).  [len] is [length], [a + b] is [a ++ b].
    - A raised exception is a value of [exn]; a function that can raise
      returns [result A] ([inl e] when [e] is raised).
    - The SQL session, the artifact store and the lazily created runtime
      client form the [World]; handlers are written in a monad [M] that
      threads the world and keeps it when an exception is raised, since
      every assignment to a row is followed by [db.commit()].
    - The container runtime is outside the program: what it answers during
      one request is an input of the handler (a [Daemon] record). *)

From Stdlib Require Import String Ascii List Bool Arith Lia ZArith.
From Stdlib Require DecimalString.
Import ListNotations.

(* ===================================================================== *)
(** * Strings *)
(* ===================================================================== *)

Definition str := list ascii.

(** Literals are written [s "text"]. *)
Definition s (x : string) : str := list_ascii_of_string x.

Definition ascii_eqb (a b : ascii) : bool := Ascii.eqb a b.

Fixpoint str_eqb (a b : str) : bool :=
  match a, b with
  | [], [] => true
  | x :: a', y :: b' => ascii_eqb x y && str_eqb a' b'
  | _, _ => false
  end.

(** [a.startswith(p)], as [startswith p a]. *)
Fixpoint startswith (p a : str) : bool :=
  match p, a with
  | [], _ => true
  | x :: p', y :: a' => ascii_eqb x y && startswith p' a'
  | _ :: _, [] => false
  end.

(** [a.endswith(p)]. *)
Definition endswith (p a : str) : bool := startswith (rev p) (rev a).

(** [p in a] for strings: some suffix of [a] starts with [p]. *)
Fixpoint contains (p a : str) : bool :=
  startswith p a ||
  match a with
  | [] => false
  | _ :: a' => contains p a'
  end.

(** [x in l] for a list of strings. *)
Definition str_in (x : str) (l : list str) : bool := existsb (str_eqb x) l.

(** [a.replace(old, new)] for a non-empty [old]: occurrences are found left
    to right and do not overlap.  [skip] counts the characters of the
    occurrence just replaced that are still to be passed over. *)
Fixpoint replace_from (old new : str) (skip : nat) (a : str) : str :=
  match a with
  | [] => []
  | c :: a' =>
      match skip with
      | S k => replace_from old new k a'
      | O =>
          if startswith old a
          then new ++ replace_from old new (pred (length old)) a'
          else c :: replace_from old new 0 a'
      end
  end.

Definition replace (old new a : str) : str := replace_from old new 0 a.

(** [a.rfind(c)] for a single character: the last index, if any. *)
Fixpoint rfind (c : ascii) (a : str) : option nat :=
  match a with
  | [] => None
  | x :: a' =>
      match rfind c a' with
      | Some i => Some (S i)
      | None => if ascii_eqb x c then Some 0 else None
      end
  end.

(** [a.split(c)]. *)
Fixpoint split_on (c : ascii) (a : str) : list str :=
  match a with
  | [] => [[]]
  | x :: a' =>
      if ascii_eqb x c then [] :: split_on c a'
      else match split_on c a' with
           | w :: ws => (x :: w) :: ws
           | [] => [[x]]
           end
  end.

Fixpoint join (sep : str) (l : list str) : str :=
  match l with
  | [] => []
  | [w] => w
  | w :: ws => w ++ sep ++ join sep ws
  end.

Definition in_range (lo hi c : ascii) : bool :=
  (nat_of_ascii lo <=? nat_of_ascii c) && (nat_of_ascii c <=? nat_of_ascii hi).

Definition is_upper (c : ascii) : bool := in_range "A" "Z" c.
Definition is_lower (c : ascii) : bool := in_range "a" "z" c.
Definition is_digit (c : ascii) : bool := in_range "0" "9" c.

(** [c.lower()] on the letters A-Z; other characters below 256 that have a
    lower case (the accented capitals) are outside every pattern below. *)
Definition lower_char (c : ascii) : ascii :=
  if is_upper c then ascii_of_nat (nat_of_ascii c + 32) else c.

Definition lower (a : str) : str := map lower_char a.

Definition newline : ascii := "010".

(* ===================================================================== *)
(** * The fragment of [re] that [app/utils.py] uses *)
(* ===================================================================== *)

Module Re.

(** A pattern is a sequence of atoms.  [AClass p lo hi] is a character
    class with a repetition count: [x] is [{1,1}], [.*] is the class of
    non-newline characters with no upper bound. *)
Inductive atom :=
| ABegin                                               (* ^ *)
| AEnd                                                 (* $ *)
| AClass (p : ascii -> bool) (lo : nat) (hi : option nat).

Definition pattern := list atom.

(** [$] without [re.MULTILINE]: at the end of the string, or just before a
    newline that is the last character. *)
Definition at_end (a : str) : bool :=
  match a with
  | [] => true
  | [c] => ascii_eqb c newline
  | _ => false
  end.

(** Between [lo] and [hi] characters of class [p], then the continuation
    [k]; the result only says whether some split succeeds, so the order in
    which the engine tries them does not show. *)
Fixpoint rep (p : ascii -> bool) (k : nat -> str -> bool)
         (lo hi pos : nat) (a : str) {struct hi} : bool :=
  (if lo =? 0 then k pos a else false) ||
  match hi, a with
  | S hi', c :: a' => p c && rep p k (pred lo) hi' (S pos) a'
  | _, _ => false
  end.

(** Does the pattern match starting at offset [pos], where [a] is the rest
    of the subject from [pos] on? *)
Fixpoint match_at (r : pattern) (pos : nat) (a : str) {struct r} : bool :=
  match r with
  | [] => true
  | ABegin :: r' => (pos =? 0) && match_at r' pos a
  | AEnd :: r' => at_end a && match_at r' pos a
  | AClass p lo hi :: r' =>
      rep p (fun pos' a' => match_at r' pos' a') lo
          (match hi with Some h => h | None => length a end) pos a
  end.

(** [re.match(r, a)] is not None. *)
Definition re_match (r : pattern) (a : str) : bool := match_at r 0 a.

Fixpoint search_from (r : pattern) (pos : nat) (a : str) : bool :=
  match_at r pos a ||
  match a with
  | [] => false
  | _ :: a' => search_from r (S pos) a'
  end.

(** [re.search(r, a)] is not None. *)
Definition re_search (r : pattern) (a : str) : bool := search_from r 0 a.

(** [re.IGNORECASE], for patterns whose letters are written in lower
    case, on strings of code points below 256: there a character matches a
    letter of the pattern exactly when it is that letter in either case.
    Beyond them the flag also lets U+017F stand for [s], U+0130 and U+0131
    for [i] and U+212A for [k]; such strings are outside the model. *)
Definition ignorecase (r : pattern) : pattern :=
  map (fun x => match x with
                | AClass p lo hi => AClass (fun c => p (lower_char c)) lo hi
                | _ => x
                end) r.

Definition chr (c : ascii) : atom := AClass (ascii_eqb c) 1 (Some 1).

(** A literal piece of a pattern. *)
Definition lit (x : string) : pattern := map chr (s x).

(** [.*] *)
Definition dot_star : atom :=
  AClass (fun c => negb (ascii_eqb c newline)) 0 None.

(** [re.sub(class, repl, a)] for a one-character class. *)
Definition sub_class (p : ascii -> bool) (repl : ascii) (a : str) : str :=
  map (fun c => if p c then repl else c) a.

End Re.

(* ===================================================================== *)
(** * app/utils.py *)
(* ===================================================================== *)

Definition dangerous_patterns : list Re.pattern :=
  [ Re.lit "&&"; Re.lit "||"; Re.lit ";"; Re.lit "|"; Re.lit ">"; Re.lit "<";
    Re.lit "`"; Re.lit "$("; Re.lit "bash"; Re.lit "sh "; Re.lit "/bin/";
    Re.lit "rm "; Re.lit "dd "; Re.lit "mkfs";
    Re.lit "curl" ++ [Re.dot_star] ++ Re.lit "|";
    Re.lit "wget" ++ [Re.dot_star] ++ Re.lit "|" ].

Definition validate_start_command (command : str) : bool :=
  match command with
  | [] => false
  | _ =>
      if 500 <? length command then false
      else negb (existsb (fun p => Re.re_search (Re.ignorecase p) command)
                         dangerous_patterns)
  end.

(** The class [[a-zA-Z0-9_-]]. *)
Definition name_char (c : ascii) : bool :=
  is_lower c || is_upper c || is_digit c || ascii_eqb c "_" || ascii_eqb c "-".

(** [r'^[a-zA-Z0-9_-]{3,50}$'] *)
Definition bot_name_pattern : Re.pattern :=
  [ Re.ABegin; Re.AClass name_char 3 (Some 50); Re.AEnd ].

Definition validate_bot_name (name : str) : bool :=
  Re.re_match bot_name_pattern name.

(** [os.path.basename] (posixpath): what follows the last slash. *)
Definition basename (p : str) : str :=
  match rfind "/" p with
  | Some i => skipn (S i) p
  | None => p
  end.

(** [os.path.splitext] (posixpath, [genericpath._splitext]): the extension
    starts at the last dot of the last component, unless only dots come
    before it in that component. *)
Definition splitext (p : str) : str * str :=
  let start := match rfind "/" p with Some i => S i | None => 0 end in
  match rfind "." p with
  | Some dot =>
      if (start <=? dot) &&
         existsb (fun c => negb (ascii_eqb c ".")) (skipn start (firstn dot p))
      then (firstn dot p, skipn dot p)
      else (p, [])
  | None => (p, [])
  end.

(** The class [[a-zA-Z0-9._-]]; [re.sub] replaces its complement. *)
Definition safe_char (c : ascii) : bool := name_char c || ascii_eqb c ".".

Definition sanitize_filename (filename : str) : str :=
  let filename := basename filename in
  let filename := replace (s "\") [] (replace (s "/") [] (replace (s "..") [] filename)) in
  let filename := Re.sub_class (fun c => negb (safe_char c)) "_" filename in
  if 255 <? length filename
  then let '(name, ext) := splitext filename in firstn 250 name ++ ext
  else filename.

(** The two halves of [sanitize_filename], named for the proofs: the
    character-level cleaning and the length limit. *)
Definition nondot (c : ascii) : bool := negb (ascii_eqb c ".").

Definition strip_unsafe (filename : str) : str :=
  Re.sub_class (fun c => negb (safe_char c)) "_"
    (replace (s "\") [] (replace (s "/") [] (replace (s "..") [] (basename filename)))).

Definition limit_length (filename : str) : str :=
  if 255 <? length filename
  then let '(name, ext) := splitext filename in firstn 250 name ++ ext
  else filename.

(* ===================================================================== *)
(** * Exceptions and results *)
(* ===================================================================== *)

Inductive exn :=
| HTTPException (status_code : nat) (detail : str)
| RuntimeError (msg : str)
| ValueError (msg : str)
| DockerNotFound (msg : str)     (* docker.errors.NotFound, an APIError *)
| DockerAPIError (msg : str)     (* any other docker.errors.APIError *)
| DockerError (msg : str)        (* any other docker.errors.DockerException *)
| BadZipFile (msg : str)         (* zipfile.BadZipFile *)
| OtherError (msg : str).        (* anything else, e.g. a dropped connection *)

Definition result (A : Type) : Type := exn + A.

Definition str_of_nat (n : nat) : str :=
  s (DecimalString.NilEmpty.string_of_uint (Nat.to_uint n)).

(** [str(e)].  An [HTTPException] prints as [status_code: detail]
    (starlette's [__str__]); the others print their message. *)
Definition str_exn (e : exn) : str :=
  match e with
  | HTTPException code detail => str_of_nat code ++ s ": " ++ detail
  | RuntimeError m | ValueError m | DockerNotFound m | DockerAPIError m
  | DockerError m | BadZipFile m | OtherError m => m
  end.

Definition NotFoundException (detail : str) : exn := HTTPException 404 detail.
Definition ForbiddenException (detail : str) : exn := HTTPException 403 detail.
Definition BadRequestException (detail : str) : exn := HTTPException 400 detail.
Definition ConflictException (detail : str) : exn := HTTPException 409 detail.

(** [except APIError] and [except DockerException]. *)
Definition is_not_found (e : exn) : bool :=
  match e with DockerNotFound _ => true | _ => false end.

Definition is_api_error (e : exn) : bool :=
  match e with DockerNotFound _ | DockerAPIError _ => true | _ => false end.

Definition is_docker_exception (e : exn) : bool :=
  match e with
  | DockerNotFound _ | DockerAPIError _ | DockerError _ => true
  | _ => false
  end.

(** [except zipfile.BadZipFile] *)
Definition is_bad_zip (e : exn) : bool :=
  match e with BadZipFile _ => true | _ => false end.

(* ===================================================================== *)
(** * app/models.py *)
(* ===================================================================== *)

Inductive BotStatus := CREATED | RUNNING | STOPPED | CRASHED.
Inductive BotRuntime := PYTHON | NODE.
Inductive SourceType := ZIP | FILE.

Record Plan := {
  p_id : nat;
  p_name : str;
  max_bots : Z;
  cpu_limit : str;
  ram_limit : str
}.

(** [created_at] is left out: no clock is modelled. *)
Record Bot := {
  b_id : nat;
  user_id : nat;
  plan_id : nat;
  runtime : BotRuntime;
  name : str;
  container_id : option str;
  status : BotStatus;
  start_cmd : option str;
  source_type : option SourceType
}.

Record AuditLog := {
  a_user_id : nat;
  action : str;
  target_id : str;
  ip_address : str;
  details : option str
}.

Definition set_container_id (c : option str) (b : Bot) : Bot :=
  {| b_id := b_id b; user_id := user_id b; plan_id := plan_id b;
     runtime := runtime b; name := name b; container_id := c;
     status := status b; start_cmd := start_cmd b;
     source_type := source_type b |}.

Definition set_status (st : BotStatus) (b : Bot) : Bot :=
  {| b_id := b_id b; user_id := user_id b; plan_id := plan_id b;
     runtime := runtime b; name := name b; container_id := container_id b;
     status := st; start_cmd := start_cmd b;
     source_type := source_type b |}.

Definition set_source_type (t : option SourceType) (b : Bot) : Bot :=
  {| b_id := b_id b; user_id := user_id b; plan_id := plan_id b;
     runtime := runtime b; name := name b; container_id := container_id b;
     status := status b; start_cmd := start_cmd b;
     source_type := t |}.

(** Truth value of an optional string: [None] and the empty string are
    false. *)
Definition truthy (o : option str) : bool :=
  match o with
  | Some (_ :: _) => true
  | _ => false
  end.

(* ===================================================================== *)
(** * The world: database, artifact store, runtime client *)
(* ===================================================================== *)

(** An artifact directory is the list of the paths below it, relative to
    the bot's root; a directory is listed with a trailing slash.  File
    contents are not modelled. *)
Definition directory := list str.

Record World := {
  plans : list Plan;
  bots : list Bot;
  audit_logs : list AuditLog;
  next_bot_id : nat;                      (* the autoincrement of bots.id *)
  storage : list (nat * directory);       (* BOT_STORAGE_PATH/<id> *)
  docker_client : bool                    (* _docker_client is not None *)
}.

Definition with_bots (f : list Bot -> list Bot) (w : World) : World :=
  {| plans := plans w; bots := f (bots w); audit_logs := audit_logs w;
     next_bot_id := next_bot_id w; storage := storage w;
     docker_client := docker_client w |}.

Definition with_storage (f : list (nat * directory) -> list (nat * directory))
           (w : World) : World :=
  {| plans := plans w; bots := bots w; audit_logs := audit_logs w;
     next_bot_id := next_bot_id w; storage := f (storage w);
     docker_client := docker_client w |}.

Definition with_audit (a : AuditLog) (w : World) : World :=
  {| plans := plans w; bots := bots w; audit_logs := audit_logs w ++ [a];
     next_bot_id := next_bot_id w; storage := storage w;
     docker_client := docker_client w |}.

Definition with_client (w : World) : World :=
  {| plans := plans w; bots := bots w; audit_logs := audit_logs w;
     next_bot_id := next_bot_id w; storage := storage w;
     docker_client := true |}.

Definition bump_bot_id (w : World) : World :=
  {| plans := plans w; bots := bots w; audit_logs := audit_logs w;
     next_bot_id := S (next_bot_id w); storage := storage w;
     docker_client := docker_client w |}.

(** [db.query(Bot).filter(Bot.id == bot_id).first()] *)
Definition find_bot (bot_id : nat) (l : list Bot) : option Bot :=
  find (fun b => b_id b =? bot_id) l.

(** Assigning to the attributes of the row that [first()] returned, then
    [db.commit()]. *)
Fixpoint update_bot (bot_id : nat) (f : Bot -> Bot) (l : list Bot) : list Bot :=
  match l with
  | [] => []
  | b :: l' => if b_id b =? bot_id then f b :: l'
               else b :: update_bot bot_id f l'
  end.

(** [db.delete(bot)] *)
Fixpoint delete_row (bot_id : nat) (l : list Bot) : list Bot :=
  match l with
  | [] => []
  | b :: l' => if b_id b =? bot_id then l' else b :: delete_row bot_id l'
  end.

Definition find_plan (pid : nat) (l : list Plan) : option Plan :=
  find (fun p => p_id p =? pid) l.

(** The content of a bot's directory; a directory that does not exist has
    no content. *)
Fixpoint dir_of (bot_id : nat) (st : list (nat * directory)) : directory :=
  match st with
  | [] => []
  | (i, d) :: st' => if i =? bot_id then d else dir_of bot_id st'
  end.

Fixpoint dir_exists (bot_id : nat) (st : list (nat * directory)) : bool :=
  match st with
  | [] => false
  | (i, _) :: st' => (i =? bot_id) || dir_exists bot_id st'
  end.

Fixpoint dir_set (bot_id : nat) (d : directory) (st : list (nat * directory))
  : list (nat * directory) :=
  match st with
  | [] => [(bot_id, d)]
  | (i, d') :: st' => if i =? bot_id then (i, d) :: st'
                      else (i, d') :: dir_set bot_id d st'
  end.

Definition dir_remove (bot_id : nat) (st : list (nat * directory))
  : list (nat * directory) :=
  filter (fun e => negb (fst e =? bot_id)) st.

(** ** The handler monad: the world is threaded, and kept when an exception
    is raised. *)

Definition M (A : Type) : Type := World -> World * result A.

Definition ret {A} (x : A) : M A := fun w => (w, inr x).
Definition raise {A} (e : exn) : M A := fun w => (w, inl e).

Definition bind {A B} (m : M A) (k : A -> M B) : M B :=
  fun w => match m w with
           | (w', inr x) => k x w'
           | (w', inl e) => (w', inl e)
           end.

(** [try: m except <cls> as e: h e] *)
Definition try_except {A} (m : M A) (cls : exn -> bool) (h : exn -> M A) : M A :=
  fun w => match m w with
           | (w', inl e) => if cls e then h e w' else (w', inl e)
           | r => r
           end.

Definition lift {A} (r : result A) : M A := fun w => (w, r).
Definition get_world : M World := fun w => (w, inr w).
Definition modify (f : World -> World) : M unit := fun w => (f w, inr tt).

Declare Scope monad_scope.
Delimit Scope monad_scope with M.
Notation "x <- m ;; k" := (bind m (fun x => k))
  (at level 61, m at next level, right associativity) : monad_scope.
Notation "m ;; k" := (bind m (fun _ => k))
  (at level 61, right associativity) : monad_scope.
Local Open Scope monad_scope.

Definition any_exception (_ : exn) : bool := true.

(* ===================================================================== *)
(** * app/docker.py *)
(* ===================================================================== *)

(** What [client.containers.get] returns: the status string and, from
    [attrs], the [State] mapping reduced to its [ExitCode] entry (either
    may be missing). *)
Record Container := {
  c_status : str;
  c_state : option (option Z)
}.

(** The answers of the container runtime, and of the host's floating
    point, during one request.  A generator of log chunks is given by the
    chunks it produces and by how it ends ([None]: exhausted). *)
Record Daemon := {
  connect : result unit;             (* docker.DockerClient(base_url=...) *)
  cpu_quota : result Z;              (* int(float(cpu_limit) * cpu_period) *)
  images_get : result unit;
  images_pull : result unit;
  containers_create : result str;    (* the id of the new container *)
  containers_get : result Container;
  container_start : result unit;
  container_stop : result unit;
  container_restart : result unit;
  container_remove : result unit;
  logs_tail : result str;            (* logs(tail=n), decoded *)
  logs_follow : list str * option exn  (* logs(stream=True, follow=True) *)
}.

Definition get_docker_client (d : Daemon) : M unit :=
  fun w =>
    if docker_client w then (w, inr tt)
    else match connect d with
         | inr _ => (with_client w, inr tt)
         | inl e =>
             if is_docker_exception e
             then (w, inl (RuntimeError (s "Docker service unavailable: " ++ str_exn e)))
             else (w, inl (RuntimeError (s "Failed to initialize Docker client: " ++ str_exn e)))
         end.

Record RuntimeConfig := {
  image : str;
  build_cmd : str;
  default_start : str;
  working_dir : str;
  allowed_extensions : list str
}.

Definition RUNTIME_REGISTRY (r : BotRuntime) : RuntimeConfig :=
  match r with
  | PYTHON =>
      {| image := s "python:3.11-slim";
         build_cmd := s "pip install --no-cache-dir -r requirements.txt";
         default_start := s "python main.py";
         working_dir := s "/app";
         allowed_extensions := [s ".py"; s ".txt"; s ".json"; s ".yaml"; s ".yml"] |}
  | NODE =>
      {| image := s "node:20-alpine";
         build_cmd := s "npm install";
         default_start := s "node index.js";
         working_dir := s "/app";
         allowed_extensions := [s ".js"; s ".json"; s ".ts"] |}
  end.

(** Every value of [BotRuntime] is a key of the registry, so the
    [Unsupported runtime] branch cannot be taken. *)
Definition get_runtime_config (r : BotRuntime) : RuntimeConfig := RUNTIME_REGISTRY r.

(** [bot_path.mkdir(parents=True, exist_ok=True)] *)
Definition get_bot_storage_path (bot_id : nat) : M unit :=
  modify (with_storage (fun st =>
    if dir_exists bot_id st then st else dir_set bot_id [] st)).

(** The command of the container; the other arguments of
    [containers.create] are constants of the source. *)
Definition container_command (cfg : RuntimeConfig) (start : str) : list str :=
  [s "sh"; s "-c"; build_cmd cfg ++ s " 2>&1 || true && " ++ start].

Definition create_container (d : Daemon) (bot_id : nat) (rt : BotRuntime)
           (start : option str) (cpu ram : str) : M str :=
  get_docker_client d ;;
  let runtime_config := get_runtime_config rt in
  get_bot_storage_path bot_id ;;
  let start := if truthy start
               then match start with Some c => c | None => [] end
               else default_start runtime_config in
  let command := container_command runtime_config start in
  _ <- lift (cpu_quota d) ;;
  try_except
    (try_except (lift (images_get d)) is_not_found
                (fun _ => lift (images_pull d)) ;;
     lift (containers_create d))
    is_api_error
    (fun e => raise (BadRequestException (s "Failed to create container: " ++ str_exn e))).

Definition start_container (d : Daemon) (cid : str) : M bool :=
  get_docker_client d ;;
  try_except
    (_ <- lift (containers_get d) ;; lift (container_start d) ;; ret true)
    is_api_error (fun _ => ret false).

Definition stop_container (d : Daemon) (cid : str) : M bool :=
  get_docker_client d ;;
  try_except
    (_ <- lift (containers_get d) ;; lift (container_stop d) ;; ret true)
    is_api_error (fun _ => ret false).

Definition remove_container (d : Daemon) (cid : str) : M bool :=
  get_docker_client d ;;
  try_except
    (_ <- lift (containers_get d) ;; lift (container_remove d) ;; ret true)
    is_api_error (fun e => ret (is_not_found e)).

Definition exit_code (c : Container) : Z :=
  match c_state c with
  | Some (Some n) => n
  | _ => 0%Z
  end.

Definition get_container_status (d : Daemon) (cid : str) : M BotStatus :=
  get_docker_client d ;;
  try_except
    (container <- lift (containers_get d) ;;
     let docker_status := lower (c_status container) in
     if str_eqb docker_status (s "running") then ret RUNNING
     else if str_in docker_status [s "exited"; s "dead"] then
       if negb (exit_code container =? 0)%Z then ret CRASHED else ret STOPPED
     else if str_eqb docker_status (s "created") then ret CREATED
     else ret STOPPED)
    is_api_error (fun _ => ret STOPPED).

(** A generator, run to its end: the lines it yields and how it stops
    ([None]: it returns, [Some e]: it raises [e] to the consumer).  The
    chunks are taken as already decoded; decoding with
    [errors='replace'] cannot fail. *)
Definition stream_logs (d : Daemon) (cid : str) : M (list str * option exn) :=
  fun w =>
    match get_docker_client d w with
    | (w', inl e) => (w', inr ([], Some e))
    | (w', inr _) =>
        let handler (yielded : list str) (e : exn) :=
          if is_not_found e then (yielded ++ [s "Container not found"], None)
          else if is_api_error e
          then (yielded ++ [s "Error streaming logs: " ++ str_exn e], None)
          else (yielded, Some e) in
        match containers_get d with
        | inl e => (w', inr (handler [] e))
        | inr _ =>
            match logs_follow d with
            | (chunks, None) => (w', inr (chunks, None))
            | (chunks, Some e) => (w', inr (handler chunks e))
            end
        end
    end.

Definition get_recent_logs (d : Daemon) (cid : str) (tail : nat) : M str :=
  get_docker_client d ;;
  try_except
    (_ <- lift (containers_get d) ;; lift (logs_tail d))
    is_api_error
    (fun e => if is_not_found e then ret (s "Container not found")
              else ret (s "Error retrieving logs: " ++ str_exn e)).

Definition restart_container (d : Daemon) (cid : str) : M bool :=
  get_docker_client d ;;
  try_except
    (_ <- lift (containers_get d) ;; lift (container_restart d) ;; ret true)
    is_api_error (fun _ => ret false).

(* ===================================================================== *)
(** * pathlib and zipfile, as far as [app/bots.py] uses them *)
(* ===================================================================== *)

Definition is_empty {A} (l : list A) : bool :=
  match l with [] => true | _ => false end.

(** [PurePosixPath(p).is_absolute()] *)
Definition is_absolute (p : str) : bool := startswith (s "/") p.

(** [PurePosixPath(p).parts]: the components between slashes, without the
    empty ones and the single dots, after the root if there is one.  (A
    root written with exactly two slashes is kept as [//] by pathlib; it is
    shown as [/] here.) *)
Definition path_parts (p : str) : list str :=
  (if is_absolute p then [s "/"] else []) ++
  filter (fun c => negb (is_empty c || str_eqb c (s "."))) (split_on "/" p).

(** [PurePosixPath(p).name] *)
Definition path_name (p : str) : str :=
  last (filter (fun c => negb (is_empty c || str_eqb c (s "."))) (split_on "/" p)) [].

(** [PurePosixPath(p).suffix]: from the last dot of the name, unless that
    dot is the first or the last character of the name. *)
Definition suffix (p : str) : str :=
  let name := path_name p in
  match rfind "." name with
  | Some i => if (0 <? i) && (i <? length name - 1) then skipn i name else []
  | None => []
  end.

(** Where [ZipFile.extract] writes a member: the empty, [.] and [..]
    components are dropped. *)
Definition extract_target (member : str) : str :=
  join (s "/")
       (filter (fun c => negb (is_empty c || str_eqb c (s ".") || str_eqb c (s "..")))
               (split_on "/" member)).

Definition add_path (p : str) (d : directory) : directory :=
  if str_in p d then d else d ++ [p].

Definition remove_path (p : str) (d : directory) : directory :=
  filter (fun q => negb (str_eqb q p)) d.

(** The directory after the given members have been written to it, in
    order; a member whose target is the root itself adds nothing. *)
Definition extract_members (members : list str) (d : directory) : directory :=
  fold_left
    (fun d m =>
       let t := extract_target m in
       if is_empty t then d
       else add_path (if endswith (s "/") m then t ++ s "/" else t) d)
    members d.

(** The first component of a stored path: the entry of [bot_path.glob("*")]
    it lives under. *)
Definition top_entry (p : str) : str := hd [] (split_on "/" p).

(* ===================================================================== *)
(** * app/bots.py *)
(* ===================================================================== *)

Record BotCreate := {
  bc_name : str;
  bc_runtime : BotRuntime;
  bc_start_cmd : option str;
  bc_plan_id : nat
}.

Record BotResponse := {
  r_id : nat;
  r_name : str;
  r_runtime : BotRuntime;
  r_status : BotStatus;
  r_start_cmd : option str;
  r_source_type : option SourceType
}.

Definition bot_response (b : Bot) : BotResponse :=
  {| r_id := b_id b; r_name := name b; r_runtime := runtime b;
     r_status := status b; r_start_cmd := start_cmd b;
     r_source_type := source_type b |}.

(** An uploaded file: the client's file name; when the payload can be
    opened as a zip archive, the names of its members ([namelist()]); and
    how [extractall] fares on it during this request.  [zip_failure] is
    [None] when every member is written, and [Some (n, e)] when the call
    raises [e] after it has written the first [n] members: [BadZipFile]
    for a member whose data or checksum is bad, an [OSError] when the
    target of a member collides with a file or a directory that is already
    there (the saved archive included), and so on. *)
Record UploadFile := {
  filename : option str;
  zip_members : option (list str);
  zip_failure : option (nat * exn)
}.

Definition str_of_Z (z : Z) : str :=
  s (DecimalString.NilZero.string_of_int (Z.to_int z)).

(** [f"{bot.runtime}"]: a member of an [Enum] that mixes in [str] is
    formatted as [str()] prints it, by the names of the class and of the
    member (Python 3.11 and later; earlier versions formatted the value). *)
Definition format_runtime (r : BotRuntime) : str :=
  match r with PYTHON => s "BotRuntime.PYTHON" | NODE => s "BotRuntime.NODE" end.

Definition verify_bot_ownership (bot_id uid : nat) : M Bot :=
  w <- get_world ;;
  match find_bot bot_id (bots w) with
  | None => raise (NotFoundException (s "Bot not found"))
  | Some bot =>
      if negb (user_id bot =? uid)
      then raise (ForbiddenException (s "You don't have access to this bot"))
      else ret bot
  end.

Definition create_audit_log (uid : nat) (act target ip : str)
           (det : option str) : M unit :=
  modify (with_audit {| a_user_id := uid; action := act; target_id := target;
                        ip_address := ip; details := det |}).

Definition user_bot_count (uid : nat) (l : list Bot) : nat :=
  length (filter (fun b => user_id b =? uid) l).

Definition create_bot (bot_data : BotCreate) (ip : str) (current_user : nat)
  : M BotResponse :=
  if negb (validate_bot_name (bc_name bot_data)) then
    raise (BadRequestException
      (s "Invalid bot name. Use 3-50 alphanumeric characters, hyphens, or underscores."))
  else if truthy (bc_start_cmd bot_data) &&
          negb (validate_start_command
                  (match bc_start_cmd bot_data with Some c => c | None => [] end)) then
    raise (BadRequestException
      (s "Invalid start command. Command contains dangerous patterns."))
  else
    w <- get_world ;;
    match find_plan (bc_plan_id bot_data) (plans w) with
    | None => raise (NotFoundException (s "Plan not found"))
    | Some plan =>
        if (Z.of_nat (user_bot_count current_user (bots w)) >=? max_bots plan)%Z then
          raise (ConflictException
            (s "Bot limit reached. Your plan allows maximum "
               ++ str_of_Z (max_bots plan) ++ s " bots."))
        else if existsb (fun b => (user_id b =? current_user) &&
                                  str_eqb (name b) (bc_name bot_data)) (bots w) then
          raise (ConflictException (s "A bot with this name already exists"))
        else
          let bot := {| b_id := next_bot_id w; user_id := current_user;
                        plan_id := bc_plan_id bot_data;
                        runtime := bc_runtime bot_data;
                        name := bc_name bot_data; container_id := None;
                        status := CREATED; start_cmd := bc_start_cmd bot_data;
                        source_type := None |} in
          modify (fun w => bump_bot_id (with_bots (fun l => l ++ [bot]) w)) ;;
          get_bot_storage_path (b_id bot) ;;
          create_audit_log current_user (s "bot_create") (str_of_nat (b_id bot)) ip None ;;
          ret (bot_response bot)
    end.

Definition list_bots (current_user : nat) : M (list BotResponse) :=
  w <- get_world ;;
  ret (map bot_response (filter (fun b => user_id b =? current_user) (bots w))).

(** The checks on one archive member; [None] when it passes. *)
Definition check_member (rt : BotRuntime) (member : str) : option exn :=
  if is_absolute member || str_in (s "..") (path_parts member) then
    Some (BadRequestException (s "Invalid file path in zip"))
  else if endswith (s "/") member then None
  else
    let ext := suffix member in
    if negb (is_empty ext) &&
       negb (str_in ext (allowed_extensions (get_runtime_config rt))) then
      Some (BadRequestException
        (s "File type " ++ ext ++ s " not allowed for " ++ format_runtime rt ++ s " runtime"))
    else None.

(** The loop over [namelist()]: the first member that fails raises. *)
Fixpoint check_members (rt : BotRuntime) (members : list str) : M unit :=
  match members with
  | [] => ret tt
  | m :: rest =>
      match check_member rt m with
      | Some e => raise e
      | None => check_members rt rest
      end
  end.

Definition set_dir (bot_id : nat) (f : directory -> directory) : M unit :=
  modify (with_storage (fun st => dir_set bot_id (f (dir_of bot_id st)) st)).

(** [zip_ref.extractall(bot_path)]: the members are written in order, and
    what was written before a failure stays. *)
Definition extractall (bot_id : nat) (members : list str)
           (failure : option (nat * exn)) : M unit :=
  match failure with
  | None => set_dir bot_id (extract_members members)
  | Some (n, e) => set_dir bot_id (extract_members (firstn n members)) ;; raise e
  end.

(** The [try] block of the zip branch of [upload_bot_files], with its
    handler: the archive is opened, its members are checked and extracted,
    the archive file is removed and the source type is set. *)
Definition unpack_archive (bot : Bot) (bot_id : nat) (fname : str) (file : UploadFile)
  : M unit :=
  try_except
    (match zip_members file with
     | None => raise (BadZipFile (s "File is not a zip file"))
     | Some members =>
         check_members (runtime bot) members ;;
         extractall bot_id members (zip_failure file) ;;
         set_dir bot_id (remove_path fname) ;;
         modify (with_bots (update_bot bot_id (set_source_type (Some ZIP))))
     end)
    is_bad_zip
    (fun _ => raise (BadRequestException (s "Invalid zip file"))).

Definition upload_bot_files (bot_id : nat) (ip : str) (file : UploadFile)
           (current_user : nat) : M str :=
  bot <- verify_bot_ownership bot_id current_user ;;
  let runtime_config := get_runtime_config (runtime bot) in
  get_bot_storage_path bot_id ;;
  (* every entry of the directory but .gitkeep is removed *)
  set_dir bot_id (filter (fun p => str_eqb (top_entry p) (s ".gitkeep"))) ;;
  let fname := sanitize_filename
                 (if truthy (filename file)
                  then match filename file with Some f => f | None => [] end
                  else s "upload") in
  (if endswith (s ".zip") fname then
     (* the archive is saved under the bot's directory first *)
     set_dir bot_id (add_path fname) ;;
     unpack_archive bot bot_id fname file
   else
     let ext := suffix fname in
     if negb (str_in ext (allowed_extensions runtime_config)) then
       raise (BadRequestException
         (s "File type " ++ ext ++ s " not allowed for "
            ++ format_runtime (runtime bot) ++ s " runtime"))
     else
       set_dir bot_id (add_path fname) ;;
       modify (with_bots (update_bot bot_id (set_source_type (Some FILE))))) ;;
  create_audit_log current_user (s "bot_upload") (str_of_nat bot_id) ip
                   (Some (s "Uploaded " ++ fname)) ;;
  ret fname.

Definition cid_of (o : option str) : str :=
  match o with Some c => c | None => [] end.

(** The block under [if not bot.container_id]: the sandbox is created and
    its handle persisted; the result is the row as the session sees it. *)
Definition ensure_container (d : Daemon) (bot : Bot) (plan : Plan) (bot_id : nat)
  : M Bot :=
  if negb (truthy (container_id bot)) then
    cid <- create_container d (b_id bot) (runtime bot) (start_cmd bot)
                            (cpu_limit plan) (ram_limit plan) ;;
    modify (with_bots (update_bot bot_id (set_container_id (Some cid)))) ;;
    ret (set_container_id (Some cid) bot)
  else ret bot.

(** The body of the [try] block of [start_bot]. *)
Definition start_attempt (d : Daemon) (bot : Bot) (plan : Plan) (bot_id : nat)
           (ip : str) (current_user : nat) : M Bot :=
  bot <- ensure_container d bot plan bot_id ;;
  success <- start_container d (cid_of (container_id bot)) ;;
  if negb success then
    raise (BadRequestException (s "Failed to start container"))
  else
    modify (with_bots (update_bot bot_id (set_status RUNNING))) ;;
    create_audit_log current_user (s "bot_start") (str_of_nat bot_id) ip None ;;
    ret (set_status RUNNING bot).

Definition start_bot (d : Daemon) (bot_id : nat) (ip : str) (current_user : nat)
  : M BotResponse :=
  bot <- verify_bot_ownership bot_id current_user ;;
  w <- get_world ;;
  match find_plan (plan_id bot) (plans w) with
  | None => raise (NotFoundException (s "Plan not found"))
  | Some plan =>
      get_bot_storage_path bot_id ;;
      w <- get_world ;;
      if is_empty (dir_of bot_id (storage w)) then
        raise (BadRequestException (s "No files uploaded. Please upload bot code first."))
      else
        bot <- try_except
          (start_attempt d bot plan bot_id ip current_user)
          any_exception
          (fun e =>
             modify (with_bots (update_bot bot_id (set_status CRASHED))) ;;
             raise (BadRequestException (s "Failed to start bot: " ++ str_exn e))) ;;
        ret (bot_response bot)
  end.

Definition stop_bot (d : Daemon) (bot_id : nat) (ip : str) (current_user : nat)
  : M BotResponse :=
  bot <- verify_bot_ownership bot_id current_user ;;
  if negb (truthy (container_id bot)) then
    raise (BadRequestException (s "Bot has no container"))
  else
    success <- stop_container d (cid_of (container_id bot)) ;;
    if negb success then raise (BadRequestException (s "Failed to stop container"))
    else
      modify (with_bots (update_bot bot_id (set_status STOPPED))) ;;
      create_audit_log current_user (s "bot_stop") (str_of_nat bot_id) ip None ;;
      ret (bot_response (set_status STOPPED bot)).

Definition restart_bot (d : Daemon) (bot_id : nat) (ip : str) (current_user : nat)
  : M BotResponse :=
  bot <- verify_bot_ownership bot_id current_user ;;
  if negb (truthy (container_id bot)) then
    raise (BadRequestException (s "Bot has no container"))
  else
    success <- restart_container d (cid_of (container_id bot)) ;;
    if negb success then raise (BadRequestException (s "Failed to restart container"))
    else
      modify (with_bots (update_bot bot_id (set_status RUNNING))) ;;
      create_audit_log current_user (s "bot_restart") (str_of_nat bot_id) ip None ;;
      ret (bot_response (set_status RUNNING bot)).

Definition delete_bot (d : Daemon) (bot_id : nat) (ip : str) (current_user : nat)
  : M unit :=
  bot <- verify_bot_ownership bot_id current_user ;;
  (if truthy (container_id bot)
   then _ <- remove_container d (cid_of (container_id bot)) ;; ret tt
   else ret tt) ;;
  get_bot_storage_path bot_id ;;
  modify (with_storage (dir_remove bot_id)) ;;
  modify (with_bots (delete_row bot_id)) ;;
  create_audit_log current_user (s "bot_delete") (str_of_nat bot_id) ip None.

(** ** Requests, and runs of the lifecycle manager *)

Inductive Request :=
| Create (bot_data : BotCreate) (ip : str) (current_user : nat)
| Upload (bot_id : nat) (ip : str) (file : UploadFile) (current_user : nat)
| Start (d : Daemon) (bot_id : nat) (ip : str) (current_user : nat)
| Stop (d : Daemon) (bot_id : nat) (ip : str) (current_user : nat)
| Restart (d : Daemon) (bot_id : nat) (ip : str) (current_user : nat)
| Delete (d : Daemon) (bot_id : nat) (ip : str) (current_user : nat).

(** The world after a request, whatever the response. *)
Definition handle (r : Request) (w : World) : World :=
  match r with
  | Create bd ip u => fst (create_bot bd ip u w)
  | Upload i ip f u => fst (upload_bot_files i ip f u w)
  | Start d i ip u => fst (start_bot d i ip u w)
  | Stop d i ip u => fst (stop_bot d i ip u w)
  | Restart d i ip u => fst (restart_bot d i ip u w)
  | Delete d i ip u => fst (delete_bot d i ip u w)
  end.

Definition run (reqs : list Request) (w : World) : World :=
  fold_left (fun w r => handle r w) reqs w.

(** A freshly deployed service: the plans are there, there is no bot. *)
Definition initial_world (ps : list Plan) : World :=
  {| plans := ps; bots := []; audit_logs := []; next_bot_id := 1;
     storage := []; docker_client := false |}.

(** The plans that [startup_event] inserts into an empty database. *)
Definition default_plans : list Plan :=
  [ {| p_id := 1; p_name := s "Free"; max_bots := 1;
       cpu_limit := s "0.5"; ram_limit := s "256m" |};
    {| p_id := 2; p_name := s "Basic"; max_bots := 3;
       cpu_limit := s "1.0"; ram_limit := s "512m" |};
    {| p_id := 3; p_name := s "Pro"; max_bots := 10;
       cpu_limit := s "2.0"; ram_limit := s "1g" |} ].

(* ===================================================================== *)
(** * app/sockets.py *)
(* ===================================================================== *)

(** What the handler does on the socket, in order. *)
Inductive ws_event :=
| Accept
| SendText (text : str)
| Close (code : nat).

(** [bot_logs_websocket], for a subscriber that stays connected (no send
    fails).  [user] is the result of [get_current_user_ws]: the user the
    token resolves to, if any. *)
Definition bot_logs_websocket (d : Daemon) (user : option nat) (bot_id : nat)
  : World -> World * list ws_event :=
  fun w =>
    match user with
    | None => (w, [Accept; SendText (s "Authentication failed"); Close 1008])
    | Some uid =>
        match verify_bot_ownership bot_id uid w with
        | (w1, inl e) =>
            (w1, [Accept; SendText (s "Authorization failed: " ++ str_exn e); Close 1008])
        | (w1, inr bot) =>
            if negb (truthy (container_id bot)) then
              (w1, [Accept;
                    SendText (s "Bot has no container. Please start the bot first.");
                    Close 1000])
            else
              match get_recent_logs d (cid_of (container_id bot)) 50 w1 with
              | (w2, inl e) =>
                  (* the outer handler *)
                  (w2, [Accept; SendText (s "Error: " ++ str_exn e); Close 1011])
              | (w2, inr recent_logs) =>
                  let preamble :=
                    if is_empty recent_logs then []
                    else [SendText (s "=== Recent Logs ===" ++ [newline] ++ recent_logs
                                      ++ [newline] ++ s "=== Live Stream ===" ++ [newline])] in
                  match stream_logs d (cid_of (container_id bot)) w2 with
                  | (w3, inr (lines, None)) =>
                      (w3, Accept :: preamble ++ map SendText lines)
                  | (w3, inr (lines, Some e)) =>
                      (* the handler inside stream_to_websocket *)
                      (w3, Accept :: preamble ++ map SendText lines
                             ++ [SendText (s "Error: " ++ str_exn e)])
                  | (w3, inl e) =>
                      (w3, Accept :: preamble ++ [SendText (s "Error: " ++ str_exn e)])
                  end
              end
        end
    end.

(* ===================================================================== *)
(** * Definitions used to state the properties *)
(* ===================================================================== *)

(** The runtime client can be had: it exists already, or connecting
    succeeds. *)
Definition client_available (d : Daemon) (w : World) : Prop :=
  docker_client w = true \/ connect d = inr tt.

(** A runtime in which the sandbox exists and whose output is the given
    tail and the given single live line. *)
Definition genuine_output (d : Daemon) (c : Container) (tail line : str) : Daemon :=
  {| connect := connect d; cpu_quota := cpu_quota d;
     images_get := images_get d; images_pull := images_pull d;
     containers_create := containers_create d;
     containers_get := inr c;
     container_start := container_start d; container_stop := container_stop d;
     container_restart := container_restart d;
     container_remove := container_remove d;
     logs_tail := inr tail;
     logs_follow := ([line], None) |}.

(** A runtime that answers every call with success. *)
Definition healthy_daemon : Daemon :=
  {| connect := inr tt; cpu_quota := inr 50000%Z;
     images_get := inr tt; images_pull := inr tt;
     containers_create := inr (s "c0ffee");
     containers_get := inr {| c_status := s "running"; c_state := None |};
     container_start := inr tt; container_stop := inr tt;
     container_restart := inr tt; container_remove := inr tt;
     logs_tail := inr (s "hi");
     logs_follow := ([s "hi"], None) |}.

Definition with_containers_get (r : result Container) (d : Daemon) : Daemon :=
  {| connect := connect d; cpu_quota := cpu_quota d;
     images_get := images_get d; images_pull := images_pull d;
     containers_create := containers_create d;
     containers_get := r;
     container_start := container_start d; container_stop := container_stop d;
     container_restart := container_restart d;
     container_remove := container_remove d;
     logs_tail := logs_tail d; logs_follow := logs_follow d |}.

Definition with_connect (r : result unit) (d : Daemon) : Daemon :=
  {| connect := r; cpu_quota := cpu_quota d;
     images_get := images_get d; images_pull := images_pull d;
     containers_create := containers_create d;
     containers_get := containers_get d;
     container_start := container_start d; container_stop := container_stop d;
     container_restart := container_restart d;
     container_remove := container_remove d;
     logs_tail := logs_tail d; logs_follow := logs_follow d |}.

Definition with_containers_create (r : result str) (d : Daemon) : Daemon :=
  {| connect := connect d; cpu_quota := cpu_quota d;
     images_get := images_get d; images_pull := images_pull d;
     containers_create := r;
     containers_get := containers_get d;
     container_start := container_start d; container_stop := container_stop d;
     container_restart := container_restart d;
     container_remove := container_remove d;
     logs_tail := logs_tail d; logs_follow := logs_follow d |}.

Definition with_container_start (r : result unit) (d : Daemon) : Daemon :=
  {| connect := connect d; cpu_quota := cpu_quota d;
     images_get := images_get d; images_pull := images_pull d;
     containers_create := containers_create d;
     containers_get := containers_get d;
     container_start := r; container_stop := container_stop d;
     container_restart := container_restart d;
     container_remove := container_remove d;
     logs_tail := logs_tail d; logs_follow := logs_follow d |}.

Definition with_logs_follow (r : list str * option exn) (d : Daemon) : Daemon :=
  {| connect := connect d; cpu_quota := cpu_quota d;
     images_get := images_get d; images_pull := images_pull d;
     containers_create := containers_create d;
     containers_get := containers_get d;
     container_start := container_start d; container_stop := container_stop d;
     container_restart := container_restart d;
     container_remove := container_remove d;
     logs_tail := logs_tail d; logs_follow := r |}.

(** A world with one bot of user 7 that has a sandbox. *)
Definition world_with_sandbox : World :=
  {| plans := default_plans;
     bots := [ {| b_id := 1; user_id := 7; plan_id := 1; runtime := PYTHON;
                  name := s "echo"; container_id := Some (s "c0ffee");
                  status := RUNNING; start_cmd := None;
                  source_type := Some FILE |} ];
     audit_logs := []; next_bot_id := 2;
     storage := [(1, [s "main.py"])]; docker_client := true |}.

(** ** The bots table along a run *)

(** The invariant as the specification states it, and as the code keeps
    it. *)
Definition null_handle_created (b : Bot) : Prop :=
  container_id b = None -> status b = CREATED.

Definition null_handle_created_or_crashed (b : Bot) : Prop :=
  container_id b = None -> status b = CREATED \/ status b = CRASHED.

(** What the handlers for an existing bot do to the table: a sequence of
    assignments to the row of that bot.  A status other than CRASHED is
    only assigned to a row that has a handle. *)
Inductive evolves (i : nat) (l : list Bot) : list Bot -> Prop :=
| ev_same : evolves i l l
| ev_handle l1 cid :
    evolves i l l1 ->
    evolves i l (update_bot i (set_container_id (Some cid)) l1)
| ev_source l1 t :
    evolves i l l1 -> evolves i l (update_bot i (set_source_type t) l1)
| ev_crashed l1 :
    evolves i l l1 -> evolves i l (update_bot i (set_status CRASHED) l1)
| ev_status l1 st b :
    evolves i l l1 -> find_bot i l1 = Some b -> container_id b <> None ->
    evolves i l (update_bot i (set_status st) l1).

(** One request, seen on the table. *)
Inductive table_step (ps : list Plan) (l : list Bot) : list Bot -> Prop :=
| ts_evolve i l' : evolves i l l' -> table_step ps l l'
| ts_insert b plan :
    container_id b = None -> status b = CREATED ->
    find_plan (plan_id b) ps = Some plan ->
    (Z.of_nat (user_bot_count (user_id b) l) < max_bots plan)%Z ->
    table_step ps l (l ++ [b])
| ts_delete i : table_step ps l (delete_row i l).

(** Functions that leave the database alone. *)
Definition db_frame {A} (m : M A) : Prop :=
  forall w, bots (fst (m w)) = bots w /\ plans (fst (m w)) = plans w.

(** The persisted status of a bot. *)
Definition status_of (bot_id : nat) (w : World) : option BotStatus :=
  option_map status (find_bot bot_id (bots w)).

(** The driver fails during a start, and [e] is the exception that the
    [try] block of [start_bot] ends with: the exception of the create
    block, the exception of the driver's start, or, when the driver's start
    returns [False], the manager's own exception. *)
Inductive driver_failure (d : Daemon) (bot : Bot) (plan : Plan) (bot_id : nat)
          (w : World) : exn -> Prop :=
| create_raised e :
    snd (ensure_container d bot plan bot_id w) = inl e ->
    driver_failure d bot plan bot_id w e
| start_raised w1 bot1 e :
    ensure_container d bot plan bot_id w = (w1, inr bot1) ->
    snd (start_container d (cid_of (container_id bot1)) w1) = inl e ->
    driver_failure d bot plan bot_id w e
| start_refused w1 bot1 :
    ensure_container d bot plan bot_id w = (w1, inr bot1) ->
    snd (start_container d (cid_of (container_id bot1)) w1) = inr false ->
    driver_failure d bot plan bot_id w
                   (BadRequestException (s "Failed to start container")).

(** Every create request of user [u] in the run names plan [pid]. *)
Definition creates_on_plan (u pid : nat) (r : Request) : Prop :=
  match r with
  | Create bd _ u' => u' = u -> bc_plan_id bd = pid
  | _ => True
  end.

(** The line that stands for a failed lookup, in the tail and in the live
    stream. *)
Definition tail_for (e : exn) : str :=
  if is_not_found e then s "Container not found"
  else s "Error retrieving logs: " ++ str_exn e.

Definition line_for (e : exn) : str :=
  if is_not_found e then s "Container not found"
  else s "Error streaming logs: " ++ str_exn e.

(** What the runtime does with a follow request: the chunks it delivers
    and the exception, if any, that ends them.  When the lookup of the
    sandbox fails, no chunk is delivered. *)
Definition follow_outcome (d : Daemon) : list str * option exn :=
  match containers_get d with
  | inl e => ([], Some e)
  | inr _ => logs_follow d
  end.

(** A runtime like [d], except that the sandbox exists and prints by
    itself, as its own output, the text that the driver makes of the API
    error [e] that ends the follow request of [d]. *)
Definition printing (d : Daemon) (c : Container) (e : exn) : Daemon :=
  match containers_get d with
  | inl _ => genuine_output d c (tail_for e) (line_for e)
  | inr _ => with_logs_follow (fst (logs_follow d) ++ [line_for e], None) d
  end.

(** The runtime drops the connection after the first live line. *)
Definition dropping_daemon : Daemon :=
  with_logs_follow ([s "hi"], Some (OtherError (s "Connection aborted"))) healthy_daemon.

(** The run that breaks the invariant as stated: a bot is created, a file
    is uploaded, and the start fails because the runtime refuses to create
    the sandbox. *)
Definition failed_first_start : list Request :=
  [ Create {| bc_name := s "echo"; bc_runtime := PYTHON;
              bc_start_cmd := None; bc_plan_id := 1 |} (s "10.0.0.1") 7;
    Upload 1 (s "10.0.0.1")
           {| filename := Some (s "main.py"); zip_members := None;
              zip_failure := None |} 7;
    Start (with_containers_create (inl (DockerAPIError (s "no space left on device")))
                                  healthy_daemon)
          1 (s "10.0.0.1") 7 ].

(** Two creations by one user, the first on the Free plan (one bot), the
    second on the Basic plan (three bots). *)
Definition two_plans : list Request :=
  [ Create {| bc_name := s "first"; bc_runtime := PYTHON;
              bc_start_cmd := None; bc_plan_id := 1 |} (s "10.0.0.1") 7;
    Create {| bc_name := s "second"; bc_runtime := NODE;
              bc_start_cmd := None; bc_plan_id := 2 |} (s "10.0.0.1") 7 ].

(** Two creations by one user, both on the Free plan. *)
Definition same_plan_twice : list Request :=
  [ Create {| bc_name := s "first"; bc_runtime := PYTHON;
              bc_start_cmd := None; bc_plan_id := 1 |} (s "10.0.0.1") 7;
    Create {| bc_name := s "second"; bc_runtime := NODE;
              bc_start_cmd := None; bc_plan_id := 1 |} (s "10.0.0.1") 7 ].

(** The world after user 7 has created the bot [echo] and uploaded
    [main.py]. *)
Definition uploaded_world : World :=
  run (firstn 2 failed_first_start) (initial_world default_plans).

(** ** Ingest *)

(** An archive member that the specification says must be refused: its
    path is absolute or has a [..] segment, or it is not a directory and
    its extension is present and not in the allow-list of the runtime. *)
Definition refused_member (rt : BotRuntime) (member : str) : bool :=
  is_absolute member ||
  str_in (s "..") (split_on "/" member) ||
  (negb (endswith (s "/") member) &&
   negb (is_empty (suffix member)) &&
   negb (str_in (suffix member) (allowed_extensions (get_runtime_config rt)))).

(** The name under which an upload is stored. *)
Definition stored_name (file : UploadFile) : str :=
  sanitize_filename
    (if truthy (filename file)
     then match filename file with Some f => f | None => [] end
     else s "upload").

(** What the cleaning step of an upload leaves of a directory. *)
Definition kept (d : directory) : directory :=
  filter (fun p => str_eqb (top_entry p) (s ".gitkeep")) d.

(** The world after user 7 has created the bot [echo], and nothing else. *)
Definition created_world : World :=
  run (firstn 1 failed_first_start) (initial_world default_plans).

(* ===================================================================== *)
(** * More of app/utils.py *)
(* ===================================================================== *)

Definition is_alpha (c : ascii) : bool := is_lower c || is_upper c.

(** The class [[a-zA-Z0-9._%+-]]. *)
Definition email_local_char (c : ascii) : bool :=
  is_alpha c || is_digit c || ascii_eqb c "." || ascii_eqb c "_" ||
  ascii_eqb c "%" || ascii_eqb c "+" || ascii_eqb c "-".

(** The class [[a-zA-Z0-9.-]]. *)
Definition email_domain_char (c : ascii) : bool :=
  is_alpha c || is_digit c || ascii_eqb c "." || ascii_eqb c "-".

(** [r'^[a-zA-Z0-9._%+-]+@[a-zA-Z0-9.-]+\.[a-zA-Z]{2,}$'] *)
Definition email_pattern : Re.pattern :=
  [ Re.ABegin; Re.AClass email_local_char 1 None; Re.chr "@";
    Re.AClass email_domain_char 1 None; Re.chr ".";
    Re.AClass is_alpha 2 None; Re.AEnd ].

Definition validate_email (email : str) : bool :=
  Re.re_match email_pattern email.

(** The deny-list of [validate_start_command] without its last two
    entries, as plain strings. *)
Definition deny_literals : list str :=
  [ s "&&"; s "||"; s ";"; s "|"; s ">"; s "<"; s "`"; s "$("; s "bash";
    s "sh "; s "/bin/"; s "rm "; s "dd "; s "mkfs" ].

(** [str.strip()] with no argument removes the white space at both ends;
    below 256 that is the space, the characters 9 to 13 and 28 to 31, and
    the characters 133 and 160. *)
Definition is_space (c : ascii) : bool :=
  ascii_eqb c " " || in_range "009" "013" c || in_range "028" "031" c ||
  ascii_eqb c "133" || ascii_eqb c "160".

Fixpoint lstrip (a : str) : str :=
  match a with
  | c :: a' => if is_space c then lstrip a' else a
  | [] => []
  end.

Definition strip (a : str) : str := rev (lstrip (rev (lstrip a))).

(** What [get_client_ip] reads of a request: the [X-Forwarded-For] header
    and the host of [request.client], either of which may be absent. *)
Record RequestInfo := {
  x_forwarded_for : option str;
  client_host : option str
}.

Definition get_client_ip (request : RequestInfo) : str :=
  if truthy (x_forwarded_for request)
  then strip (hd [] (split_on "," (cid_of (x_forwarded_for request))))
  else match client_host request with
       | Some h => h
       | None => s "unknown"
       end.

(* ===================================================================== *)
(** * Definitions used to state further properties of the driver *)
(* ===================================================================== *)

(** An operation on a container is a lookup followed by a call on the
    container found; this is the first of the two that fails, if any. *)
Definition first_failure {A B} (lookup : result A) (call : result B) : option exn :=
  match lookup, call with
  | inl e, _ => Some e
  | inr _, inl e => Some e
  | inr _, inr _ => None
  end.

(** The image is there, or it is missing and pulling it succeeds. *)
Definition image_ready (d : Daemon) : bool :=
  match images_get d with
  | inr _ => true
  | inl e => is_not_found e &&
             match images_pull d with inr _ => true | inl _ => false end
  end.




(* ===================================================================== *)
(** * Definitions used to state further properties of the manager *)
(* ===================================================================== *)

(** A handler leaves a part of the world as it was. *)
Definition keeps {A X} (f : World -> X) (m : M A) : Prop :=
  forall w, f (fst (m w)) = f w.

(** The owner and the name of each bot. *)
Definition owner_names (l : list Bot) : list (nat * str) :=
  map (fun b => (user_id b, name b)) l.

(** Whether a request is answered without an exception. *)
Definition succeeds (r : Request) (w : World) : bool :=
  let ok {A} (x : result A) := match x with inr _ => true | inl _ => false end in
  match r with
  | Create bd ip u => ok (snd (create_bot bd ip u w))
  | Upload i ip f u => ok (snd (upload_bot_files i ip f u w))
  | Start d i ip u => ok (snd (start_bot d i ip u w))
  | Stop d i ip u => ok (snd (stop_bot d i ip u w))
  | Restart d i ip u => ok (snd (restart_bot d i ip u w))
  | Delete d i ip u => ok (snd (delete_bot d i ip u w))
  end.

(** The audit entry of a request: who, what, on which bot, from where. *)
Definition audit_entry (r : Request) (w : World) : AuditLog :=
  let entry u act i ip det :=
    {| a_user_id := u; action := s act; target_id := str_of_nat i;
       ip_address := ip; details := det |} in
  match r with
  | Create bd ip u => entry u "bot_create"%string (next_bot_id w) ip None
  | Upload i ip f u =>
      entry u "bot_upload"%string i ip (Some (s "Uploaded " ++ stored_name f))
  | Start d i ip u => entry u "bot_start"%string i ip None
  | Stop d i ip u => entry u "bot_stop"%string i ip None
  | Restart d i ip u => entry u "bot_restart"%string i ip None
  | Delete d i ip u => entry u "bot_delete"%string i ip None
  end.


(** Ids are given out once: the ids of the table are distinct and below
    the counter. *)
Definition ids_fresh (w : World) : Prop :=
  NoDup (map b_id (bots w)) /\ Forall (fun b => b_id b < next_bot_id w) (bots w).


(** A runtime that answers every call of a request with success, and
    gives a non-empty id to the sandbox it creates. *)
Definition cooperative (d : Daemon) : Prop :=
  connect d = inr tt /\ (exists q, cpu_quota d = inr q) /\
  image_ready d = true /\
  (exists c cs, containers_create d = inr (c :: cs)) /\
  (exists c, containers_get d = inr c) /\
  container_start d = inr tt /\ container_stop d = inr tt /\
  container_restart d = inr tt.

(** The handle a bot has after a start: the one it had, or the one of the
    sandbox created for it. *)
Definition handle_after_start (d : Daemon) (bot : Bot) : option str :=
  if truthy (container_id bot) then container_id bot
  else match containers_create d with
       | inr cid => Some cid
       | inl _ => None
       end.

(** Bot [i] is there, belongs to [u], has a plan and has files. *)
Definition startable (i u : nat) (w : World) (bot : Bot) : Prop :=
  find_bot i (bots w) = Some bot /\ user_id bot = u /\
  (exists plan, find_plan (plan_id bot) (plans w) = Some plan) /\
  is_empty (dir_of i (storage w)) = false.

(** Nothing but the row of bot [i] differs between two worlds, as far as
    plans, files and the other rows go. *)
Definition only_row_changed (i : nat) (w w' : World) : Prop :=
  plans w' = plans w /\
  (forall j, dir_of j (storage w') = dir_of j (storage w)) /\
  (forall j, j <> i -> find_bot j (bots w') = find_bot j (bots w)).


(** What a request other than a deletion does to the table: nothing, an
    assignment to fields other than the handle of one row, the first
    handle of a row that had none (followed by such an assignment), or a
    new row at the end. *)
Inductive row_edit (l : list Bot) : list Bot -> Prop :=
| re_same : row_edit l l
| re_field j g :
    (forall x, container_id (g x) = container_id x) ->
    (forall x, b_id (g x) = b_id x) ->
    row_edit l (update_bot j g l)
| re_first_handle j cid g b0 :
    find_bot j l = Some b0 -> truthy (container_id b0) = false ->
    (forall x, container_id (g x) = container_id x) ->
    (forall x, b_id (g x) = b_id x) ->
    row_edit l (update_bot j g (update_bot j (set_container_id (Some cid)) l))
| re_insert b : row_edit l (l ++ [b]).


(* ===================================================================== *)
(** * app/auth.py, the users of app/models.py and the admin endpoints of
      app/main.py *)
(* ===================================================================== *)

Inductive UserRole := USER | ADMIN | OWNER.
Inductive UserStatus := ACTIVE | SUSPENDED.

(** [created_at] is left out, as for bots; [u_status] is the column
    [status]. *)
Record User := {
  u_id : nat;
  email : str;
  password_hash : str;
  role : UserRole;
  u_status : UserStatus
}.

Definition role_eqb (a b : UserRole) : bool :=
  match a, b with
  | USER, USER | ADMIN, ADMIN | OWNER, OWNER => true
  | _, _ => false
  end.

Definition role_value (r : UserRole) : str :=
  match r with USER => s "USER" | ADMIN => s "ADMIN" | OWNER => s "OWNER" end.

Definition set_u_status (st : UserStatus) (x : User) : User :=
  {| u_id := u_id x; email := email x; password_hash := password_hash x;
     role := role x; u_status := st |}.

(** What [jwt.decode] and, after it, [int(payload.get("sub"))] make of a
    bearer token; signatures and expiry are outside the model. *)
Inductive subject :=
| NoSubject                 (* the payload has no "sub" *)
| NotANumber                (* int() raises ValueError or TypeError *)
| Number (n : Z).

Inductive token :=
| InvalidToken              (* jwt.decode raises JWTError *)
| Claims (sub : subject).

Definition decode_token (t : token) : result subject :=
  match t with
  | InvalidToken => inl (HTTPException 401 (s "Invalid or expired token"))
  | Claims sub => inr sub
  end.

(** [db.query(User).filter(User.id == user_id).first()] *)
Definition find_user (uid : Z) (users : list User) : option User :=
  find (fun x => (Z.of_nat (u_id x) =? uid)%Z) users.

Definition get_current_user (users : list User) (t : token) : result User :=
  match decode_token t with
  | inl e => inl e
  | inr NoSubject => inl (HTTPException 401 (s "Invalid token payload"))
  | inr NotANumber => inl (HTTPException 401 (s "Invalid token payload"))
  | inr (Number n) =>
      match find_user n users with
      | None => inl (HTTPException 401 (s "User not found"))
      | Some user =>
          match u_status user with
          | SUSPENDED =>
              inl (HTTPException 403 (s "Account suspended. Contact administrator."))
          | ACTIVE => inr user
          end
      end
  end.

(** The text of a list of strings as Python prints it. *)
Definition repr_list (l : list str) : str :=
  s "[" ++ join (s ", ") (map (fun x => s "'" ++ x ++ s "'") l) ++ s "]".

(** The checker that [require_role] builds for the given roles, applied to
    the outcome of its dependency [get_current_user]. *)
Definition require_role (allowed : list UserRole) (current_user : result User)
  : result User :=
  match current_user with
  | inl e => inl e
  | inr user =>
      if existsb (role_eqb (role user)) allowed then inr user
      else inl (HTTPException 403
                  (s "Insufficient permissions. Required roles: "
                     ++ repr_list (map role_value allowed)))
  end.

Definition get_admin_user (users : list User) (t : token) : result User :=
  require_role [ADMIN; OWNER] (get_current_user users t).

Definition get_owner_user (users : list User) (t : token) : result User :=
  require_role [OWNER] (get_current_user users t).

(** Assigning to the attributes of the user that [first()] returned. *)
Fixpoint update_user (uid : nat) (f : User -> User) (l : list User) : list User :=
  match l with
  | [] => []
  | x :: l' => if u_id x =? uid then f x :: l' else x :: update_user uid f l'
  end.

(** The admin endpoints work on the user table and write the audit log of
    the world. *)
Definition Site : Type := list User * World.

Definition suspend_user (user_id : nat) (request : RequestInfo) (current_user : User)
           (site : Site) : Site * result str :=
  let '(users, w) := site in
  match find (fun x => u_id x =? user_id) users with
  | None => (site, inl (HTTPException 404 (s "User not found")))
  | Some user =>
      if existsb (role_eqb (role user)) [ADMIN; OWNER] &&
         negb (role_eqb (role current_user) OWNER)
      then (site, inl (HTTPException 403
                         (s "Only OWNER can suspend ADMIN or OWNER accounts")))
      else
        let users' := update_user user_id (set_u_status SUSPENDED) users in
        let w' := fst (create_audit_log (u_id current_user) (s "user_suspend")
                         (str_of_nat user_id) (get_client_ip request)
                         (Some (s "Suspended by " ++ email current_user)) w) in
        ((users', w'), inr (s "User " ++ email user ++ s " has been suspended"))
  end.

Definition activate_user (user_id : nat) (request : RequestInfo) (current_user : User)
           (site : Site) : Site * result str :=
  let '(users, w) := site in
  match find (fun x => u_id x =? user_id) users with
  | None => (site, inl (HTTPException 404 (s "User not found")))
  | Some user =>
      let users' := update_user user_id (set_u_status ACTIVE) users in
      let w' := fst (create_audit_log (u_id current_user) (s "user_activate")
                       (str_of_nat user_id) (get_client_ip request)
                       (Some (s "Activated by " ++ email current_user)) w) in
      ((users', w'), inr (s "User " ++ email user ++ s " has been activated"))
  end.

(** An admin endpoint as it is served: the dependency [get_admin_user]
    is resolved first, then the wrapper of [rate_limit] runs and either
    answers 429 or calls the endpoint.  [over_limit] says whether the
    wrapper finds its quota of time stamps younger than a minute for the
    caller's address; the time stamps themselves are not modelled. *)
Definition as_admin (users : list User) (t : token) (over_limit : bool)
           (endpoint : User -> Site -> Site * result str) (site : Site)
  : Site * result str :=
  match get_admin_user users t with
  | inl e => (site, inl e)
  | inr current_user =>
      if over_limit
      then (site, inl (HTTPException 429
                         (s "Too many requests. Please try again later.")))
      else endpoint current_user site
  end.

(* ===================================================================== *)
(** * More of app/sockets.py *)
(* ===================================================================== *)

(** [decode_token] turns a [JWTError] into an [HTTPException], so the
    clause [except JWTError] of this function catches nothing and the
    exception leaves it. *)
Definition get_current_user_ws (users : list User) (t : token) : result (option User) :=
  match decode_token t with
  | inl e => inl e
  | inr NoSubject => inr None
  | inr NotANumber => inr None
  | inr (Number n) => inr (find_user n users)
  end.

(** The whole of [bot_logs_websocket], from the token on: an exception of
    [get_current_user_ws] reaches the outer handler of the endpoint. *)
Definition bot_logs_session (d : Daemon) (users : list User) (t : token) (bot_id : nat)
  : World -> World * list ws_event :=
  fun w =>
    match get_current_user_ws users t with
    | inl e => (w, [Accept; SendText (s "Error: " ++ str_exn e); Close 1011])
    | inr user => bot_logs_websocket d (option_map u_id user) bot_id w
    end.

(** The subscriber that may read the logs of bot [bot_id]: the token names
    a user, that user owns the bot, and the bot has a sandbox. *)
Definition may_read (users : list User) (t : token) (bot_id : nat) (w : World) : bool :=
  match t with
  | Claims (Number n) =>
      match find_user n users, find_bot bot_id (bots w) with
      | Some user, Some bot => (user_id bot =? u_id user) && truthy (container_id bot)
      | _, _ => false
      end
  | _ => false
  end.



(* ===================================================================== *)
(** * Properties of the string functions *)
(* ===================================================================== *)

Lemma ascii_eqb_eq (a b : ascii) : ascii_eqb a b = true <-> a = b.
Proof. apply Ascii.eqb_eq. Qed.

Lemma str_eqb_eq (a b : str) : str_eqb a b = true <-> a = b.
Proof.
  revert b; induction a as [|x a IH]; intros [|y b]; simpl; split;
    try congruence; try reflexivity.
  - intros H. apply andb_true_iff in H as [H1 H2].
    apply ascii_eqb_eq in H1. apply IH in H2. congruence.
  - intros H. injection H as -> ->. apply andb_true_iff. split.
    + now apply ascii_eqb_eq.
    + now apply IH.
Qed.

Lemma contains_tail (p : str) (c : ascii) (a : str) :
  contains p (c :: a) = false -> contains p a = false.
Proof.
  simpl. intros H. apply orb_false_iff in H. tauto.
Qed.

Lemma contains_head (p : str) (a : str) :
  contains p a = false -> startswith p a = false.
Proof.
  destruct a; simpl; intros H; apply orb_false_iff in H; tauto.
Qed.

(** Replacing a pattern that does not occur changes nothing. *)
Lemma replace_absent (old new a : str) :
  contains old a = false -> replace old new a = a.
Proof.
  unfold replace. induction a as [|c a IH]; intros H; [reflexivity|].
  cbn [replace_from]. rewrite (contains_head _ _ H).
  f_equal. apply IH. eapply contains_tail; eauto.
Qed.

Lemma contains_char_absent (p : ascii -> bool) (c : ascii) (a : str) :
  forallb p a = true -> p c = false -> contains [c] a = false.
Proof.
  intros Ha Hc. induction a as [|x a IH]; [reflexivity|].
  simpl in Ha. apply andb_true_iff in Ha as [Hx Ha].
  cbn [contains startswith]. rewrite (IH Ha).
  destruct (ascii_eqb c x) eqn:E.
  - apply ascii_eqb_eq in E. congruence.
  - now destruct a.
Qed.

Lemma rfind_absent (p : ascii -> bool) (c : ascii) (a : str) :
  forallb p a = true -> p c = false -> rfind c a = None.
Proof.
  intros Ha Hc. induction a as [|x a IH]; [reflexivity|].
  simpl in Ha. apply andb_true_iff in Ha as [Hx Ha].
  simpl. rewrite (IH Ha).
  destruct (ascii_eqb x c) eqn:E; [|reflexivity].
  apply ascii_eqb_eq in E. congruence.
Qed.

Lemma rfind_split (c : ascii) (a : str) (i : nat) :
  rfind c a = Some i ->
  skipn i a = c :: skipn (S i) a /\ rfind c (skipn (S i) a) = None.
Proof.
  revert i. induction a as [|x a IH]; intros i; simpl; [discriminate|].
  destruct (rfind c a) as [j|] eqn:E.
  - intros [= <-]. destruct (IH j eq_refl) as [H1 H2]. now split.
  - destruct (ascii_eqb x c) eqn:Ex; [|discriminate].
    intros [= <-]. apply ascii_eqb_eq in Ex. subst x. now split.
Qed.

Lemma rfind_app_last (c : ascii) (n e : str) :
  rfind c e = None -> rfind c (n ++ c :: e) = Some (length n).
Proof.
  intros He. induction n as [|x n IH]; simpl.
  - rewrite He. unfold ascii_eqb. now rewrite Ascii.eqb_refl.
  - now rewrite IH.
Qed.

(** What [splitext] returns on a name without a slash. *)
Lemma splitext_shape (p n e : str) :
  rfind "/" p = None -> splitext p = (n, e) ->
  p = n ++ e /\
  (e = [] \/
   exists e', e = "."%char :: e' /\ rfind "." e' = None /\
              existsb nondot n = true).
Proof.
  unfold splitext. intros -> H.
  destruct (rfind "." p) as [dot|] eqn:Ed.
  - cbn [Nat.leb andb skipn] in H.
    destruct (existsb _ (firstn dot p)) eqn:Ex; injection H as <- <-.
    + split; [now rewrite firstn_skipn|]. right.
      destruct (rfind_split _ _ _ Ed) as [H1 H2].
      exists (skipn (S dot) p). auto.
    + rewrite app_nil_r. auto.
  - injection H as <- <-. rewrite app_nil_r. auto.
Qed.

Lemma splitext_app (n e' : str) :
  rfind "/" (n ++ "."%char :: e') = None -> rfind "." e' = None ->
  existsb nondot n = true ->
  splitext (n ++ "."%char :: e') = (n, "."%char :: e').
Proof.
  intros Hs He Hn. unfold splitext. rewrite Hs, (rfind_app_last _ n _ He).
  cbn [Nat.leb andb skipn].
  rewrite firstn_app, Nat.sub_diag, firstn_all.
  cbn [firstn]. rewrite app_nil_r.
  fold nondot. rewrite Hn.
  rewrite skipn_app, Nat.sub_diag, skipn_all. reflexivity.
Qed.

(* ===================================================================== *)
(** * [sanitize_filename] *)
(* ===================================================================== *)

Lemma sanitize_filename_split (x : str) :
  sanitize_filename x = limit_length (strip_unsafe x).
Proof. reflexivity. Qed.

Lemma safe_underscore : safe_char "_" = true.
Proof. reflexivity. Qed.

Lemma strip_unsafe_safe (x : str) : forallb safe_char (strip_unsafe x) = true.
Proof.
  unfold strip_unsafe, Re.sub_class.
  induction (replace _ _ _) as [|c a IH]; [reflexivity|].
  cbn [map forallb]. rewrite IH, andb_true_r.
  destruct (safe_char c) eqn:E; [exact E | exact safe_underscore].
Qed.

Lemma forallb_firstn (p : ascii -> bool) (k : nat) (a : str) :
  forallb p a = true -> forallb p (firstn k a) = true.
Proof.
  revert k. induction a as [|c a IH]; intros [|k] H; try reflexivity.
  simpl in *. apply andb_true_iff in H as [H1 H2].
  now rewrite H1, IH.
Qed.

Lemma safe_no_slash (a : str) :
  forallb safe_char a = true -> rfind "/" a = None.
Proof. intros H. now apply (rfind_absent safe_char). Qed.

Lemma limit_length_safe (f : str) :
  forallb safe_char f = true -> forallb safe_char (limit_length f) = true.
Proof.
  intros Hf. unfold limit_length.
  destruct (255 <? length f); [|exact Hf].
  destruct (splitext f) as [n e] eqn:E.
  destruct (splitext_shape f n e (safe_no_slash f Hf) E) as [-> _].
  rewrite forallb_app in Hf. apply andb_true_iff in Hf as [Hn He].
  rewrite forallb_app, He, andb_true_r. now apply forallb_firstn.
Qed.

Lemma sanitize_filename_safe (x : str) :
  forallb safe_char (sanitize_filename x) = true.
Proof.
  rewrite sanitize_filename_split.
  apply limit_length_safe, strip_unsafe_safe.
Qed.

(** Cleaning leaves a name alone when it has only safe characters and no
    [..]. *)
Lemma strip_unsafe_fixed (y : str) :
  forallb safe_char y = true -> contains (s "..") y = false ->
  strip_unsafe y = y.
Proof.
  intros Hs Hd. unfold strip_unsafe, basename.
  rewrite (safe_no_slash y Hs).
  rewrite (replace_absent (s "..") [] y Hd).
  rewrite (replace_absent (s "/") [] y)
    by (apply (contains_char_absent safe_char); [exact Hs | reflexivity]).
  rewrite (replace_absent (s "\") [] y)
    by (apply (contains_char_absent safe_char); [exact Hs | reflexivity]).
  unfold Re.sub_class. clear Hd.
  induction y as [|c y IH]; [reflexivity|].
  simpl in Hs. apply andb_true_iff in Hs as [Hc Hy].
  cbn [map]. rewrite Hc. cbn [negb]. now rewrite IH.
Qed.

Lemma nondot_false (c : ascii) : nondot c = false -> c = "."%char.
Proof.
  unfold nondot. intros H. now apply negb_false_iff, ascii_eqb_eq in H.
Qed.

(** A non-empty run of dots followed by a dot contains [..]. *)
Lemma all_dots_dotdot (l rest : str) :
  l <> [] -> existsb nondot l = false ->
  contains (s "..") (l ++ "."%char :: rest) = true.
Proof.
  intros Hl Hd. destruct l as [|c l]; [congruence|].
  cbn [existsb] in Hd. apply orb_false_iff in Hd as [Hc Hd].
  apply nondot_false in Hc. subst c.
  destruct l as [|d l]; [reflexivity|].
  cbn [existsb] in Hd. apply orb_false_iff in Hd as [Hc _].
  apply nondot_false in Hc. subst d. reflexivity.
Qed.

Lemma limit_length_fixed (f : str) :
  forallb safe_char f = true ->
  contains (s "..") (limit_length f) = false ->
  limit_length (limit_length f) = limit_length f.
Proof.
  intros Hf Hd.
  assert (Hy := limit_length_safe f Hf).
  unfold limit_length at 1.
  destruct (Nat.ltb_spec 255 (length (limit_length f))) as [Hlong|]; [|reflexivity].
  revert Hd Hy Hlong. unfold limit_length.
  destruct (Nat.ltb_spec 255 (length f)) as [_|Hshort]; [|intros; lia].
  destruct (splitext f) as [n e] eqn:E.
  destruct (splitext_shape f n e (safe_no_slash f Hf) E) as [_ [->|(e' & -> & He & Hn)]].
  - rewrite app_nil_r, length_firstn. intros; lia.
  - intros Hd Hy _.
    assert (Hne : firstn 250 n <> []) by (destruct n; [discriminate | discriminate]).
    assert (Hx : existsb nondot (firstn 250 n) = true).
    { destruct (existsb nondot (firstn 250 n)) eqn:Ex; [reflexivity|].
      rewrite (all_dots_dotdot _ e' Hne Ex) in Hd. discriminate. }
    rewrite (splitext_app _ e' (safe_no_slash _ Hy) He Hx).
    rewrite firstn_firstn, Nat.min_id. reflexivity.
Qed.

(** C7 (the code at the failing input).  [sanitize_filename] is not
    idempotent, and it can return the very thing it is written to remove:
    the name [.\.] loses its backslash after the [..] pass has run, so the
    first application returns [..], and only a second application removes
    it. *)
Lemma sanitize_filename_not_idempotent :
  sanitize_filename (s ".\.") = s ".." /\
  sanitize_filename (sanitize_filename (s ".\.")) = [] /\
  sanitize_filename (sanitize_filename (s ".\.")) <> sanitize_filename (s ".\.").
Proof.
  repeat split; try reflexivity. vm_compute. discriminate.
Qed.

(** The cut itself can make a [..]: with 249 letters before [.bbbb.c], the
    stem is cut just after its dot, the result ends in [..c], and a second
    application removes the two dots. *)
Lemma sanitize_filename_cut_not_idempotent :
  let x := repeat "a"%char 249 ++ s ".bbbb.c" in
  sanitize_filename x = repeat "a"%char 249 ++ s "..c" /\
  sanitize_filename (sanitize_filename x) = repeat "a"%char 249 ++ s "c".
Proof. vm_compute. split; reflexivity. Qed.

(** Idempotence fails on such results only: for every input [x] whose
    sanitized form contains no [..], sanitizing again changes nothing; this
    covers the names that were cut to 250 characters plus extension. *)
Theorem sanitize_filename_idempotent (x : str) :
  contains (s "..") (sanitize_filename x) = false ->
  sanitize_filename (sanitize_filename x) = sanitize_filename x.
Proof.
  intros Hd.
  assert (Hs := sanitize_filename_safe x).
  rewrite sanitize_filename_split in Hd, Hs |- *.
  rewrite sanitize_filename_split.
  rewrite (strip_unsafe_fixed _ Hs Hd).
  apply limit_length_fixed; [apply strip_unsafe_safe | exact Hd].
Qed.

(** A long name with a long extension: 300 letters, then [.config].  The
    sanitized form keeps 250 letters and the extension, 257 characters, so
    the second application splits and cuts again. *)
Lemma sanitize_filename_idempotent_witness :
  let x := repeat "a"%char 300 ++ s ".config" in
  contains (s "..") (sanitize_filename x) = false /\
  length (sanitize_filename x) = 257 /\
  sanitize_filename (sanitize_filename x) = sanitize_filename x.
Proof.
  intros x.
  split; [vm_compute; reflexivity|].
  split; [vm_compute; reflexivity|].
  apply (sanitize_filename_idempotent x). vm_compute. reflexivity.
Defined.

(* ===================================================================== *)
(** * [validate_bot_name] *)
(* ===================================================================== *)

(** A run of [body] in the class, of a length within the bounds, can be
    taken by the repetition. *)
Lemma rep_take (p : ascii -> bool) (k : nat -> str -> bool) (body : str) :
  forall lo hi pos rest,
    forallb p body = true -> lo <= length body <= hi ->
    k (pos + length body) rest = true ->
    Re.rep p k lo hi pos (body ++ rest) = true.
Proof.
  induction body as [|c body IH]; intros lo hi pos rest Hp Hlen Hk.
  - cbn [length] in *. assert (lo = 0) as -> by lia.
    rewrite Nat.add_0_r in Hk.
    destruct hi; cbn [Re.rep Nat.eqb app]; now rewrite Hk.
  - cbn [length forallb] in *. apply andb_true_iff in Hp as [Hc Hp].
    destruct hi as [|hi]; [lia|].
    cbn [Re.rep app]. rewrite Hc. cbn [andb].
    rewrite IH; [apply orb_true_r | exact Hp | lia |].
    now rewrite Nat.add_succ_comm.
Qed.

(** C9.  A name of 3 to 50 characters of [[A-Za-z0-9_-]] followed by one
    newline is accepted by [validate_bot_name], although the newline is
    outside the class: [$] also matches just before a final newline. *)
Theorem validate_bot_name_trailing_newline (body : str) :
  3 <= length body <= 50 -> forallb name_char body = true ->
  validate_bot_name (body ++ [newline]) = true /\
  existsb (fun c => negb (name_char c)) (body ++ [newline]) = true.
Proof.
  intros Hlen Hp. split.
  - unfold validate_bot_name, Re.re_match, bot_name_pattern.
    cbn [Re.match_at Nat.eqb andb].
    apply rep_take; [exact Hp | exact Hlen | reflexivity].
  - rewrite existsb_app. apply orb_true_iff. right. reflexivity.
Qed.

Lemma validate_bot_name_trailing_newline_witness :
  validate_bot_name (s "abc" ++ [newline]) = true /\
  existsb (fun c => negb (name_char c)) (s "abc" ++ [newline]) = true.
Proof.
  apply (validate_bot_name_trailing_newline (s "abc")).
  - cbn. lia.
  - reflexivity.
Defined.

(* ===================================================================== *)
(** * The sandbox driver: status and logs *)
(* ===================================================================== *)

(** How a handler runs, one step at a time. *)
Lemma bind_run {A B} (m : M A) (k : A -> M B) (w : World) :
  bind m k w = match m w with
               | (w', inr x) => k x w'
               | (w', inl e) => (w', inl e)
               end.
Proof. reflexivity. Qed.

Lemma get_docker_client_ok (d : Daemon) (w : World) :
  client_available d w ->
  exists w', get_docker_client d w = (w', inr tt) /\
             docker_client w' = true /\
             bots w' = bots w /\ plans w' = plans w /\ storage w' = storage w.
Proof.
  unfold client_available, get_docker_client. intros H.
  destruct (docker_client w) eqn:E.
  - exists w. auto.
  - destruct H as [H|H]; [discriminate|]. rewrite H.
    exists (with_client w). auto.
Qed.





(** What [stream_logs] does once the client is there. *)
Lemma stream_logs_run (d : Daemon) (cid : str) (w : World) :
  client_available d w ->
  snd (stream_logs d cid w) =
  inr (match snd (follow_outcome d) with
       | None => (fst (follow_outcome d), None)
       | Some e =>
           if is_not_found e
           then (fst (follow_outcome d) ++ [s "Container not found"], None)
           else if is_api_error e
                then (fst (follow_outcome d)
                        ++ [s "Error streaming logs: " ++ str_exn e], None)
                else (fst (follow_outcome d), Some e)
       end).
Proof.
  intros Hc.
  destruct (get_docker_client_ok d w Hc) as (w' & Hg & _).
  unfold stream_logs, follow_outcome. rewrite Hg.
  destruct (containers_get d) as [e|c]; cbn [fst snd].
  - destruct (is_not_found e); [reflexivity|]. now destruct (is_api_error e).
  - destruct (logs_follow d) as [chunks [e|]]; cbn [fst snd]; [|reflexivity].
    destruct (is_not_found e); [reflexivity|]. now destruct (is_api_error e).
Qed.

Lemma get_docker_client_printing (d : Daemon) (c : Container) (e : exn) (w : World) :
  get_docker_client (printing d c e) w = get_docker_client d w.
Proof. unfold printing. now destruct (containers_get d). Qed.

(** In-band errors cannot be told from output: the stream and the tail
    query of [d] are those of the runtime whose sandbox prints the text. *)
Lemma stream_logs_printing (d : Daemon) (c : Container) (e : exn) (cid : str) (w : World) :
  snd (follow_outcome d) = Some e -> is_api_error e = true ->
  stream_logs d cid w = stream_logs (printing d c e) cid w /\
  forall n, get_recent_logs d cid n w = get_recent_logs (printing d c e) cid n w.
Proof.
  intros He Hapi. unfold stream_logs, get_recent_logs, bind, try_except, lift, ret.
  rewrite get_docker_client_printing.
  unfold follow_outcome, printing in *.
  destruct (get_docker_client d w) as [w1 [x|[]]]; [split; reflexivity|].
  destruct (containers_get d) as [e0|c0] eqn:Hget; cbn [fst snd] in *.
  - injection He as ->. cbn [containers_get logs_follow logs_tail genuine_output].
    rewrite Hapi. unfold line_for, tail_for.
    destruct (is_not_found e); try rewrite Hapi; split; reflexivity.
  - cbn [containers_get logs_follow logs_tail with_logs_follow]. rewrite Hget.
    destruct (logs_follow d) as [chunks ending]. cbn [fst snd] in *. subst ending.
    unfold line_for. destruct (is_not_found e); [split; reflexivity|].
    rewrite Hapi. split; reflexivity.
Qed.

(** C10 (as stated, refuted).  The follow-log stream can raise to its
    consumer: when the runtime client does not exist yet and connecting
    fails, the generator raises the [RuntimeError] of [get_docker_client]
    on its first step. *)
Lemma stream_logs_raises :
  snd (stream_logs (with_connect (inl (DockerError (s "socket missing"))) healthy_daemon)
                   (s "c0ffee") (initial_world default_plans))
  = inr ([], Some (RuntimeError (s "Docker service unavailable: socket missing"))).
Proof. reflexivity. Qed.

(** C10 (amended).  With the runtime client available, the follow-log
    stream does not raise for a missing sandbox or a runtime API error,
    whether the lookup fails or the log request fails, at once or after
    some chunks: the chunks delivered so far are followed by the line
    [Container not found], respectively by one line that begins with
    [Error streaming logs:], and the stream returns.  The subscriber then
    gets exactly the frames it would get from a sandbox that exists and
    prints that text itself.  An exception that is not an API error ends
    the stream by being raised to the consumer, and so does the
    [RuntimeError] of a client that cannot be initialised. *)
Theorem stream_logs_errors_in_band (d : Daemon) (cid : str) (w : World) :
  (client_available d w ->
   let chunks := fst (follow_outcome d) in
   (snd (follow_outcome d) = None -> snd (stream_logs d cid w) = inr (chunks, None)) /\
   (forall e, snd (follow_outcome d) = Some e ->
      (is_not_found e = true ->
         snd (stream_logs d cid w) = inr (chunks ++ [s "Container not found"], None)) /\
      (is_not_found e = false -> is_api_error e = true ->
         snd (stream_logs d cid w)
         = inr (chunks ++ [s "Error streaming logs: " ++ str_exn e], None)) /\
      (is_api_error e = false -> snd (stream_logs d cid w) = inr (chunks, Some e)) /\
      (is_api_error e = true -> forall c user bot_id,
         bot_logs_websocket d user bot_id w
         = bot_logs_websocket (printing d c e) user bot_id w))) /\
  (forall w' e, get_docker_client d w = (w', inl e) ->
     snd (stream_logs d cid w) = inr ([], Some e) /\ exists m, e = RuntimeError m).
Proof.
  split.
  - intros Hc chunks. subst chunks.
    pose proof (stream_logs_run d cid w Hc) as Hs.
    split.
    + intros Hn. now rewrite Hn in Hs.
    + intros e He. rewrite He in Hs. split; [|split; [|split]].
      * intros Hnf. now rewrite Hnf in Hs.
      * intros Hnf Hapi. now rewrite Hnf, Hapi in Hs.
      * intros Hapi. rewrite Hapi in Hs.
        destruct (is_not_found e) eqn:Hnf; [|exact Hs]. now destruct e.
      * intros Hapi c user bot_id. unfold bot_logs_websocket.
        destruct user as [uid|]; [|reflexivity].
        destruct (verify_bot_ownership bot_id uid w) as [w1 [x|bot]]; [reflexivity|].
        destruct (negb (truthy (container_id bot))); [reflexivity|].
        rewrite <- (proj2 (stream_logs_printing d c e _ w1 He Hapi)).
        destruct (get_recent_logs d _ 50 w1) as [w2 [x|recent]]; [reflexivity|].
        now rewrite <- (proj1 (stream_logs_printing d c e _ w2 He Hapi)).
  - intros w' e Hg. unfold stream_logs. rewrite Hg. split; [reflexivity|].
    revert Hg. unfold get_docker_client. destruct (docker_client w); [discriminate|].
    destruct (connect d) as [e'|[]]; [|discriminate].
    destruct (is_docker_exception e'); intros [= _ <-]; eexists; reflexivity.
Qed.

Lemma stream_logs_errors_in_band_witness :
  let lost := with_containers_get (inl (DockerNotFound (s "No such container")))
                                  healthy_daemon in
  let failing := with_logs_follow ([s "hi"], Some (DockerAPIError (s "500 Server Error")))
                                  healthy_daemon in
  snd (stream_logs lost (s "c0ffee") world_with_sandbox)
  = inr ([s "Container not found"], None) /\
  snd (stream_logs failing (s "c0ffee") world_with_sandbox)
  = inr ([s "hi"; s "Error streaming logs: 500 Server Error"], None) /\
  snd (stream_logs dropping_daemon (s "c0ffee") world_with_sandbox)
  = inr ([s "hi"], Some (OtherError (s "Connection aborted"))).
Proof.
  intros lost failing.
  assert (Hc : forall d, client_available d world_with_sandbox)
    by (intros d; left; reflexivity).
  split; [|split].
  - destruct (stream_logs_errors_in_band lost (s "c0ffee") world_with_sandbox) as [H _].
    destruct (H (Hc _)) as [_ H']. exact (proj1 (H' _ eq_refl) eq_refl).
  - destruct (stream_logs_errors_in_band failing (s "c0ffee") world_with_sandbox) as [H _].
    destruct (H (Hc _)) as [_ H'].
    exact (proj1 (proj2 (H' _ eq_refl)) eq_refl eq_refl).
  - destruct (stream_logs_errors_in_band dropping_daemon (s "c0ffee") world_with_sandbox)
      as [H _].
    destruct (H (Hc _)) as [_ H'].
    exact (proj1 (proj2 (proj2 (H' _ eq_refl))) eq_refl).
Defined.

(* ===================================================================== *)
(** * The log broker *)
(* ===================================================================== *)

Lemma no_close_in_texts (c : nat) (lines : list str) :
  ~ In (Close c) (map SendText lines).
Proof.
  intros H. apply in_map_iff in H as (x & Hx & _). discriminate.
Qed.

(** Whenever the follow-stream raises while it is pumped, the handler
    sends the error as one more text frame and issues no close at all. *)
Lemma pump_error_reported d uid i w bot recent w2 w3 lines e :
  find_bot i (bots w) = Some bot -> user_id bot = uid ->
  truthy (container_id bot) = true ->
  get_recent_logs d (cid_of (container_id bot)) 50 w = (w2, inr recent) ->
  stream_logs d (cid_of (container_id bot)) w2 = (w3, inr (lines, Some e)) ->
  exists preamble,
    snd (bot_logs_websocket d (Some uid) i w)
    = Accept :: map SendText (preamble ++ lines ++ [s "Error: " ++ str_exn e]) /\
    forall c, ~ In (Close c) (snd (bot_logs_websocket d (Some uid) i w)).
Proof.
  intros Hfind Hu Ht Hrecent Hstream.
  unfold bot_logs_websocket, verify_bot_ownership. rewrite bind_run. cbn [get_world].
  rewrite Hfind, Hu, Nat.eqb_refl. cbn [negb ret].
  rewrite Ht. cbn [negb]. rewrite Hrecent, Hstream. cbn [snd].
  set (pre := if is_empty recent then [] else [_]).
  exists (if is_empty recent then []
          else [s "=== Recent Logs ===" ++ [newline] ++ recent
                  ++ [newline] ++ s "=== Live Stream ===" ++ [newline]]).
  assert (Hpre : Accept :: pre ++ map SendText lines ++ [SendText (s "Error: " ++ str_exn e)]
                 = Accept :: map SendText
                     ((if is_empty recent then []
                       else [s "=== Recent Logs ===" ++ [newline] ++ recent
                               ++ [newline] ++ s "=== Live Stream ===" ++ [newline]])
                        ++ lines ++ [s "Error: " ++ str_exn e])).
  { subst pre. rewrite !map_app. now destruct (is_empty recent). }
  rewrite Hpre. split; [reflexivity|].
  intros c [H|H]; [discriminate|]. exact (no_close_in_texts c _ H).
Qed.

(** C8 (the code at the failing input).  The follow-stream raises while it
    is pumped: the subscriber gets the error as a text frame, and the
    handler returns without closing the session with code 1011. *)
Lemma pump_error_not_closed :
  let frames := snd (bot_logs_websocket dropping_daemon (Some 7) 1 world_with_sandbox) in
  frames = [ Accept;
             SendText (s "=== Recent Logs ===" ++ [newline] ++ s "hi" ++ [newline]
                         ++ s "=== Live Stream ===" ++ [newline]);
             SendText (s "hi");
             SendText (s "Error: Connection aborted") ] /\
  ~ In (Close 1011) frames.
Proof.
  split; [reflexivity|].
  cbn. intros H. repeat (destruct H as [H|H]; [discriminate|]). exact H.
Qed.

(** The sibling path: an error raised before the pump, here by the tail
    query, is reported and the session is closed with code 1011. *)
Lemma tail_error_closed :
  snd (bot_logs_websocket
         (with_containers_get (inl (OtherError (s "Connection aborted"))) healthy_daemon)
         (Some 7) 1 world_with_sandbox)
  = [ Accept; SendText (s "Error: Connection aborted"); Close 1011 ].
Proof. reflexivity. Qed.

(* ===================================================================== *)
(** * The lifecycle manager *)
(* ===================================================================== *)

(** ** Functions that leave the database alone *)

Section Frames.

Context {A B : Type}.

Lemma db_frame_ret (x : A) : db_frame (ret x).
Proof. now intros w. Qed.

Lemma db_frame_raise (e : exn) : db_frame (@raise A e).
Proof. now intros w. Qed.

Lemma db_frame_lift (r : result A) : db_frame (lift r).
Proof. now intros w. Qed.

Lemma db_frame_bind (m : M A) (k : A -> M B) :
  db_frame m -> (forall x, db_frame (k x)) -> db_frame (bind m k).
Proof.
  intros Hm Hk w. unfold bind. specialize (Hm w).
  destruct (m w) as [w1 [e|x]]; cbn [fst] in *; [exact Hm|].
  destruct (Hk x w1) as [H1 H2]. destruct Hm as [H3 H4].
  split; congruence.
Qed.

Lemma db_frame_try (m : M A) (cls : exn -> bool) (h : exn -> M A) :
  db_frame m -> (forall e, db_frame (h e)) -> db_frame (try_except m cls h).
Proof.
  intros Hm Hh w. unfold try_except. specialize (Hm w).
  destruct (m w) as [w1 [e|x]]; cbn [fst] in *; [|exact Hm].
  destruct (cls e); [|exact Hm].
  destruct (Hh e w1) as [H1 H2]. destruct Hm as [H3 H4].
  split; congruence.
Qed.

End Frames.

Lemma db_frame_client (d : Daemon) : db_frame (get_docker_client d).
Proof.
  intros w. unfold get_docker_client.
  destruct (docker_client w); [now split|].
  destruct (connect d) as [e|x]; [|now split].
  now destruct (is_docker_exception e).
Qed.

Lemma db_frame_storage_path (i : nat) : db_frame (get_bot_storage_path i).
Proof. now intros w. Qed.

Lemma db_frame_set_dir (i : nat) (f : directory -> directory) : db_frame (set_dir i f).
Proof. now intros w. Qed.

Lemma db_frame_audit (u : nat) (a t ip : str) (det : option str) :
  db_frame (create_audit_log u a t ip det).
Proof. now intros w. Qed.

Create HintDb frame.
#[local] Hint Resolve db_frame_ret db_frame_raise db_frame_lift db_frame_client
  db_frame_storage_path db_frame_set_dir db_frame_audit : frame.

Ltac frame :=
  repeat first
    [ apply db_frame_bind; [|intros ?]
    | apply db_frame_try; [|intros ?]
    | match goal with |- db_frame (if ?c then _ else _) => destruct c end
    | solve [auto with frame] ].

Lemma db_frame_create_container d i rt st cpu ram :
  db_frame (create_container d i rt st cpu ram).
Proof. unfold create_container. frame. Qed.

Lemma db_frame_start_container d cid : db_frame (start_container d cid).
Proof. unfold start_container. frame. Qed.

Lemma db_frame_stop_container d cid : db_frame (stop_container d cid).
Proof. unfold stop_container. frame. Qed.

Lemma db_frame_restart_container d cid : db_frame (restart_container d cid).
Proof. unfold restart_container. frame. Qed.

Lemma db_frame_remove_container d cid : db_frame (remove_container d cid).
Proof. unfold remove_container. frame. Qed.

(** ** Rows *)

Lemma find_update_bot (i : nat) (f : Bot -> Bot) (l : list Bot) (b : Bot) :
  (forall x, b_id (f x) = b_id x) ->
  find_bot i l = Some b -> find_bot i (update_bot i f l) = Some (f b).
Proof.
  intros Hf. unfold find_bot. induction l as [|x l IH]; [discriminate|].
  cbn [find update_bot]. destruct (b_id x =? i) eqn:E.
  - intros [= <-]. cbn [find]. now rewrite Hf, E.
  - intros H. cbn [find]. rewrite E. now apply IH.
Qed.

Lemma update_bot_Forall (P : Bot -> Prop) (i : nat) (f : Bot -> Bot) (l : list Bot) :
  Forall P l -> (forall b, find_bot i l = Some b -> P (f b)) ->
  Forall P (update_bot i f l).
Proof.
  unfold find_bot. induction l as [|x l IH]; intros Hl Hf; [constructor|].
  inversion Hl as [|? ? Hx Hl']; subst.
  cbn [update_bot find] in *. destruct (b_id x =? i).
  - constructor; [now apply Hf | exact Hl'].
  - constructor; [exact Hx | now apply IH].
Qed.

Lemma update_bot_users (i : nat) (f : Bot -> Bot) (l : list Bot) :
  (forall x, user_id (f x) = user_id x) ->
  map user_id (update_bot i f l) = map user_id l.
Proof.
  intros Hf. induction l as [|x l IH]; [reflexivity|].
  cbn [update_bot]. destruct (b_id x =? i); cbn [map]; [now rewrite Hf|].
  now rewrite IH.
Qed.

Lemma delete_row_Forall (P : Bot -> Prop) (i : nat) (l : list Bot) :
  Forall P l -> Forall P (delete_row i l).
Proof.
  induction l as [|x l IH]; intros Hl; [constructor|].
  inversion Hl; subst. cbn [delete_row].
  destruct (b_id x =? i); [assumption|]. constructor; auto.
Qed.

Lemma user_bot_count_map (u : nat) (l l' : list Bot) :
  map user_id l' = map user_id l -> user_bot_count u l' = user_bot_count u l.
Proof.
  unfold user_bot_count. revert l'.
  induction l as [|x l IH]; intros [|y l'] H; try discriminate; [reflexivity|].
  cbn [map] in H. injection H as Hxy H. cbn [filter]. rewrite Hxy.
  destruct (user_id x =? u); cbn [length]; now rewrite (IH l').
Qed.

Lemma user_bot_count_delete (u i : nat) (l : list Bot) :
  user_bot_count u (delete_row i l) <= user_bot_count u l.
Proof.
  unfold user_bot_count. induction l as [|x l IH]; [reflexivity|].
  cbn [delete_row filter]. destruct (b_id x =? i).
  - destruct (user_id x =? u); cbn [length]; lia.
  - cbn [filter]. destruct (user_id x =? u); cbn [length]; lia.
Qed.

Lemma user_bot_count_app (u : nat) (l : list Bot) (b : Bot) :
  user_bot_count u (l ++ [b]) =
  user_bot_count u l + (if user_id b =? u then 1 else 0).
Proof.
  unfold user_bot_count. rewrite filter_app, length_app. cbn [filter].
  now destruct (user_id b =? u).
Qed.

(** ** What a sequence of assignments keeps *)

Lemma evolves_users (i : nat) (l l' : list Bot) :
  evolves i l l' -> map user_id l' = map user_id l.
Proof.
  induction 1; try reflexivity;
    rewrite update_bot_users; auto.
Qed.

Lemma evolves_null_handle (i : nat) (l l' : list Bot) :
  evolves i l l' ->
  Forall null_handle_created_or_crashed l ->
  Forall null_handle_created_or_crashed l'.
Proof.
  induction 1 as [|l1 cid _ IH|l1 t _ IH|l1 _ IH|l1 st b _ IH Hb Hc]; intros Hl.
  - exact Hl.
  - apply update_bot_Forall; [auto|]. intros b _ [=].
  - apply update_bot_Forall; [auto|]. intros b Hb.
    assert (Hl1 := IH Hl). unfold find_bot in Hb.
    apply find_some in Hb as [Hin _].
    rewrite Forall_forall in Hl1. exact (Hl1 b Hin).
  - apply update_bot_Forall; [auto|]. intros b _ _. now right.
  - apply update_bot_Forall; [auto|]. intros b' Hb'.
    assert (b' = b) as -> by congruence.
    intros Hn. now destruct Hc.
Qed.

(** ** The handlers, seen on the table *)

Arguments s : simpl never.
Arguments str_of_nat : simpl never.
Arguments str_of_Z : simpl never.
Arguments str_exn : simpl never.

Lemma truthy_some (o : option str) : truthy o = true -> o <> None.
Proof. destruct o; [discriminate | discriminate]. Qed.

Lemma ensure_container_spec d bot plan i w :
  plans (fst (ensure_container d bot plan i w)) = plans w /\
  match snd (ensure_container d bot plan i w) with
  | inl _ => bots (fst (ensure_container d bot plan i w)) = bots w
  | inr bot1 =>
      (truthy (container_id bot) = true /\ bot1 = bot /\
       bots (fst (ensure_container d bot plan i w)) = bots w) \/
      (exists cid, truthy (container_id bot) = false /\
                   bot1 = set_container_id (Some cid) bot /\
                   bots (fst (ensure_container d bot plan i w))
                   = update_bot i (set_container_id (Some cid)) (bots w))
  end.
Proof.
  unfold ensure_container.
  destruct (truthy (container_id bot)) eqn:Ht; cbn [negb].
  - cbn. auto.
  - rewrite bind_run.
    destruct (db_frame_create_container d (b_id bot) (runtime bot) (start_cmd bot)
                (cpu_limit plan) (ram_limit plan) w) as [Hb Hp].
    destruct (create_container _ _ _ _ _ _ w) as [w1 [e|cid]]; cbn in *.
    + auto.
    + split; [exact Hp|]. right. exists cid. rewrite Hb. auto.
Qed.

Lemma start_attempt_evolves d bot plan i ip u w :
  find_bot i (bots w) = Some bot ->
  evolves i (bots w) (bots (fst (start_attempt d bot plan i ip u w))) /\
  plans (fst (start_attempt d bot plan i ip u w)) = plans w.
Proof.
  intros Hfind. unfold start_attempt. rewrite bind_run.
  destruct (ensure_container_spec d bot plan i w) as [Hp He].
  destruct (ensure_container d bot plan i w) as [w1 [e|bot1]]; cbn [fst snd] in *.
  - rewrite He. split; [constructor | exact Hp].
  - assert (Hw1 : evolves i (bots w) (bots w1) /\
                  exists b, find_bot i (bots w1) = Some b /\ container_id b <> None).
    { destruct He as [(Ht & -> & Hb)|(cid & Ht & -> & Hb)]; rewrite Hb.
      - split; [constructor|]. exists bot. split; [exact Hfind|].
        now apply truthy_some.
      - split; [constructor; constructor|].
        exists (set_container_id (Some cid) bot). split; [|discriminate].
        now apply find_update_bot. }
    destruct Hw1 as [Hev (b & Hb & Hc)].
    rewrite bind_run.
    destruct (db_frame_start_container d (cid_of (container_id bot1)) w1) as [Hb2 Hp2].
    destruct (start_container _ _ w1) as [w2 [e|[|]]]; cbn in *.
    + rewrite Hb2. split; [exact Hev | congruence].
    + rewrite Hb2. split; [|congruence].
      eapply ev_status; eauto.
    + rewrite Hb2. split; [exact Hev | congruence].
Qed.

Lemma start_bot_evolves d i ip u w :
  evolves i (bots w) (bots (fst (start_bot d i ip u w))) /\
  plans (fst (start_bot d i ip u w)) = plans w.
Proof.
  unfold start_bot, verify_bot_ownership. rewrite !bind_run. cbn [get_world].
  destruct (find_bot i (bots w)) as [bot|] eqn:Hfind; [|split; [constructor | reflexivity]].
  destruct (negb (user_id bot =? u)); [split; [constructor | reflexivity]|].
  cbn [ret]. rewrite !bind_run. cbn [get_world].
  destruct (find_plan (plan_id bot) (plans w)) as [plan|];
    [|split; [constructor | reflexivity]].
  rewrite !bind_run. cbn [get_bot_storage_path modify].
  rewrite !bind_run. cbn [get_world].
  set (w0 := with_storage _ w).
  destruct (is_empty (dir_of i (storage w0))); [split; [constructor | reflexivity]|].
  rewrite bind_run. unfold try_except.
  destruct (start_attempt_evolves d bot plan i ip u w0 Hfind) as [Hev Hp].
  destruct (start_attempt d bot plan i ip u w0) as [w1 [e|bot1]]; cbn in *.
  - split; [now constructor | exact Hp].
  - split; [exact Hev | exact Hp].
Qed.

Lemma stop_bot_evolves d i ip u w :
  evolves i (bots w) (bots (fst (stop_bot d i ip u w))) /\
  plans (fst (stop_bot d i ip u w)) = plans w.
Proof.
  unfold stop_bot, verify_bot_ownership. rewrite !bind_run. cbn [get_world].
  destruct (find_bot i (bots w)) as [bot|] eqn:Hfind; [|split; [constructor | reflexivity]].
  destruct (negb (user_id bot =? u)); [split; [constructor | reflexivity]|].
  cbn [ret].
  destruct (truthy (container_id bot)) eqn:Ht; cbn [negb];
    [|split; [constructor | reflexivity]].
  rewrite bind_run.
  destruct (db_frame_stop_container d (cid_of (container_id bot)) w) as [Hb Hp].
  destruct (stop_container _ _ w) as [w1 [e|[|]]]; cbn in *.
  - rewrite Hb. split; [constructor | exact Hp].
  - rewrite Hb. split; [|exact Hp].
    eapply ev_status; [constructor | exact Hfind | now apply truthy_some].
  - rewrite Hb. split; [constructor | exact Hp].
Qed.

Lemma restart_bot_evolves d i ip u w :
  evolves i (bots w) (bots (fst (restart_bot d i ip u w))) /\
  plans (fst (restart_bot d i ip u w)) = plans w.
Proof.
  unfold restart_bot, verify_bot_ownership. rewrite !bind_run. cbn [get_world].
  destruct (find_bot i (bots w)) as [bot|] eqn:Hfind; [|split; [constructor | reflexivity]].
  destruct (negb (user_id bot =? u)); [split; [constructor | reflexivity]|].
  cbn [ret].
  destruct (truthy (container_id bot)) eqn:Ht; cbn [negb];
    [|split; [constructor | reflexivity]].
  rewrite bind_run.
  destruct (db_frame_restart_container d (cid_of (container_id bot)) w) as [Hb Hp].
  destruct (restart_container _ _ w) as [w1 [e|[|]]]; cbn in *.
  - rewrite Hb. split; [constructor | exact Hp].
  - rewrite Hb. split; [|exact Hp].
    eapply ev_status; [constructor | exact Hfind | now apply truthy_some].
  - rewrite Hb. split; [constructor | exact Hp].
Qed.

(** The member checks touch nothing, and fail with BadRequest only. *)
Lemma check_members_outcome rt members w :
  check_members rt members w = (w, inr tt) \/
  exists detail, check_members rt members w = (w, inl (BadRequestException detail)).
Proof.
  induction members as [|m rest IH]; cbn [check_members]; [now left|].
  unfold check_member.
  destruct (is_absolute m || _); [right; eexists; reflexivity|].
  destruct (endswith (s "/") m); [exact IH|].
  destruct (negb _ && _); [right; eexists; reflexivity | exact IH].
Qed.

(** The directory of a bot after [f] has been applied to it. *)
Lemma set_dir_run i f w :
  set_dir i f w = (with_storage (fun st => dir_set i (f (dir_of i st)) st) w, inr tt).
Proof. reflexivity. Qed.

(** How the zip branch ends: with the handler's BadRequest when the
    archive cannot be opened, with the BadRequest of the first member that
    fails a check, with the exception of [extractall] (BadRequest in place
    of [BadZipFile]), or with the archive unpacked. *)
Lemma unpack_archive_run bot i fname file w :
  unpack_archive bot i fname file w =
  match zip_members file with
  | None => (w, inl (BadRequestException (s "Invalid zip file")))
  | Some members =>
      match check_members (runtime bot) members w with
      | (_, inl e) => (w, inl e)
      | (_, inr _) =>
          match zip_failure file with
          | Some (n, e) =>
              (fst (set_dir i (extract_members (firstn n members)) w),
               inl (if is_bad_zip e then BadRequestException (s "Invalid zip file") else e))
          | None =>
              (with_bots (update_bot i (set_source_type (Some ZIP)))
                 (fst (set_dir i (remove_path fname)
                         (fst (set_dir i (extract_members members) w)))),
               inr tt)
          end
      end
  end.
Proof.
  unfold unpack_archive, try_except.
  destruct (zip_members file) as [members|]; [|reflexivity].
  rewrite bind_run.
  destruct (check_members_outcome (runtime bot) members w) as [->|[detail ->]];
    [|reflexivity].
  rewrite bind_run. unfold extractall.
  destruct (zip_failure file) as [[n e]|].
  - rewrite bind_run, set_dir_run. cbn [raise fst].
    now destruct (is_bad_zip e).
  - rewrite set_dir_run, bind_run, set_dir_run. reflexivity.
Qed.

Lemma upload_bot_files_evolves i ip file u w :
  evolves i (bots w) (bots (fst (upload_bot_files i ip file u w))) /\
  plans (fst (upload_bot_files i ip file u w)) = plans w.
Proof.
  unfold upload_bot_files, verify_bot_ownership. rewrite !bind_run. cbn [get_world].
  destruct (find_bot i (bots w)) as [bot|] eqn:Hfind; [|split; [constructor | reflexivity]].
  destruct (negb (user_id bot =? u)); [split; [constructor | reflexivity]|].
  cbn [ret]. rewrite !bind_run. cbn [get_bot_storage_path modify].
  rewrite !bind_run. cbn [set_dir modify].
  set (w0 := with_storage _ (with_storage _ w)).
  set (fname := sanitize_filename _).
  assert (H0 : bots w0 = bots w /\ plans w0 = plans w) by now split.
  clearbody w0. destruct H0 as [Hb0 Hp0]. rewrite <- Hb0, <- Hp0.
  clear Hb0 Hp0 Hfind w.
  rewrite bind_run.
  destruct (endswith (s ".zip") fname).
  - rewrite bind_run. cbn [set_dir modify].
    rewrite unpack_archive_run.
    destruct (zip_members file) as [members|]; [|split; [constructor | reflexivity]].
    destruct (check_members _ _ _) as [w2 [e|[]]]; [split; [constructor | reflexivity]|].
    destruct (zip_failure file) as [[n e]|]; cbn.
    + split; [constructor | reflexivity].
    + split; [constructor; constructor | reflexivity].
  - destruct (negb (str_in _ _)); cbn.
    + split; [constructor | reflexivity].
    + split; [constructor; constructor | reflexivity].
Qed.

Lemma create_bot_rows bd ip u w :
  plans (fst (create_bot bd ip u w)) = plans w /\
  (bots (fst (create_bot bd ip u w)) = bots w \/
   exists b plan,
     bots (fst (create_bot bd ip u w)) = bots w ++ [b] /\
     user_id b = u /\ plan_id b = bc_plan_id bd /\
     container_id b = None /\ status b = CREATED /\
     find_plan (bc_plan_id bd) (plans w) = Some plan /\
     (Z.of_nat (user_bot_count u (bots w)) < max_bots plan)%Z).
Proof.
  unfold create_bot.
  destruct (negb (validate_bot_name (bc_name bd))); [now auto|].
  destruct (truthy (bc_start_cmd bd) && _); [now auto|].
  rewrite bind_run. cbn [get_world].
  destruct (find_plan (bc_plan_id bd) (plans w)) as [plan|] eqn:Hplan; [|now auto].
  destruct (Z.of_nat (user_bot_count u (bots w)) >=? max_bots plan)%Z eqn:Hcount;
    [now auto|].
  destruct (existsb _ (bots w)); [now auto|].
  cbn. split; [reflexivity|]. right.
  eexists. exists plan. split; [reflexivity|]. cbn.
  repeat split; auto. lia.
Qed.

Lemma delete_bot_rows d i ip u w :
  plans (fst (delete_bot d i ip u w)) = plans w /\
  (bots (fst (delete_bot d i ip u w)) = bots w \/
   bots (fst (delete_bot d i ip u w)) = delete_row i (bots w)).
Proof.
  unfold delete_bot, verify_bot_ownership. rewrite !bind_run. cbn [get_world].
  destruct (find_bot i (bots w)) as [bot|]; [|now auto].
  destruct (negb (user_id bot =? u)); [now auto|].
  cbn [ret]. rewrite !bind_run.
  destruct (truthy (container_id bot)).
  - rewrite bind_run.
    destruct (db_frame_remove_container d (cid_of (container_id bot)) w) as [Hb Hp].
    destruct (remove_container _ _ w) as [w1 [e|x]]; cbn in *.
    + rewrite Hb. auto.
    + rewrite Hb. auto.
  - cbn. auto.
Qed.

Lemma create_bot_step bd ip u w :
  table_step (plans w) (bots w) (bots (fst (create_bot bd ip u w))) /\
  plans (fst (create_bot bd ip u w)) = plans w.
Proof.
  destruct (create_bot_rows bd ip u w) as [Hp [->|(b & plan & -> & Hu & Hpl & Hc & Hs & Hf & Hlt)]].
  - split; [apply (ts_evolve _ _ 0); constructor | exact Hp].
  - split; [|exact Hp]. apply (ts_insert _ _ b plan); congruence.
Qed.

Lemma delete_bot_step d i ip u w :
  table_step (plans w) (bots w) (bots (fst (delete_bot d i ip u w))) /\
  plans (fst (delete_bot d i ip u w)) = plans w.
Proof.
  destruct (delete_bot_rows d i ip u w) as [Hp [->| ->]].
  - split; [apply (ts_evolve _ _ 0); constructor | exact Hp].
  - split; [apply ts_delete | exact Hp].
Qed.

(** Every request is one step of the table, and leaves the plans as they
    are. *)
Lemma handle_step (r : Request) (w : World) :
  table_step (plans w) (bots w) (bots (handle r w)) /\
  plans (handle r w) = plans w.
Proof.
  destruct r as [bd ip u|i ip f u|d i ip u|d i ip u|d i ip u|d i ip u];
    cbn [handle].
  - apply create_bot_step.
  - destruct (upload_bot_files_evolves i ip f u w) as [H1 H2].
    split; [now apply (ts_evolve _ _ i) | exact H2].
  - destruct (start_bot_evolves d i ip u w) as [H1 H2].
    split; [now apply (ts_evolve _ _ i) | exact H2].
  - destruct (stop_bot_evolves d i ip u w) as [H1 H2].
    split; [now apply (ts_evolve _ _ i) | exact H2].
  - destruct (restart_bot_evolves d i ip u w) as [H1 H2].
    split; [now apply (ts_evolve _ _ i) | exact H2].
  - apply delete_bot_step.
Qed.

Lemma run_plans (reqs : list Request) (w : World) : plans (run reqs w) = plans w.
Proof.
  revert w. induction reqs as [|r reqs IH]; intros w; [reflexivity|].
  cbn [run fold_left]. fold (run reqs (handle r w)).
  rewrite IH. apply handle_step.
Qed.

(** ** The null-handle invariant *)

Lemma table_step_null_handle (ps : list Plan) (l l' : list Bot) :
  table_step ps l l' ->
  Forall null_handle_created_or_crashed l ->
  Forall null_handle_created_or_crashed l'.
Proof.
  intros [i l1 Hev|b plan Hc Hs _ _|i] Hl.
  - eapply evolves_null_handle; eauto.
  - apply Forall_app. split; [exact Hl|].
    constructor; [|constructor]. intros _. now left.
  - now apply delete_row_Forall.
Qed.

Lemma run_null_handle (reqs : list Request) (w : World) :
  Forall null_handle_created_or_crashed (bots w) ->
  Forall null_handle_created_or_crashed (bots (run reqs w)).
Proof.
  revert w. induction reqs as [|r reqs IH]; intros w Hw; [exact Hw|].
  cbn [run fold_left]. fold (run reqs (handle r w)).
  apply IH. eapply table_step_null_handle; [apply handle_step | exact Hw].
Qed.

(** C1 (as stated, refuted).  After a start that fails before a handle is
    persisted, the bot has no handle and is CRASHED, not CREATED. *)
Lemma null_handle_not_created :
  map (fun b => (b_id b, container_id b, status b))
      (bots (run failed_first_start (initial_world default_plans)))
  = [(1, None, CRASHED)] /\
  ~ Forall null_handle_created
      (bots (run failed_first_start (initial_world default_plans))).
Proof.
  split; [vm_compute; reflexivity|].
  intros H. apply Forall_inv in H.
  specialize (H eq_refl). vm_compute in H. discriminate.
Qed.

(** C1 (amended).  In every state the service reaches from an empty
    table, a bot without a sandbox handle is CREATED or CRASHED. *)
Theorem null_handle_created_or_crashed_always (ps : list Plan) (reqs : list Request) :
  Forall null_handle_created_or_crashed (bots (run reqs (initial_world ps))).
Proof.
  apply run_null_handle. constructor.
Qed.

(** ** The quota *)

Lemma handle_count (r : Request) (w : World) (u pid : nat) (plan : Plan) :
  find_plan pid (plans w) = Some plan -> creates_on_plan u pid r ->
  (Z.of_nat (user_bot_count u (bots w)) <= max_bots plan)%Z ->
  (Z.of_nat (user_bot_count u (bots (handle r w))) <= max_bots plan)%Z.
Proof.
  intros Hplan Hr Hle.
  assert (Hev : forall i l', evolves i (bots w) l' ->
                  (Z.of_nat (user_bot_count u l') <= max_bots plan)%Z).
  { intros i l' H. now rewrite (user_bot_count_map u _ _ (evolves_users _ _ _ H)). }
  destruct r as [bd ip u'|i ip f u'|d i ip u'|d i ip u'|d i ip u'|d i ip u'];
    cbn [handle creates_on_plan] in *.
  - destruct (create_bot_rows bd ip u' w)
      as [_ [->|(b & plan' & -> & Hu & Hpl & _ & _ & Hf & Hlt)]]; [exact Hle|].
    rewrite user_bot_count_app, Hu.
    destruct (u' =? u) eqn:E; [|lia].
    apply Nat.eqb_eq in E. rewrite (Hr E) in Hf. rewrite E in Hlt.
    assert (plan' = plan) as -> by congruence. lia.
  - eapply Hev, upload_bot_files_evolves.
  - eapply Hev, start_bot_evolves.
  - eapply Hev, stop_bot_evolves.
  - eapply Hev, restart_bot_evolves.
  - destruct (delete_bot_rows d i ip u' w) as [_ [->| ->]]; [exact Hle|].
    pose proof (user_bot_count_delete u i (bots w)). lia.
Qed.

Lemma run_count (reqs : list Request) (w : World) (u pid : nat) (plan : Plan) :
  find_plan pid (plans w) = Some plan -> Forall (creates_on_plan u pid) reqs ->
  (Z.of_nat (user_bot_count u (bots w)) <= max_bots plan)%Z ->
  (Z.of_nat (user_bot_count u (bots (run reqs w))) <= max_bots plan)%Z.
Proof.
  revert w. induction reqs as [|r reqs IH]; intros w Hplan Hreqs Hle; [exact Hle|].
  inversion Hreqs as [|? ? Hr Hrest]; subst.
  cbn [run fold_left]. fold (run reqs (handle r w)).
  apply IH; [|exact Hrest|].
  - destruct (handle_step r w) as [_ ->]. exact Hplan.
  - now apply (handle_count r w u pid plan).
Qed.

(** C5 (as stated, refuted).  The limit that [create_bot] checks is the one
    of the plan named in the request, so a user with a bot on the Free plan
    (at most one bot) gets a second bot by naming the Basic plan: the user
    then owns two bots, one of them on a plan that allows one. *)
Lemma quota_exceeded_across_plans :
  let w := run two_plans (initial_world default_plans) in
  map (fun b => (user_id b, plan_id b)) (bots w) = [(7, 1); (7, 2)] /\
  user_bot_count 7 (bots w) = 2 /\
  option_map max_bots (find_plan 1 (plans w)) = Some 1%Z.
Proof. vm_compute. repeat split. Qed.

(** C5 (amended).  If every create request of user [u] names the plan
    [plan], whose limit is not negative, then in every state reached from
    an empty table [u] owns at most [max_bots plan] bots; and a create
    request that passes the name and command checks and names an existing
    plan is rejected with Conflict, the table unchanged, when its owner
    already has that plan's [max_bots] bots or more. *)
Theorem quota_per_requested_plan (ps : list Plan) (u pid : nat) (plan : Plan) :
  find_plan pid ps = Some plan -> (0 <= max_bots plan)%Z ->
  (forall reqs, Forall (creates_on_plan u pid) reqs ->
     (Z.of_nat (user_bot_count u (bots (run reqs (initial_world ps))))
      <= max_bots plan)%Z) /\
  (forall w bd ip,
     plans w = ps -> bc_plan_id bd = pid ->
     validate_bot_name (bc_name bd) = true ->
     (truthy (bc_start_cmd bd) = true ->
      validate_start_command (cid_of (bc_start_cmd bd)) = true) ->
     (Z.of_nat (user_bot_count u (bots w)) >= max_bots plan)%Z ->
     create_bot bd ip u w =
     (w, inl (ConflictException
                (s "Bot limit reached. Your plan allows maximum "
                   ++ str_of_Z (max_bots plan) ++ s " bots.")))).
Proof.
  intros Hplan Hmax. split.
  - intros reqs Hreqs. apply (run_count reqs _ u pid plan); auto.
  - intros w bd ip Hps Hpid Hname Hcmd Hcount.
    unfold create_bot. rewrite Hname. cbn [negb].
    assert (Hc : truthy (bc_start_cmd bd) &&
                 negb (validate_start_command
                         match bc_start_cmd bd with Some c => c | None => [] end)
                 = false).
    { destruct (truthy (bc_start_cmd bd)); [|reflexivity].
      unfold cid_of in Hcmd. now rewrite (Hcmd eq_refl). }
    rewrite Hc, bind_run. cbn [get_world].
    rewrite Hps, Hpid, Hplan.
    destruct (Z.geb_spec (Z.of_nat (user_bot_count u (bots w))) (max_bots plan));
      [reflexivity | lia].
Qed.

Lemma quota_per_requested_plan_witness :
  let w1 := run (firstn 1 same_plan_twice) (initial_world default_plans) in
  (Z.of_nat (user_bot_count 7 (bots (run same_plan_twice (initial_world default_plans))))
   <= 1)%Z /\
  create_bot {| bc_name := s "second"; bc_runtime := NODE;
                bc_start_cmd := None; bc_plan_id := 1 |} (s "10.0.0.1") 7 w1 =
  (w1, inl (ConflictException
              (s "Bot limit reached. Your plan allows maximum "
                 ++ str_of_Z 1 ++ s " bots."))).
Proof.
  intros w1.
  destruct (quota_per_requested_plan default_plans 7 1
              {| p_id := 1; p_name := s "Free"; max_bots := 1;
                 cpu_limit := s "0.5"; ram_limit := s "256m" |}) as [H1 H2].
  - reflexivity.
  - cbn. lia.
  - split.
    + apply H1. repeat constructor.
    + apply H2.
      * reflexivity.
      * reflexivity.
      * reflexivity.
      * discriminate.
      * vm_compute. discriminate.
Defined.

(** ** Failures of the driver during a start *)

Lemma evolves_find (i : nat) (l l' : list Bot) (b : Bot) :
  evolves i l l' -> find_bot i l = Some b ->
  exists b', find_bot i l' = Some b'.
Proof.
  intros H Hb. induction H as [|l1 cid _ [b' IH]|l1 t _ [b' IH]|l1 _ [b' IH]|l1 st b0 _ [b' IH] _ _].
  - eauto.
  - eexists. apply find_update_bot; [reflexivity | exact IH].
  - eexists. apply find_update_bot; [reflexivity | exact IH].
  - eexists. apply find_update_bot; [reflexivity | exact IH].
  - eexists. apply find_update_bot; [reflexivity | exact IH].
Qed.

Lemma dir_exists_nonempty (i : nat) (st : list (nat * directory)) :
  is_empty (dir_of i st) = false -> dir_exists i st = true.
Proof.
  induction st as [|[j d] st IH]; cbn [dir_of dir_exists]; [discriminate|].
  destruct (j =? i); [reflexivity | exact IH].
Qed.

Lemma get_bot_storage_path_present (i : nat) (w : World) :
  is_empty (dir_of i (storage w)) = false ->
  get_bot_storage_path i w = (w, inr tt).
Proof.
  intros H. unfold get_bot_storage_path, modify, with_storage.
  rewrite (dir_exists_nonempty _ _ H). now destruct w.
Qed.

Lemma start_attempt_fails d bot plan i ip u w e :
  driver_failure d bot plan i w e ->
  snd (start_attempt d bot plan i ip u w) = inl e.
Proof.
  intros H. unfold start_attempt. rewrite bind_run.
  destruct H as [e He|w1 bot1 e He Hs|w1 bot1 He Hs].
  - destruct (ensure_container d bot plan i w) as [w1 [e'|x]]; cbn in *; congruence.
  - rewrite He, bind_run.
    destruct (start_container d _ w1) as [w2 [e'|x]]; cbn in *; congruence.
  - rewrite He, bind_run.
    destruct (start_container d _ w1) as [w2 [e'|x]]; cbn in *; [discriminate|].
    injection Hs as ->. reflexivity.
Qed.

(** C3 (as stated, refuted for the message).  The runtime refuses to start
    the sandbox; the driver logs the runtime's message and returns
    [False], and the detail the caller gets is the manager's fixed text,
    without the runtime's message.  The state is CRASHED. *)
Lemma start_failure_message_dropped :
  let d := with_container_start (inl (DockerAPIError (s "port is already allocated")))
                                healthy_daemon in
  snd (start_bot d 1 (s "10.0.0.1") 7 uploaded_world)
  = inl (BadRequestException (s "Failed to start bot: 400: Failed to start container")) /\
  contains (s "port is already allocated")
           (s "Failed to start bot: 400: Failed to start container") = false /\
  status_of 1 (fst (start_bot d 1 (s "10.0.0.1") 7 uploaded_world)) = Some CRASHED.
Proof. vm_compute. repeat split. Qed.

(** C3 (amended).  For an owned bot whose plan exists and whose artifact
    directory is not empty: if the driver's create or start fails during
    the start operation, the persisted state becomes CRASHED and the caller
    receives a BadRequest whose detail is [Failed to start bot: ] followed
    by the text of the exception that ended the attempt; that is the
    driver's exception when create or start raises, and the manager's own
    [Failed to start container] when the driver's start returns [False]. *)
Theorem start_bot_driver_failure d i ip u w bot plan e :
  find_bot i (bots w) = Some bot -> user_id bot = u ->
  find_plan (plan_id bot) (plans w) = Some plan ->
  is_empty (dir_of i (storage w)) = false ->
  driver_failure d bot plan i w e ->
  snd (start_bot d i ip u w)
  = inl (BadRequestException (s "Failed to start bot: " ++ str_exn e)) /\
  status_of i (fst (start_bot d i ip u w)) = Some CRASHED.
Proof.
  intros Hfind Hu Hplan Hdir Hfail.
  assert (Hs := start_attempt_fails d bot plan i ip u w e Hfail).
  destruct (start_attempt_evolves d bot plan i ip u w Hfind) as [Hev _].
  destruct (evolves_find _ _ _ _ Hev Hfind) as [b' Hb'].
  unfold start_bot, verify_bot_ownership. rewrite !bind_run. cbn [get_world].
  rewrite Hfind, Hu, Nat.eqb_refl. cbn [negb ret].
  rewrite !bind_run. cbn [get_world]. rewrite Hplan.
  rewrite !bind_run, (get_bot_storage_path_present i w Hdir).
  rewrite !bind_run. cbn [get_world]. rewrite Hdir.
  rewrite bind_run. unfold try_except.
  destruct (start_attempt d bot plan i ip u w) as [w1 [e'|x]]; cbn [snd fst] in *;
    [|discriminate].
  injection Hs as ->. cbn. split; [reflexivity|].
  unfold status_of. cbn [bots with_bots].
  now rewrite (find_update_bot i (set_status CRASHED) _ b' (fun _ => eq_refl) Hb').
Qed.

Lemma start_bot_driver_failure_witness :
  let d := with_containers_create (inl (DockerAPIError (s "no space left on device")))
                                  healthy_daemon in
  snd (start_bot d 1 (s "10.0.0.1") 7 uploaded_world)
  = inl (BadRequestException
           (s "Failed to start bot: 400: Failed to create container: no space left on device")) /\
  status_of 1 (fst (start_bot d 1 (s "10.0.0.1") 7 uploaded_world)) = Some CRASHED.
Proof.
  intros d.
  apply (start_bot_driver_failure d 1 (s "10.0.0.1") 7 uploaded_world
           {| b_id := 1; user_id := 7; plan_id := 1; runtime := PYTHON;
              name := s "echo"; container_id := None; status := CREATED;
              start_cmd := None; source_type := Some FILE |}
           {| p_id := 1; p_name := s "Free"; max_bots := 1;
              cpu_limit := s "0.5"; ram_limit := s "256m" |}
           (BadRequestException (s "Failed to create container: no space left on device"))).
  - reflexivity.
  - reflexivity.
  - reflexivity.
  - reflexivity.
  - apply create_raised. reflexivity.
Defined.

(* ===================================================================== *)
(** * The artifact store *)
(* ===================================================================== *)

Lemma dir_of_dir_set (i : nat) (d : directory) (st : list (nat * directory)) :
  dir_of i (dir_set i d st) = d.
Proof.
  induction st as [|[j d'] st IH]; cbn [dir_set dir_of].
  - now rewrite Nat.eqb_refl.
  - destruct (j =? i) eqn:E; cbn [dir_of]; now rewrite E.
Qed.

Lemma dir_of_mkdir (i : nat) (st : list (nat * directory)) :
  dir_of i (if dir_exists i st then st else dir_set i [] st) = dir_of i st.
Proof.
  destruct (dir_exists i st) eqn:E; [reflexivity|].
  rewrite dir_of_dir_set.
  induction st as [|[j d] st IH]; [reflexivity|].
  cbn [dir_exists dir_of] in *. destruct (j =? i); [discriminate | auto].
Qed.

(** The segments that [parts] drops or adds are not [..]. *)
Lemma dotdot_in_parts (m : str) :
  str_in (s "..") (path_parts m) = str_in (s "..") (split_on "/" m).
Proof.
  unfold path_parts, str_in. rewrite existsb_app.
  assert (H : existsb (str_eqb (s "..")) (if is_absolute m then [s "/"] else []) = false)
    by now destruct (is_absolute m).
  rewrite H. cbn [orb].
  induction (split_on "/" m) as [|c l IH]; [reflexivity|].
  cbn [filter existsb].
  destruct (str_eqb (s "..") c) eqn:E.
  - apply str_eqb_eq in E. subst c. reflexivity.
  - destruct (negb _); cbn [existsb]; now rewrite ?E, IH.
Qed.

Lemma check_member_refused (rt : BotRuntime) (m : str) :
  match check_member rt m with
  | Some e => exists detail, e = BadRequestException detail
  | None => refused_member rt m = false
  end.
Proof.
  unfold check_member, refused_member. rewrite dotdot_in_parts.
  destruct (is_absolute m || str_in (s "..") (split_on "/" m)); [eauto|].
  cbn [orb].
  destruct (endswith (s "/") m); [reflexivity|]. cbn [negb andb].
  destruct (negb (is_empty (suffix m)) && _); [eauto | reflexivity].
Qed.

Lemma check_members_refused (rt : BotRuntime) (members : list str) (w : World) :
  existsb (refused_member rt) members = true ->
  exists detail, check_members rt members w = (w, inl (BadRequestException detail)).
Proof.
  induction members as [|m rest IH]; [discriminate|].
  cbn [existsb check_members]. intros H.
  pose proof (check_member_refused rt m) as Hm.
  destruct (check_member rt m) as [e|].
  - destruct Hm as [detail ->]. now exists detail.
  - rewrite Hm in H. now apply IH.
Qed.

(** C2 (the code at the failing input).  An archive whose only member is
    [../etc/passwd] is rejected with BadRequest, but a file has been
    written under the bot's directory: the archive itself, saved before its
    members are checked and removed only after a successful extraction.
    The directory is no longer empty, so a start of the bot passes the
    check for uploaded files and runs a sandbox on the rejected upload. *)
Lemma rejected_archive_stays :
  let file := {| filename := Some (s "bot.zip");
                 zip_members := Some [s "../etc/passwd"];
                 zip_failure := None |} in
  let w' := fst (upload_bot_files 1 (s "10.0.0.1") file 7 created_world) in
  dir_of 1 (storage created_world) = [] /\
  snd (upload_bot_files 1 (s "10.0.0.1") file 7 created_world)
  = inl (BadRequestException (s "Invalid file path in zip")) /\
  dir_of 1 (storage w') = [s "bot.zip"] /\
  option_map r_status (match snd (start_bot healthy_daemon 1 (s "10.0.0.1") 7 w') with
                       | inr r => Some r
                       | inl _ => None
                       end) = Some RUNNING.
Proof. vm_compute. repeat split. Qed.

(** The same for every rejected archive: when an owned bot receives an
    archive with a member whose path is absolute or has a [..] segment, or
    a non-directory member whose extension is present and not in the
    allow-list, the upload is rejected with BadRequest and no member is
    extracted, but the directory then holds, besides what the cleaning
    step kept of it, the uploaded archive under its sanitized name. *)
Theorem upload_refused_archive i ip file u w bot members :
  find_bot i (bots w) = Some bot -> user_id bot = u ->
  endswith (s ".zip") (stored_name file) = true ->
  zip_members file = Some members ->
  existsb (refused_member (runtime bot)) members = true ->
  (exists detail,
      snd (upload_bot_files i ip file u w) = inl (BadRequestException detail)) /\
  dir_of i (storage (fst (upload_bot_files i ip file u w)))
  = add_path (stored_name file) (kept (dir_of i (storage w))).
Proof.
  intros Hfind Hu Hzip Hmem Hbad.
  unfold upload_bot_files, verify_bot_ownership. rewrite !bind_run. cbn [get_world].
  rewrite Hfind, Hu, Nat.eqb_refl. cbn [negb ret].
  rewrite !bind_run. cbn [get_bot_storage_path modify].
  rewrite !bind_run. cbn [set_dir modify].
  fold (stored_name file). rewrite bind_run, Hzip.
  rewrite bind_run. cbn [set_dir modify]. rewrite unpack_archive_run, Hmem.
  match goal with |- context [check_members _ _ ?w0] =>
    destruct (check_members_refused (runtime bot) members w0 Hbad) as [detail ->]
  end.
  cbn [fst snd]. split; [now exists detail|].
  cbn [storage with_storage].
  now rewrite !dir_of_dir_set, dir_of_mkdir.
Qed.

Lemma upload_refused_archive_witness :
  let file := {| filename := Some (s "src/My Bot.zip");
                 zip_members := Some [s "main.py"; s "run.sh"];
                 zip_failure := None |} in
  (exists detail,
      snd (upload_bot_files 1 (s "10.0.0.1") file 7 uploaded_world)
      = inl (BadRequestException detail)) /\
  dir_of 1 (storage (fst (upload_bot_files 1 (s "10.0.0.1") file 7 uploaded_world)))
  = [s "My_Bot.zip"].
Proof.
  intros file.
  apply (upload_refused_archive 1 (s "10.0.0.1") file 7 uploaded_world
           {| b_id := 1; user_id := 7; plan_id := 1; runtime := PYTHON;
              name := s "echo"; container_id := None; status := CREATED;
              start_cmd := None; source_type := Some FILE |}
           [s "main.py"; s "run.sh"]).
  - reflexivity.
  - reflexivity.
  - reflexivity.
  - reflexivity.
  - reflexivity.
Defined.

(** C6 (as stated, refuted).  A dotfile sent as a single file is rejected:
    its extension is empty, and the empty extension is not in the
    allow-list that the single-file branch consults.  Nothing is stored. *)
Lemma dotfile_rejected :
  let file := {| filename := Some (s ".env"); zip_members := None;
                 zip_failure := None |} in
  stored_name file = s ".env" /\
  suffix (stored_name file) = [] /\
  snd (upload_bot_files 1 (s "10.0.0.1") file 7 created_world)
  = inl (BadRequestException (s "File type  not allowed for BotRuntime.PYTHON runtime")) /\
  dir_of 1 (storage (fst (upload_bot_files 1 (s "10.0.0.1") file 7 created_world))) = [].
Proof. vm_compute. repeat split. Qed.

Lemma empty_extension_not_allowed (rt : BotRuntime) :
  str_in [] (allowed_extensions (get_runtime_config rt)) = false.
Proof. now destruct rt. Qed.

(** C6 (amended).  When an owned bot receives a single (non-zip) file
    whose sanitized name has an empty extension, the upload is rejected
    with BadRequest and the file is not stored: the directory holds what
    the cleaning step kept of it, and the row of the bot is unchanged. *)
Theorem upload_empty_extension_rejected i ip file u w bot :
  find_bot i (bots w) = Some bot -> user_id bot = u ->
  endswith (s ".zip") (stored_name file) = false ->
  suffix (stored_name file) = [] ->
  snd (upload_bot_files i ip file u w)
  = inl (BadRequestException
           (s "File type " ++ s " not allowed for "
              ++ format_runtime (runtime bot) ++ s " runtime")) /\
  dir_of i (storage (fst (upload_bot_files i ip file u w))) = kept (dir_of i (storage w)) /\
  bots (fst (upload_bot_files i ip file u w)) = bots w.
Proof.
  intros Hfind Hu Hzip Hext.
  unfold upload_bot_files, verify_bot_ownership. rewrite !bind_run. cbn [get_world].
  rewrite Hfind, Hu, Nat.eqb_refl. cbn [negb ret].
  rewrite !bind_run. cbn [get_bot_storage_path modify].
  rewrite !bind_run. cbn [set_dir modify].
  fold (stored_name file). rewrite bind_run, Hzip, Hext.
  rewrite empty_extension_not_allowed. cbn [negb raise fst snd].
  split; [reflexivity|]. split; [|reflexivity].
  cbn [storage with_storage].
  now rewrite !dir_of_dir_set, dir_of_mkdir.
Qed.

Lemma upload_empty_extension_rejected_witness :
  let file := {| filename := Some (s "Makefile"); zip_members := None;
                 zip_failure := None |} in
  snd (upload_bot_files 1 (s "10.0.0.1") file 7 uploaded_world)
  = inl (BadRequestException (s "File type  not allowed for BotRuntime.PYTHON runtime")) /\
  dir_of 1 (storage (fst (upload_bot_files 1 (s "10.0.0.1") file 7 uploaded_world))) = [] /\
  bots (fst (upload_bot_files 1 (s "10.0.0.1") file 7 uploaded_world)) = bots uploaded_world.
Proof.
  intros file.
  apply (upload_empty_extension_rejected 1 (s "10.0.0.1") file 7 uploaded_world
           {| b_id := 1; user_id := 7; plan_id := 1; runtime := PYTHON;
              name := s "echo"; container_id := None; status := CREATED;
              start_cmd := None; source_type := Some FILE |}).
  - reflexivity.
  - reflexivity.
  - reflexivity.
  - reflexivity.
Defined.

(* ===================================================================== *)
(** * The validators of app/utils.py *)
(* ===================================================================== *)

(** What a successful repetition has consumed. *)
Lemma rep_inv (p : ascii -> bool) (k : nat -> str -> bool) :
  forall hi lo pos a,
    Re.rep p k lo hi pos a = true ->
    exists body rest,
      a = body ++ rest /\ forallb p body = true /\
      lo <= length body <= hi /\ k (pos + length body) rest = true.
Proof.
  induction hi as [|hi IH]; intros lo pos a H; cbn [Re.rep] in H;
    apply orb_true_iff in H as [H|H].
  - destruct (Nat.eqb_spec lo 0) as [->|]; [|discriminate].
    exists [], a. rewrite Nat.add_0_r. cbn. repeat split; auto.
  - discriminate.
  - destruct (Nat.eqb_spec lo 0) as [->|]; [|discriminate].
    exists [], a. rewrite Nat.add_0_r. cbn. repeat split; auto. lia.
  - destruct a as [|c a]; [discriminate|].
    apply andb_true_iff in H as [Hc H].
    destruct (IH _ _ _ H) as (body & rest & -> & Hb & Hlen & Hk).
    exists (c :: body), rest. cbn [length forallb app].
    rewrite Hc, Hb. rewrite Nat.add_succ_comm in Hk.
    repeat split; auto; lia.
Qed.

Lemma at_end_inv (a : str) :
  Re.at_end a = true <-> a = [] \/ a = [newline].
Proof.
  destruct a as [|c [|d a]]; cbn [Re.at_end].
  - split; auto.
  - rewrite ascii_eqb_eq. split.
    + intros ->. now right.
    + intros [H|H]; [discriminate | now injection H].
  - split; [discriminate | intros [H|H]; discriminate].
Qed.

(** X1.  [validate_bot_name] accepts exactly the names made of 3 to 50
    characters of [[A-Za-z0-9_-]], optionally followed by one newline. *)
Theorem validate_bot_name_iff (n : str) :
  validate_bot_name n = true <->
  exists body, (n = body \/ n = body ++ [newline]) /\
               3 <= length body <= 50 /\ forallb name_char body = true.
Proof.
  unfold validate_bot_name, Re.re_match, bot_name_pattern.
  cbn [Re.match_at Nat.eqb andb]. split.
  - intros H. apply rep_inv in H as (body & rest & -> & Hb & Hlen & Hk).
    rewrite andb_true_r in Hk. apply at_end_inv in Hk as [-> | ->].
    + exists body. rewrite app_nil_r. auto.
    + exists body. auto.
  - intros (body & Hn & Hlen & Hb).
    destruct Hn as [-> | ->].
    + rewrite <- (app_nil_r body). now apply rep_take.
    + now apply rep_take.
Qed.

(** A literal pattern under [re.IGNORECASE] is a prefix test on the
    lowered subject, and searching for it is a substring test. *)
Lemma match_lit_ignorecase (x : str) :
  forall pos a,
    Re.match_at (Re.ignorecase (map Re.chr x)) pos a = startswith x (lower a).
Proof.
  induction x as [|p x IH]; intros pos a; [reflexivity|].
  cbn [map Re.ignorecase Re.chr Re.match_at Re.rep Nat.eqb orb].
  destruct a as [|c a]; [reflexivity|].
  cbn [lower map startswith Nat.pred]. fold (lower a).
  rewrite orb_false_r. f_equal. apply IH.
Qed.

Lemma search_lit_ignorecase (x a : str) :
  Re.re_search (Re.ignorecase (map Re.chr x)) a = contains x (lower a).
Proof.
  unfold Re.re_search. generalize 0 as pos.
  induction a as [|c a IH]; intros pos; cbn [Re.search_from contains lower map];
    rewrite match_lit_ignorecase; [reflexivity|].
  fold (lower a). now rewrite IH.
Qed.

(** A class that the pattern asks for at least once occurs in whatever
    the pattern matches. *)
Lemma match_at_mandatory (p : ascii -> bool) (hi : option nat) (r : Re.pattern) :
  forall pos a,
    In (Re.AClass p 1 hi) r -> Re.match_at r pos a = true -> existsb p a = true.
Proof.
  induction r as [|x r IH]; intros pos a Hin H; [destruct Hin|].
  destruct x as [| |q lo hi'].
  - destruct Hin as [Hin|Hin]; [discriminate|].
    cbn [Re.match_at] in H. apply andb_true_iff in H as [_ H]. eauto.
  - destruct Hin as [Hin|Hin]; [discriminate|].
    cbn [Re.match_at] in H. apply andb_true_iff in H as [_ H]. eauto.
  - cbn [Re.match_at] in H.
    apply rep_inv in H as (body & rest & -> & Hb & Hlen & Hk).
    rewrite existsb_app. apply orb_true_iff.
    destruct Hin as [Hin|Hin].
    + left. injection Hin as -> -> _.
      destruct body as [|c body]; [cbn in Hlen; lia|].
      cbn [forallb existsb] in *. apply andb_true_iff in Hb as [-> _]. reflexivity.
    + right. eauto.
Qed.

Lemma search_mandatory (p : ascii -> bool) (hi : option nat) (r : Re.pattern) (a : str) :
  In (Re.AClass p 1 hi) r -> Re.re_search r a = true -> existsb p a = true.
Proof.
  intros Hin. unfold Re.re_search. generalize 0 as pos.
  induction a as [|c a IH]; intros pos H; cbn [Re.search_from] in H;
    apply orb_true_iff in H as [H|H].
  - eapply match_at_mandatory; eauto.
  - discriminate.
  - eapply match_at_mandatory; eauto.
  - cbn [existsb]. rewrite (IH _ H). apply orb_true_r.
Qed.

Lemma contains_char (c : ascii) (a : str) :
  contains [c] a = existsb (ascii_eqb c) a.
Proof.
  induction a as [|x a IH]; [reflexivity|].
  cbn [contains startswith existsb]. rewrite IH.
  now destruct (ascii_eqb c x), a.
Qed.

Lemma existsb_mapped {A B} (f : B -> bool) (g : A -> B) (l : list A) :
  existsb f (map g l) = existsb (fun x => f (g x)) l.
Proof.
  induction l as [|x l IH]; [reflexivity|]. cbn [map existsb]. now rewrite IH.
Qed.

Lemma existsb_pointwise {A} (f g : A -> bool) (l : list A) :
  (forall x, f x = g x) -> existsb f l = existsb g l.
Proof.
  intros H. induction l as [|x l IH]; [reflexivity|].
  cbn [existsb]. now rewrite H, IH.
Qed.

Lemma existsb_lower (c : ascii) (a : str) :
  existsb (fun x => ascii_eqb c (lower_char x)) a = contains [c] (lower a).
Proof.
  rewrite contains_char. unfold lower. now rewrite existsb_mapped.
Qed.

Lemma negb_existsb {A} (f : A -> bool) (l : list A) :
  negb (existsb f l) = forallb (fun x => negb (f x)) l.
Proof.
  induction l as [|x l IH]; [reflexivity|].
  cbn [existsb forallb]. now rewrite negb_orb, IH.
Qed.

(** The two patterns with [.*] only match commands that have a pipe, which
    the deny-list refuses already. *)
Lemma piped_download_has_pipe (x : string) (a : str) :
  Re.re_search (Re.ignorecase (Re.lit x ++ [Re.dot_star] ++ Re.lit "|")) a = true ->
  contains (s "|") (lower a) = true.
Proof.
  intros H. change (s "|") with ["|"%char]. rewrite <- existsb_lower.
  eapply search_mandatory; [|exact H].
  unfold Re.ignorecase. rewrite !map_app. apply in_or_app. right.
  apply in_or_app. right. cbn. left. reflexivity.
Qed.

Lemma dangerous_patterns_literals :
  dangerous_patterns =
  map (map Re.chr) deny_literals
      ++ [ Re.lit "curl" ++ [Re.dot_star] ++ Re.lit "|";
           Re.lit "wget" ++ [Re.dot_star] ++ Re.lit "|" ].
Proof. reflexivity. Qed.

(** X2.  On commands of code points below 256, [validate_start_command]
    accepts exactly the non-empty commands of at most 500 characters in
    which, the letters A to Z lowered, none of the fourteen strings of
    [deny_literals] occurs; the two patterns for piped downloads refuse
    nothing that the pipe alone does not refuse. *)
Theorem validate_start_command_iff (c : str) :
  validate_start_command c = true <->
  c <> [] /\ length c <= 500 /\
  forallb (fun p => negb (contains p (lower c))) deny_literals = true.
Proof.
  assert (Hex : existsb (fun p => Re.re_search (Re.ignorecase p) c) dangerous_patterns
                = existsb (fun p => contains p (lower c)) deny_literals).
  { rewrite dangerous_patterns_literals, existsb_app, existsb_mapped.
    rewrite (existsb_pointwise _ (fun p => contains p (lower c)))
      by (intros p; apply search_lit_ignorecase).
    destruct (existsb (fun p => contains p (lower c)) deny_literals) eqn:E;
      [reflexivity|].
    cbn [orb existsb]. rewrite orb_false_r.
    assert (Hpipe : contains (s "|") (lower c) = false).
    { destruct (contains (s "|") (lower c)) eqn:Hp; [|reflexivity].
      rewrite <- E. unfold deny_literals. cbn [existsb]. rewrite Hp.
      now rewrite !orb_true_r. }
    destruct (Re.re_search (Re.ignorecase (Re.lit "curl" ++ _)) c) eqn:E1;
      [apply piped_download_has_pipe in E1; congruence|].
    destruct (Re.re_search (Re.ignorecase (Re.lit "wget" ++ _)) c) eqn:E2;
      [apply piped_download_has_pipe in E2; congruence|].
    reflexivity. }
  unfold validate_start_command. rewrite Hex, negb_existsb.
  destruct c as [|x c]; [split; [discriminate | intros [H _]; congruence]|].
  destruct (Nat.ltb_spec 500 (length (x :: c))) as [Hlong|Hshort].
  - split; [discriminate | intros (_ & H & _); lia].
  - split; [intros H; repeat split; [discriminate | exact Hshort | exact H]
           | intros (_ & _ & H); exact H].
Qed.

Lemma match_chr (c : ascii) (r : Re.pattern) (pos : nat) (a : str) :
  Re.match_at (Re.chr c :: r) pos a =
  match a with
  | x :: a' => ascii_eqb c x && Re.match_at r (S pos) a'
  | [] => false
  end.
Proof.
  cbn [Re.chr Re.match_at Re.rep Nat.eqb orb].
  destruct a as [|x a]; [reflexivity|].
  cbn [Nat.pred]. now rewrite orb_false_r.
Qed.

Lemma match_unbounded (p : ascii -> bool) (lo : nat) (r : Re.pattern) (pos : nat) (a : str) :
  Re.match_at (Re.AClass p lo None :: r) pos a = true <->
  exists body rest,
    a = body ++ rest /\ forallb p body = true /\ lo <= length body /\
    Re.match_at r (pos + length body) rest = true.
Proof.
  cbn [Re.match_at]. split.
  - intros H. apply rep_inv in H as (body & rest & -> & Hb & Hlen & Hk).
    exists body, rest. repeat split; auto. lia.
  - intros (body & rest & -> & Hb & Hlen & Hk).
    apply rep_take; auto. rewrite length_app. lia.
Qed.

(** X3.  [validate_email] accepts exactly the strings made of a non-empty
    local part over [[a-zA-Z0-9._%+-]], an [@], a non-empty domain over
    [[a-zA-Z0-9.-]], a dot and at least two letters, optionally followed by
    one newline. *)
Theorem validate_email_iff (e : str) :
  validate_email e = true <->
  exists local domain tld tail,
    e = local ++ "@"%char :: domain ++ "."%char :: tld ++ tail /\
    local <> [] /\ forallb email_local_char local = true /\
    domain <> [] /\ forallb email_domain_char domain = true /\
    2 <= length tld /\ forallb is_alpha tld = true /\
    (tail = [] \/ tail = [newline]).
Proof.
  unfold validate_email, Re.re_match, email_pattern.
  change (Re.match_at (Re.ABegin :: ?r) 0 e) with ((0 =? 0) && Re.match_at r 0 e).
  cbn [Nat.eqb andb]. split.
  - intros H.
    apply match_unbounded in H as (local & r1 & -> & Hl & Hll & H).
    rewrite match_chr in H. destruct r1 as [|x r1]; [discriminate|].
    apply andb_true_iff in H as [Hx H]. apply ascii_eqb_eq in Hx. subst x.
    apply match_unbounded in H as (domain & r2 & -> & Hd & Hdl & H).
    rewrite match_chr in H. destruct r2 as [|x r2]; [discriminate|].
    apply andb_true_iff in H as [Hx H]. apply ascii_eqb_eq in Hx. subst x.
    apply match_unbounded in H as (tld & tail & -> & Ht & Htl & H).
    cbn [Re.match_at] in H. rewrite andb_true_r in H. apply at_end_inv in H.
    exists local, domain, tld, tail.
    repeat split; auto.
    + intros ->. cbn in Hll. lia.
    + intros ->. cbn in Hdl. lia.
  - intros (local & domain & tld & tail & -> & Hln & Hl & Hdn & Hd & Htl & Ht & Htail).
    apply match_unbounded. exists local, ("@"%char :: domain ++ "."%char :: tld ++ tail).
    repeat split; auto.
    { destruct local; [congruence | cbn; lia]. }
    rewrite match_chr. unfold ascii_eqb at 1. rewrite Ascii.eqb_refl. cbn [andb].
    apply match_unbounded. exists domain, ("."%char :: tld ++ tail).
    repeat split; auto.
    { destruct domain; [congruence | cbn; lia]. }
    rewrite match_chr. unfold ascii_eqb at 1. rewrite Ascii.eqb_refl. cbn [andb].
    apply match_unbounded. exists tld, tail.
    repeat split; auto.
    cbn [Re.match_at]. rewrite andb_true_r. now apply at_end_inv.
Qed.

(* ===================================================================== *)
(** * More on [sanitize_filename] and [get_client_ip] *)
(* ===================================================================== *)

Lemma replace_from_length (old : str) (k : nat) (a : str) :
  length (replace_from old [] k a) <= length a.
Proof.
  revert k. induction a as [|c a IH]; intros k; [reflexivity|].
  cbn [replace_from]. destruct k as [|k].
  - destruct (startswith old (c :: a)); cbn [app length].
    + specialize (IH (pred (length old))). lia.
    + specialize (IH 0). lia.
  - cbn [length]. specialize (IH k). lia.
Qed.

Lemma replace_length (old a : str) : length (replace old [] a) <= length a.
Proof. apply replace_from_length. Qed.

Lemma basename_length (x : str) : length (basename x) <= length x.
Proof.
  unfold basename. destruct (rfind "/" x); [rewrite length_skipn|]; lia.
Qed.

Lemma strip_unsafe_length (x : str) : length (strip_unsafe x) <= length x.
Proof.
  unfold strip_unsafe, Re.sub_class. rewrite length_map.
  eapply Nat.le_trans; [apply replace_length|].
  eapply Nat.le_trans; [apply replace_length|].
  eapply Nat.le_trans; [apply replace_length|].
  apply basename_length.
Qed.

Lemma limit_length_bound (f : str) :
  forallb safe_char f = true ->
  length (limit_length f) <= length f /\
  length (limit_length f) <= 250 + Nat.max 5 (length (snd (splitext f))).
Proof.
  intros Hf. unfold limit_length.
  destruct (Nat.ltb_spec 255 (length f)) as [Hlong|Hshort]; [|lia].
  destruct (splitext f) as [n e] eqn:E. cbn [snd].
  destruct (splitext_shape f n e (safe_no_slash f Hf) E) as [-> _].
  rewrite !length_app, length_firstn. lia.
Qed.

(** X4.  A sanitized name has only characters of [[A-Za-z0-9._-]], so it
    holds no slash and no backslash, and it is never longer than the name
    it was made from. *)
Theorem sanitize_filename_component (x : str) :
  forallb safe_char (sanitize_filename x) = true /\
  contains (s "/") (sanitize_filename x) = false /\
  contains (s "\") (sanitize_filename x) = false /\
  length (sanitize_filename x) <= length x.
Proof.
  pose proof (sanitize_filename_safe x) as Hs.
  repeat split.
  - exact Hs.
  - now apply (contains_char_absent safe_char).
  - now apply (contains_char_absent safe_char).
  - rewrite sanitize_filename_split.
    pose proof (limit_length_bound _ (strip_unsafe_safe x)).
    pose proof (strip_unsafe_length x). lia.
Qed.

(** X5.  The length limit is 255 characters only for short extensions: a
    sanitized name has at most 250 characters plus the extension of the
    cleaned name, or 255 if that extension has at most five characters. *)
Theorem sanitize_filename_length (x : str) :
  length (sanitize_filename x)
  <= 250 + Nat.max 5 (length (snd (splitext (strip_unsafe x)))).
Proof.
  rewrite sanitize_filename_split.
  apply limit_length_bound, strip_unsafe_safe.
Qed.

(** X6.  A name of at most 255 safe characters without [..] is stored
    under that very name. *)
Theorem sanitize_filename_clean (y : str) :
  forallb safe_char y = true -> contains (s "..") y = false ->
  length y <= 255 ->
  sanitize_filename y = y.
Proof.
  intros Hs Hd Hl.
  rewrite sanitize_filename_split, (strip_unsafe_fixed y Hs Hd).
  unfold limit_length.
  destruct (Nat.ltb_spec 255 (length y)); [lia | reflexivity].
Qed.

Lemma sanitize_filename_clean_witness :
  sanitize_filename (s "bot-1_main.py") = s "bot-1_main.py".
Proof.
  apply sanitize_filename_clean.
  - reflexivity.
  - reflexivity.
  - vm_compute. lia.
Defined.

Lemma split_on_no_sep (c : ascii) (a : str) :
  Forall (fun w => existsb (ascii_eqb c) w = false) (split_on c a).
Proof.
  induction a as [|x a IH]; cbn [split_on]; [repeat constructor|].
  destruct (ascii_eqb x c) eqn:E; [constructor; [reflexivity | exact IH]|].
  destruct (split_on c a) as [|w ws]; [repeat constructor|].
  - cbn. unfold ascii_eqb in *. rewrite Ascii.eqb_sym, E. reflexivity.
  - inversion IH; subst. constructor; [|assumption].
    cbn [existsb]. unfold ascii_eqb in *. rewrite Ascii.eqb_sym, E. assumption.
Qed.

Lemma lstrip_no_char (p : ascii -> bool) (a : str) :
  existsb p a = false -> existsb p (lstrip a) = false.
Proof.
  induction a as [|c a IH]; [reflexivity|].
  cbn [lstrip]. destruct (is_space c); [|auto].
  cbn [existsb]. intros H. apply orb_false_iff in H as [_ H]. auto.
Qed.

Lemma existsb_rev {A} (p : A -> bool) (l : list A) :
  existsb p (rev l) = existsb p l.
Proof.
  induction l as [|x l IH]; [reflexivity|].
  cbn [rev existsb]. rewrite existsb_app, IH. cbn [existsb].
  rewrite orb_false_r. apply orb_comm.
Qed.

Lemma lstrip_head (a : str) :
  match lstrip a with c :: _ => is_space c = false | [] => True end.
Proof.
  induction a as [|c a IH]; [exact I|].
  cbn [lstrip]. destruct (is_space c) eqn:E; [exact IH | exact E].
Qed.

Lemma lstrip_snoc (l : str) (c : ascii) :
  is_space c = false -> exists l', lstrip (l ++ [c]) = l' ++ [c].
Proof.
  intros Hc. induction l as [|x l IH]; cbn [app lstrip].
  - rewrite Hc. now exists [].
  - destruct (is_space x); [exact IH|]. now exists (x :: l).
Qed.

Lemma strip_ends (a : str) :
  match strip a with c :: _ => is_space c = false | [] => True end /\
  match rev (strip a) with c :: _ => is_space c = false | [] => True end.
Proof.
  unfold strip. rewrite rev_involutive. split; [|apply lstrip_head].
  pose proof (lstrip_head a) as H.
  destruct (lstrip a) as [|c b]; [exact I|].
  cbn [rev]. destruct (lstrip_snoc (rev b) c H) as [l' ->].
  now rewrite rev_app_distr.
Qed.

(** X7.  When the request carries a non-empty [X-Forwarded-For] header,
    the address that [get_client_ip] reports is taken from that header
    whatever the peer address is; it holds no comma and neither begins nor
    ends with white space. *)
Theorem get_client_ip_forwarded (r : RequestInfo) :
  truthy (x_forwarded_for r) = true ->
  (forall h, get_client_ip {| x_forwarded_for := x_forwarded_for r; client_host := h |}
             = get_client_ip r) /\
  existsb (ascii_eqb ",") (get_client_ip r) = false /\
  match get_client_ip r with c :: _ => is_space c = false | [] => True end /\
  match rev (get_client_ip r) with c :: _ => is_space c = false | [] => True end.
Proof.
  intros Ht. unfold get_client_ip. cbn [x_forwarded_for client_host].
  rewrite Ht. split; [reflexivity|]. split; [|apply strip_ends].
  unfold strip. rewrite existsb_rev. apply lstrip_no_char.
  rewrite existsb_rev. apply lstrip_no_char.
  pose proof (split_on_no_sep "," (cid_of (x_forwarded_for r))) as H.
  destruct (split_on "," (cid_of (x_forwarded_for r))); [reflexivity|].
  now inversion H.
Qed.

Lemma get_client_ip_forwarded_witness :
  let r := {| x_forwarded_for := Some (s " 203.0.113.9 , 10.0.0.2");
              client_host := Some (s "10.0.0.2") |} in
  get_client_ip r = s "203.0.113.9" /\
  existsb (ascii_eqb ",") (get_client_ip r) = false.
Proof.
  intros r. split; [reflexivity|].
  exact (proj1 (proj2 (get_client_ip_forwarded r eq_refl))).
Defined.

(* ===================================================================== *)
(** * More on the sandbox driver *)
(* ===================================================================== *)

(** X8.  The runtime client is created once: after a call of
    [get_docker_client] that returns, every later call returns without
    connecting again, whatever the runtime would answer; a call that fails
    raises a [RuntimeError] and leaves the client unset, so that the next
    call connects again. *)
Theorem get_docker_client_once (d : Daemon) (w : World) :
  (forall w', get_docker_client d w = (w', inr tt) ->
     docker_client w' = true /\
     forall d', get_docker_client d' w' = (w', inr tt)) /\
  (forall w' e, get_docker_client d w = (w', inl e) ->
     w' = w /\ docker_client w = false /\ exists m, e = RuntimeError m).
Proof.
  unfold get_docker_client. split.
  - intros w' H. destruct (docker_client w) eqn:E.
    + injection H as <-. split; [exact E|]. intros d'. now rewrite E.
    + destruct (connect d) as [e|[]].
      * destruct (is_docker_exception e); discriminate.
      * injection H as <-. split; [reflexivity|]. now intros d'.
  - intros w' e H. destruct (docker_client w) eqn:E; [discriminate|].
    destruct (connect d) as [e'|[]]; [|discriminate].
    destruct (is_docker_exception e'); injection H as <- <-; eauto.
Qed.

Lemma get_docker_client_once_witness :
  let w1 := fst (get_docker_client healthy_daemon (initial_world default_plans)) in
  docker_client w1 = true /\
  get_docker_client (with_connect (inl (DockerError (s "socket missing"))) healthy_daemon) w1
  = (w1, inr tt).
Proof.
  intros w1.
  destruct (proj1 (get_docker_client_once healthy_daemon (initial_world default_plans))
                  w1 eq_refl) as [H1 H2].
  split; [exact H1 | apply H2].
Defined.

(** With the client there, a container operation is its two calls. *)
Lemma container_op_run (d : Daemon) (w : World) (call : result unit)
      (h : exn -> M bool) :
  client_available d w ->
  exists w', get_docker_client d w = (w', inr tt) /\
    (get_docker_client d ;;
     try_except (_ <- lift (containers_get d) ;; lift call ;; ret true)
                is_api_error h) w
    = match first_failure (containers_get d) call with
      | None => (w', inr true)
      | Some e => if is_api_error e then h e w' else (w', inl e)
      end.
Proof.
  intros Hc. destruct (get_docker_client_ok d w Hc) as (w' & Hg & _).
  exists w'. split; [exact Hg|].
  rewrite bind_run, Hg. unfold try_except, first_failure.
  rewrite !bind_run. unfold lift, ret.
  destruct (containers_get d) as [e|c]; [reflexivity|].
  rewrite bind_run. now destruct call as [e|[]].
Qed.

(** X9.  With the runtime client available, the driver reports a failed
    operation as a boolean and never raises an API error: when the lookup
    or the call fails with an API error, start, stop and restart return
    [False], and remove returns [True] for a sandbox that is gone and
    [False] otherwise; when both succeed they return [True]. *)
Theorem driver_reports_api_errors (d : Daemon) (cid : str) (w : World) :
  client_available d w ->
  let report (call : result unit) (gone : bool) : result bool :=
    match first_failure (containers_get d) call with
    | None => inr true
    | Some e => if is_api_error e then inr (gone && is_not_found e) else inl e
    end in
  snd (start_container d cid w) = report (container_start d) false /\
  snd (stop_container d cid w) = report (container_stop d) false /\
  snd (restart_container d cid w) = report (container_restart d) false /\
  snd (remove_container d cid w) = report (container_remove d) true.
Proof.
  intros Hc report. subst report. cbv beta.
  unfold start_container, stop_container, restart_container, remove_container.
  repeat split.
  - destruct (container_op_run d w (container_start d) (fun _ => ret false) Hc)
      as (w' & _ & ->).
    destruct (first_failure _ _) as [e|]; [|reflexivity]. now destruct (is_api_error e).
  - destruct (container_op_run d w (container_stop d) (fun _ => ret false) Hc)
      as (w' & _ & ->).
    destruct (first_failure _ _) as [e|]; [|reflexivity]. now destruct (is_api_error e).
  - destruct (container_op_run d w (container_restart d) (fun _ => ret false) Hc)
      as (w' & _ & ->).
    destruct (first_failure _ _) as [e|]; [|reflexivity]. now destruct (is_api_error e).
  - destruct (container_op_run d w (container_remove d) (fun e => ret (is_not_found e)) Hc)
      as (w' & _ & ->).
    destruct (first_failure _ _) as [e|]; [|reflexivity]. now destruct (is_api_error e).
Qed.

Lemma driver_reports_api_errors_witness :
  let d := with_containers_get (inl (DockerNotFound (s "No such container"))) healthy_daemon in
  snd (start_container d (s "c0ffee") world_with_sandbox) = inr false /\
  snd (stop_container d (s "c0ffee") world_with_sandbox) = inr false /\
  snd (restart_container d (s "c0ffee") world_with_sandbox) = inr false /\
  snd (remove_container d (s "c0ffee") world_with_sandbox) = inr true.
Proof.
  intros d.
  apply (driver_reports_api_errors d (s "c0ffee") world_with_sandbox).
  left. reflexivity.
Defined.

Lemma get_docker_client_raises (d : Daemon) (w w' : World) (e : exn) :
  get_docker_client d w = (w', inl e) -> is_api_error e = false.
Proof.
  unfold get_docker_client. destruct (docker_client w); [discriminate|].
  destruct (connect d) as [e'|[]]; [|discriminate].
  destruct (is_docker_exception e'); intros [= _ <-]; reflexivity.
Qed.

Lemma guarded_call_raises {A} (d : Daemon) (w : World) (body : M A) (h : exn -> M A) (e : exn) :
  (forall e0 w0 e1, snd (h e0 w0) = inl e1 -> is_api_error e1 = false) ->
  snd ((get_docker_client d ;; try_except body is_api_error h) w) = inl e ->
  is_api_error e = false.
Proof.
  intros Hh. rewrite bind_run.
  destruct (get_docker_client d w) as [w' [e0|[]]] eqn:Hg.
  - cbn [snd]. intros [= <-]. eapply get_docker_client_raises; eauto.
  - unfold try_except. destruct (body w') as [w1 [e0|x]]; [|discriminate].
    destruct (is_api_error e0) eqn:E; [apply Hh|].
    cbn [snd]. now intros [= <-].
Qed.

(** X10.  No API error of the runtime leaves the driver's operations on
    an existing sandbox: whatever the runtime answers, an exception raised
    by start, stop, restart, remove, the status query, the tail query or
    the follow-stream is not an API error. *)
Theorem driver_raises_no_api_error (d : Daemon) (cid : str) (w : World) (e : exn) :
  (snd (start_container d cid w) = inl e -> is_api_error e = false) /\
  (snd (stop_container d cid w) = inl e -> is_api_error e = false) /\
  (snd (restart_container d cid w) = inl e -> is_api_error e = false) /\
  (snd (remove_container d cid w) = inl e -> is_api_error e = false) /\
  (snd (get_container_status d cid w) = inl e -> is_api_error e = false) /\
  (forall n, snd (get_recent_logs d cid n w) = inl e -> is_api_error e = false) /\
  (forall lines, snd (stream_logs d cid w) = inr (lines, Some e) ->
                 is_api_error e = false).
Proof.
  repeat split.
  - apply guarded_call_raises. intros; discriminate.
  - apply guarded_call_raises. intros; discriminate.
  - apply guarded_call_raises. intros; discriminate.
  - apply guarded_call_raises. intros; discriminate.
  - apply guarded_call_raises. intros; discriminate.
  - intros n. apply guarded_call_raises.
    intros e0 w0 e1. now destruct (is_not_found e0).
  - intros lines. unfold stream_logs.
    destruct (get_docker_client d w) as [w' [e0|[]]] eqn:Hg.
    + cbn [snd]. intros [= _ <-]. eapply get_docker_client_raises; eauto.
    + assert (Hh : forall l l' e0,
                 (if is_not_found e0 then (l ++ [s "Container not found"], None)
                  else if is_api_error e0
                       then (l ++ [s "Error streaming logs: " ++ str_exn e0], None)
                       else (l, Some e0)) = (l', Some e) -> is_api_error e = false).
      { intros l l' e0. destruct (is_not_found e0); [discriminate|].
        destruct (is_api_error e0) eqn:E; [discriminate|]. now intros [= _ <-]. }
      destruct (containers_get d) as [e0|c]; cbn [snd].
      * intros [= H]. exact (Hh _ _ _ H).
      * destruct (logs_follow d) as [chunks [e0|]]; cbn [snd]; [|discriminate].
        intros [= H]. exact (Hh _ _ _ H).
Qed.

Lemma driver_raises_no_api_error_witness :
  let d := with_containers_get (inl (OtherError (s "Connection aborted"))) healthy_daemon in
  snd (stop_container d (s "c0ffee") world_with_sandbox)
  = inl (OtherError (s "Connection aborted")) /\
  is_api_error (OtherError (s "Connection aborted")) = false.
Proof.
  intros d. split; [reflexivity|].
  apply (proj1 (proj2 (driver_raises_no_api_error d (s "c0ffee") world_with_sandbox
                         (OtherError (s "Connection aborted"))))).
  reflexivity.
Defined.



(* ===================================================================== *)
(** * More on the lifecycle manager *)
(* ===================================================================== *)

Lemma verify_bot_ownership_run (i u : nat) (w : World) :
  verify_bot_ownership i u w =
  (w, match find_bot i (bots w) with
      | None => inl (NotFoundException (s "Bot not found"))
      | Some bot =>
          if user_id bot =? u then inr bot
          else inl (ForbiddenException (s "You don't have access to this bot"))
      end).
Proof.
  unfold verify_bot_ownership. rewrite bind_run. cbn [get_world].
  destruct (find_bot i (bots w)) as [bot|]; [|reflexivity].
  now destruct (user_id bot =? u).
Qed.

(** X12.  A bot of another user cannot be touched: upload, start, stop,
    restart and delete by a user who is not the owner are answered with
    Forbidden, and the database, the artifact store and the audit log are
    exactly as before; the runtime is not consulted. *)
Theorem foreign_bot_forbidden d i ip file u (w : World) (bot : Bot) :
  find_bot i (bots w) = Some bot -> user_id bot <> u ->
  upload_bot_files i ip file u w
  = (w, inl (ForbiddenException (s "You don't have access to this bot"))) /\
  start_bot d i ip u w
  = (w, inl (ForbiddenException (s "You don't have access to this bot"))) /\
  stop_bot d i ip u w
  = (w, inl (ForbiddenException (s "You don't have access to this bot"))) /\
  restart_bot d i ip u w
  = (w, inl (ForbiddenException (s "You don't have access to this bot"))) /\
  delete_bot d i ip u w
  = (w, inl (ForbiddenException (s "You don't have access to this bot"))).
Proof.
  intros Hfind Hu. apply Nat.eqb_neq in Hu.
  unfold upload_bot_files, start_bot, stop_bot, restart_bot, delete_bot.
  rewrite !bind_run, verify_bot_ownership_run, Hfind, Hu. auto.
Qed.

Lemma foreign_bot_forbidden_witness :
  delete_bot healthy_daemon 1 (s "10.0.0.9") 8 uploaded_world
  = (uploaded_world, inl (ForbiddenException (s "You don't have access to this bot"))).
Proof.
  apply (foreign_bot_forbidden healthy_daemon 1 (s "10.0.0.9")
           {| filename := None; zip_members := None;
              zip_failure := None |} 8 uploaded_world
           {| b_id := 1; user_id := 7; plan_id := 1; runtime := PYTHON;
              name := s "echo"; container_id := None; status := CREATED;
              start_cmd := None; source_type := Some FILE |}).
  - reflexivity.
  - discriminate.
Defined.

(** X13.  For an id that no bot has, upload, start, stop, restart and
    delete are answered with NotFound and change nothing. *)
Theorem missing_bot_not_found d i ip file u (w : World) :
  find_bot i (bots w) = None ->
  upload_bot_files i ip file u w = (w, inl (NotFoundException (s "Bot not found"))) /\
  start_bot d i ip u w = (w, inl (NotFoundException (s "Bot not found"))) /\
  stop_bot d i ip u w = (w, inl (NotFoundException (s "Bot not found"))) /\
  restart_bot d i ip u w = (w, inl (NotFoundException (s "Bot not found"))) /\
  delete_bot d i ip u w = (w, inl (NotFoundException (s "Bot not found"))).
Proof.
  intros Hfind.
  unfold upload_bot_files, start_bot, stop_bot, restart_bot, delete_bot.
  rewrite !bind_run, verify_bot_ownership_run, Hfind. auto.
Qed.

Lemma missing_bot_not_found_witness :
  start_bot healthy_daemon 5 (s "10.0.0.1") 7 uploaded_world
  = (uploaded_world, inl (NotFoundException (s "Bot not found"))).
Proof.
  apply (missing_bot_not_found healthy_daemon 5 (s "10.0.0.1")
           {| filename := None; zip_members := None;
              zip_failure := None |} 7 uploaded_world).
  reflexivity.
Defined.

(** ** Parts of the world that handlers leave alone *)

Section Keeps.

Context {A B X : Type} (f : World -> X).

Lemma keeps_bind (m : M A) (k : A -> M B) :
  keeps f m -> (forall x, keeps f (k x)) -> keeps f (bind m k).
Proof.
  intros Hm Hk w. unfold bind. specialize (Hm w).
  destruct (m w) as [w1 [e|x]]; cbn [fst] in *; [exact Hm|].
  now rewrite Hk.
Qed.

Lemma keeps_try (m : M A) (cls : exn -> bool) (h : exn -> M A) :
  keeps f m -> (forall e, keeps f (h e)) -> keeps f (try_except m cls h).
Proof.
  intros Hm Hh w. unfold try_except. specialize (Hm w).
  destruct (m w) as [w1 [e|x]]; cbn [fst] in *; [|exact Hm].
  destruct (cls e); [|exact Hm]. now rewrite Hh.
Qed.

Lemma keeps_client (d : Daemon) :
  (forall w, f (with_client w) = f w) -> keeps f (get_docker_client d).
Proof.
  intros Hf w. unfold get_docker_client.
  destruct (docker_client w); [reflexivity|].
  destruct (connect d) as [e|x]; [|apply Hf].
  now destruct (is_docker_exception e).
Qed.

End Keeps.

Ltac keeps_step :=
  first
    [ apply keeps_bind; [|intros ?]
    | apply keeps_try; [|intros ?]
    | apply keeps_client; intros ?; reflexivity
    | match goal with |- keeps _ (if ?c then _ else _) => destruct c end
    | match goal with |- keeps _ (match ?x with _ => _ end) => destruct x end
    | solve [intros ?; reflexivity] ].

Ltac keeps_tac := repeat keeps_step.

Lemma keeps_check_members {X} (f : World -> X) rt members :
  keeps f (check_members rt members).
Proof.
  induction members as [|m rest IH]; cbn [check_members]; [keeps_tac|].
  destruct (check_member rt m); [keeps_tac | exact IH].
Qed.

Lemma keeps_verify {X} (f : World -> X) i u : keeps f (verify_bot_ownership i u).
Proof. intros w. now rewrite verify_bot_ownership_run. Qed.

(** The counter of bot ids moves only when a bot is created. *)
Lemma handle_next_bot_id (r : Request) (w : World) :
  match r with Create _ _ _ => True | _ => next_bot_id (handle r w) = next_bot_id w end.
Proof.
  destruct r as [bd ip u|i ip f u|d i ip u|d i ip u|d i ip u|d i ip u];
    cbn [handle]; [exact I| | | | |];
    match goal with |- _ (fst (?m w)) = _ => revert w; change (keeps next_bot_id m) end.
  - unfold upload_bot_files, unpack_archive, extractall.
    apply keeps_bind; [apply keeps_verify | intros bot]. keeps_tac.
    all: apply keeps_check_members.
  - unfold start_bot, start_attempt, ensure_container, create_container, start_container.
    apply keeps_bind; [apply keeps_verify | intros bot]. keeps_tac.
  - unfold stop_bot, stop_container.
    apply keeps_bind; [apply keeps_verify | intros bot]. keeps_tac.
  - unfold restart_bot, restart_container.
    apply keeps_bind; [apply keeps_verify | intros bot]. keeps_tac.
  - unfold delete_bot, remove_container.
    apply keeps_bind; [apply keeps_verify | intros bot]. keeps_tac.
Qed.

(** ** Creation, names and ids *)

(** What a successful creation depends on, and what it does. *)
Lemma create_bot_effect bd ip u (w : World) :
  (exists e, create_bot bd ip u w = (w, inl e)) \/
  (exists plan,
     validate_bot_name (bc_name bd) = true /\
     find_plan (bc_plan_id bd) (plans w) = Some plan /\
     (Z.of_nat (user_bot_count u (bots w)) < max_bots plan)%Z /\
     existsb (fun b => (user_id b =? u) && str_eqb (name b) (bc_name bd)) (bots w) = false /\
     let bot := {| b_id := next_bot_id w; user_id := u; plan_id := bc_plan_id bd;
                   runtime := bc_runtime bd; name := bc_name bd;
                   container_id := None; status := CREATED;
                   start_cmd := bc_start_cmd bd; source_type := None |} in
     let w' := fst (create_bot bd ip u w) in
     snd (create_bot bd ip u w) = inr (bot_response bot) /\
     bots w' = bots w ++ [bot] /\
     next_bot_id w' = S (next_bot_id w) /\
     plans w' = plans w /\
     audit_logs w' = audit_logs w ++ [audit_entry (Create bd ip u) w] /\
     dir_exists (next_bot_id w) (storage w') = true /\
     forall j, j <> next_bot_id w -> dir_of j (storage w') = dir_of j (storage w)).
Proof.
  remember (create_bot bd ip u w) as R eqn:HR. unfold create_bot in HR.
  destruct (validate_bot_name (bc_name bd)) eqn:Hname; cbn [negb] in HR;
    [|left; eauto].
  destruct (truthy (bc_start_cmd bd) && _); [left; eauto|].
  rewrite bind_run in HR. cbn [get_world] in HR.
  destruct (find_plan (bc_plan_id bd) (plans w)) as [plan|] eqn:Hplan; [|left; eauto].
  destruct (Z.geb_spec (Z.of_nat (user_bot_count u (bots w))) (max_bots plan));
    [left; eauto|].
  destruct (existsb _ (bots w)) eqn:Hdup; [left; eauto|].
  right. exists plan. subst R. repeat split; auto; cbn.
  - destruct (dir_exists (next_bot_id w) (storage w)) eqn:E; [exact E|].
    clear. induction (storage w) as [|[j d] st IH]; cbn [dir_set dir_exists].
    + now rewrite Nat.eqb_refl.
    + destruct (j =? next_bot_id w) eqn:E; cbn [dir_exists]; rewrite E; auto.
  - intros j Hj. destruct (dir_exists (next_bot_id w) (storage w)); [reflexivity|].
    induction (storage w) as [|[k d] st IH]; cbn [dir_set dir_of].
    + destruct (Nat.eqb_spec (next_bot_id w) j); [congruence | reflexivity].
    + destruct (k =? next_bot_id w) eqn:E; cbn [dir_of].
      * apply Nat.eqb_eq in E. subst k.
        destruct (Nat.eqb_spec (next_bot_id w) j); [congruence | reflexivity].
      * now rewrite IH.
Qed.

Lemma evolves_owner_names (i : nat) (l l' : list Bot) :
  evolves i l l' -> owner_names l' = owner_names l.
Proof.
  unfold owner_names. induction 1 as [|l1 cid _ IH|l1 t _ IH|l1 _ IH|l1 st b _ IH _ _];
    try reflexivity; rewrite <- IH; clear;
    (induction l1 as [|x l1 IHl]; [reflexivity|];
     cbn [update_bot]; destruct (b_id x =? i); cbn [map]; [reflexivity | now rewrite IHl]).
Qed.

Lemma evolves_ids (i : nat) (l l' : list Bot) :
  evolves i l l' -> map b_id l' = map b_id l.
Proof.
  induction 1 as [|l1 cid _ IH|l1 t _ IH|l1 _ IH|l1 st b _ IH _ _];
    try reflexivity; rewrite <- IH; clear;
    (induction l1 as [|x l1 IHl]; [reflexivity|];
     cbn [update_bot]; destruct (b_id x =? i); cbn [map]; [reflexivity | now rewrite IHl]).
Qed.

Lemma delete_row_incl {X} (g : Bot -> X) (i : nat) (l : list Bot) :
  incl (map g (delete_row i l)) (map g l).
Proof.
  induction l as [|x l IH]; [apply incl_refl|].
  cbn [delete_row]. destruct (b_id x =? i); cbn [map].
  - apply incl_tl, incl_refl.
  - apply incl_cons; [now left | now apply incl_tl].
Qed.

Lemma delete_row_NoDup {X} (g : Bot -> X) (i : nat) (l : list Bot) :
  NoDup (map g l) -> NoDup (map g (delete_row i l)).
Proof.
  induction l as [|x l IH]; intros H; [constructor|].
  cbn [map] in H. apply NoDup_cons_iff in H as [Hx Hl].
  cbn [delete_row]. destruct (b_id x =? i); [exact Hl|].
  cbn [map]. constructor; [|auto].
  intros Hin. apply Hx. eapply delete_row_incl; eauto.
Qed.

(** What a request does to the table, in one of three ways. *)
Lemma handle_rows (r : Request) (w : World) :
  (exists i, evolves i (bots w) (bots (handle r w))) \/
  (exists i, bots (handle r w) = delete_row i (bots w)) \/
  (exists bd ip u, r = Create bd ip u /\ succeeds r w = true).
Proof.
  destruct r as [bd ip u|i ip f u|d i ip u|d i ip u|d i ip u|d i ip u]; cbn [handle].
  - destruct (create_bot_effect bd ip u w) as [[e He]|(plan & _ & _ & _ & _ & H)].
    + left. exists 0. rewrite He. constructor.
    + right. right. exists bd, ip, u. split; [reflexivity|].
      cbn [succeeds]. cbv zeta in H. destruct H as [-> _]. reflexivity.
  - left. exists i. apply upload_bot_files_evolves.
  - left. exists i. apply start_bot_evolves.
  - left. exists i. apply stop_bot_evolves.
  - left. exists i. apply restart_bot_evolves.
  - destruct (delete_bot_rows d i ip u w) as [_ [->| ->]].
    + left. exists 0. constructor.
    + right. left. now exists i.
Qed.

Lemma no_duplicate_name (u : nat) (n : str) (l : list Bot) :
  existsb (fun b => (user_id b =? u) && str_eqb (name b) n) l = false ->
  ~ In (u, n) (owner_names l).
Proof.
  unfold owner_names. intros H Hin. apply in_map_iff in Hin as (b & Hb & Hin).
  injection Hb as Hu Hn.
  assert (existsb (fun b => (user_id b =? u) && str_eqb (name b) n) l = true);
    [|congruence].
  apply existsb_exists. exists b. split; [exact Hin|].
  rewrite Hu, Nat.eqb_refl. cbn [andb]. now apply str_eqb_eq.
Qed.

Lemma NoDup_snoc {X} (l : list X) (x : X) :
  NoDup l -> ~ In x l -> NoDup (l ++ [x]).
Proof.
  induction l as [|y l IH]; intros Hl Hx; cbn [app].
  - constructor; [exact Hx | constructor].
  - apply NoDup_cons_iff in Hl as [Hy Hl]. constructor.
    + rewrite in_app_iff. intros [H|[H|[]]]; [auto|]. subst. apply Hx. now left.
    + apply IH; [exact Hl|]. intros H. apply Hx. now right.
Qed.

Lemma handle_owner_names (r : Request) (w : World) :
  NoDup (owner_names (bots w)) -> NoDup (owner_names (bots (handle r w))).
Proof.
  intros Hw. destruct (handle_rows r w) as [[i H]|[[i H]|(bd & ip & u & -> & Hok)]].
  - now rewrite (evolves_owner_names _ _ _ H).
  - rewrite H. now apply delete_row_NoDup.
  - cbn [handle succeeds] in *.
    destruct (create_bot_effect bd ip u w) as [[e He]|(plan & _ & _ & _ & Hdup & H)].
    + rewrite He in Hok. discriminate.
    + cbv zeta in H. destruct H as (_ & -> & _).
      unfold owner_names in *. rewrite map_app. cbn [map user_id name].
      apply NoDup_snoc; [exact Hw | now apply no_duplicate_name].
Qed.

(** X14.  In every state the service reaches from an empty table, no two
    bots of one owner have the same name. *)
Theorem names_unique_per_owner (ps : list Plan) (reqs : list Request) :
  NoDup (owner_names (bots (run reqs (initial_world ps)))).
Proof.
  assert (H : forall w, NoDup (owner_names (bots w)) ->
                        NoDup (owner_names (bots (run reqs w)))).
  { induction reqs as [|r reqs IH]; intros w Hw; [exact Hw|].
    cbn [run fold_left]. fold (run reqs (handle r w)).
    apply IH. now apply handle_owner_names. }
  apply H. constructor.
Qed.

Lemma handle_ids_fresh (r : Request) (w : World) :
  ids_fresh w -> ids_fresh (handle r w).
Proof.
  intros [Hnd Hlt]. unfold ids_fresh.
  assert (Hcreate : forall bd ip u, r = Create bd ip u -> succeeds r w = false ->
                                    handle r w = w).
  { intros bd ip u -> Hf. cbn [handle succeeds] in *.
    destruct (create_bot_effect bd ip u w) as [[e He]|(plan & _ & _ & _ & _ & H)].
    - now rewrite He.
    - cbv zeta in H. destruct H as [H _]. rewrite H in Hf. discriminate. }
  assert (Hnext : (exists bd ip u, r = Create bd ip u /\ succeeds r w = true) \/
                  next_bot_id (handle r w) = next_bot_id w).
  { pose proof (handle_next_bot_id r w) as H.
    destruct r as [bd ip u| | | | |]; auto.
    destruct (succeeds (Create bd ip u) w) eqn:E; [left; eauto|].
    right. now rewrite (Hcreate bd ip u eq_refl eq_refl). }
  destruct Hnext as [(bd & ip & u & -> & Hok)|Hnext].
  - cbn [handle succeeds] in *.
    destruct (create_bot_effect bd ip u w) as [[e He]|(plan & _ & _ & _ & _ & H)].
    + rewrite He in Hok. discriminate.
    + cbv zeta in H. destruct H as (_ & -> & -> & _).
      rewrite map_app. cbn [map b_id]. split.
      * apply NoDup_snoc; [exact Hnd|]. intros Hin.
        apply in_map_iff in Hin as (b & Hb & Hin).
        rewrite Forall_forall in Hlt. specialize (Hlt b Hin). lia.
      * apply Forall_app. split.
        -- eapply Forall_impl; [|exact Hlt]. cbn. intros; lia.
        -- constructor; [cbn; lia | constructor].
  - rewrite Hnext.
    destruct (handle_rows r w) as [[i H]|[[i H]|(bd & ip & u & -> & Hok)]].
    + split.
      * now rewrite (evolves_ids _ _ _ H).
      * apply Forall_forall. intros b Hb.
        assert (Hin : In (b_id b) (map b_id (bots w)))
          by (rewrite <- (evolves_ids _ _ _ H); now apply in_map).
        apply in_map_iff in Hin as (b0 & <- & Hin).
        rewrite Forall_forall in Hlt. now apply Hlt.
    + rewrite H. split; [now apply delete_row_NoDup | now apply delete_row_Forall].
    + cbn [handle succeeds] in *.
      destruct (create_bot_effect bd ip u w) as [[e He]|(plan & _ & _ & _ & _ & H)].
      * rewrite He in Hok. discriminate.
      * cbv zeta in H. destruct H as (_ & _ & Hn & _). lia.
Qed.

Lemma run_ids_fresh (ps : list Plan) (reqs : list Request) :
  ids_fresh (run reqs (initial_world ps)).
Proof.
  assert (H : forall w, ids_fresh w -> ids_fresh (run reqs w)).
  { induction reqs as [|r reqs IH]; intros w Hw; [exact Hw|].
    cbn [run fold_left]. fold (run reqs (handle r w)).
    apply IH. now apply handle_ids_fresh. }
  apply H. split; constructor.
Qed.

Lemma find_delete_row_same (i : nat) (l : list Bot) :
  NoDup (map b_id l) -> find_bot i (delete_row i l) = None.
Proof.
  unfold find_bot. induction l as [|x l IH]; intros H; [reflexivity|].
  cbn [map] in H. apply NoDup_cons_iff in H as [Hx Hl].
  cbn [delete_row]. destruct (b_id x =? i) eqn:E.
  - apply Nat.eqb_eq in E. subst i.
    destruct (find (fun b => b_id b =? b_id x) l) as [b|] eqn:F; [|reflexivity].
    apply find_some in F as [Hin Hb]. apply Nat.eqb_eq in Hb.
    exfalso. apply Hx. rewrite <- Hb. now apply in_map.
  - cbn [find]. rewrite E. now apply IH.
Qed.

Lemma find_delete_row_other (i j : nat) (l : list Bot) :
  j <> i -> find_bot j (delete_row i l) = find_bot j l.
Proof.
  unfold find_bot. intros Hj. induction l as [|x l IH]; [reflexivity|].
  cbn [delete_row]. destruct (b_id x =? i) eqn:E; cbn [find].
  - apply Nat.eqb_eq in E. destruct (Nat.eqb_spec (b_id x) j); [congruence | reflexivity].
  - now rewrite IH.
Qed.

Lemma dir_removed (i : nat) (st : list (nat * directory)) :
  dir_exists i (dir_remove i st) = false /\
  forall j, j <> i -> dir_of j (dir_remove i st) = dir_of j st.
Proof.
  unfold dir_remove. split.
  - induction st as [|[k d] st IH]; [reflexivity|].
    cbn [filter fst]. destruct (k =? i) eqn:E; cbn [negb dir_exists]; [exact IH|].
    now rewrite E.
  - intros j Hj. induction st as [|[k d] st IH]; [reflexivity|].
    cbn [filter fst]. destruct (k =? i) eqn:E; cbn [negb dir_of].
    + apply Nat.eqb_eq in E. subst k.
      destruct (Nat.eqb_spec i j); [congruence | exact IH].
    + now rewrite IH.
Qed.

Lemma dir_of_mkdir_other (i j : nat) (st : list (nat * directory)) :
  dir_of j (if dir_exists i st then st else dir_set i [] st) = dir_of j st.
Proof.
  destruct (Nat.eq_dec j i) as [->|Hj]; [apply dir_of_mkdir|].
  destruct (dir_exists i st); [reflexivity|].
  induction st as [|[k d] st IH]; cbn [dir_set dir_of].
  - destruct (Nat.eqb_spec i j); [congruence | reflexivity].
  - destruct (k =? i) eqn:E; cbn [dir_of].
    + apply Nat.eqb_eq in E. subst k.
      destruct (Nat.eqb_spec i j); [congruence | reflexivity].
    + now rewrite IH.
Qed.

Lemma keeps_remove_container {X} (f : World -> X) d cid :
  (forall w, f (with_client w) = f w) -> keeps f (remove_container d cid).
Proof.
  intros Hf. unfold remove_container.
  apply keeps_bind; [now apply keeps_client | intros _]. keeps_tac.
Qed.

(** A deletion that is answered without an exception has removed the row
    and the directory. *)
Lemma delete_bot_done d i ip u (w : World) :
  snd (delete_bot d i ip u w) = inr tt ->
  bots (fst (delete_bot d i ip u w)) = delete_row i (bots w) /\
  storage (fst (delete_bot d i ip u w))
  = dir_remove i (if dir_exists i (storage w) then storage w
                  else dir_set i [] (storage w)).
Proof.
  unfold delete_bot. rewrite !bind_run, verify_bot_ownership_run.
  destruct (find_bot i (bots w)) as [bot|]; [|discriminate].
  destruct (user_id bot =? u); [|discriminate].
  rewrite !bind_run.
  destruct (truthy (container_id bot)).
  - rewrite bind_run.
    pose proof (keeps_remove_container bots d (cid_of (container_id bot)) (fun _ => eq_refl) w) as Hb.
    pose proof (keeps_remove_container storage d (cid_of (container_id bot)) (fun _ => eq_refl) w) as Hs.
    destruct (remove_container d _ w) as [w1 [e|b]]; cbn [fst snd] in *; [discriminate|].
    intros _. cbn. now rewrite Hb, Hs.
  - intros _. cbn. auto.
Qed.

(** X15.  In every state the service reaches from an empty table, a
    deletion that is answered without an exception leaves no row and no
    artifact directory for that bot, and leaves the rows and the
    directories of all other bots as they were. *)
Theorem delete_bot_removes (ps : list Plan) (reqs : list Request) d i ip u :
  let w := run reqs (initial_world ps) in
  let w' := fst (delete_bot d i ip u w) in
  snd (delete_bot d i ip u w) = inr tt ->
  find_bot i (bots w') = None /\
  dir_exists i (storage w') = false /\
  forall j, j <> i ->
    find_bot j (bots w') = find_bot j (bots w) /\
    dir_of j (storage w') = dir_of j (storage w).
Proof.
  intros w w' Hok. subst w'.
  destruct (delete_bot_done d i ip u w Hok) as [-> ->].
  destruct (run_ids_fresh ps reqs) as [Hnd _]. fold w in Hnd.
  destruct (dir_removed i (if dir_exists i (storage w) then storage w
                           else dir_set i [] (storage w))) as [H1 H2].
  repeat split.
  - now apply find_delete_row_same.
  - exact H1.
  - now apply find_delete_row_other.
  - rewrite (H2 j H). apply dir_of_mkdir_other.
Qed.

Lemma delete_bot_removes_witness :
  let w := run (firstn 2 failed_first_start) (initial_world default_plans) in
  find_bot 1 (bots (fst (delete_bot healthy_daemon 1 (s "10.0.0.1") 7 w))) = None /\
  dir_exists 1 (storage (fst (delete_bot healthy_daemon 1 (s "10.0.0.1") 7 w))) = false.
Proof.
  intros w.
  destruct (delete_bot_removes default_plans (firstn 2 failed_first_start)
              healthy_daemon 1 (s "10.0.0.1") 7 eq_refl) as (H1 & H2 & _).
  split; [exact H1 | exact H2].
Defined.

(** ** Deletion, stop and restart when the runtime fails *)

Lemma remove_container_run d cid (w : World) :
  client_available d w ->
  exists w', get_docker_client d w = (w', inr tt) /\
    remove_container d cid w
    = match first_failure (containers_get d) (container_remove d) with
      | None => (w', inr true)
      | Some e => if is_api_error e then (w', inr (is_not_found e)) else (w', inl e)
      end.
Proof.
  intros Hc. unfold remove_container.
  destruct (container_op_run d w (container_remove d) (fun e => ret (is_not_found e)) Hc)
    as (w' & Hg & ->).
  exists w'. split; [exact Hg|].
  destruct (first_failure _ _) as [e|]; [|reflexivity]. now destruct (is_api_error e).
Qed.

(** X16.  Deleting an owned bot that has a sandbox does not depend on the
    driver's report: when removing the sandbox fails with an API error the
    driver returns a boolean, which [delete_bot] ignores, so the row is
    deleted all the same; when it fails with another exception, that
    exception reaches the caller and the row and the files stay. *)
Theorem delete_bot_ignores_report d i ip u (w : World) (bot : Bot) (e : exn) :
  find_bot i (bots w) = Some bot -> user_id bot = u ->
  truthy (container_id bot) = true -> client_available d w ->
  first_failure (containers_get d) (container_remove d) = Some e ->
  (is_api_error e = true ->
     snd (delete_bot d i ip u w) = inr tt /\
     bots (fst (delete_bot d i ip u w)) = delete_row i (bots w)) /\
  (is_api_error e = false ->
     snd (delete_bot d i ip u w) = inl e /\
     bots (fst (delete_bot d i ip u w)) = bots w /\
     storage (fst (delete_bot d i ip u w)) = storage w).
Proof.
  intros Hfind Hu Ht Hc Hfail.
  destruct (remove_container_run d (cid_of (container_id bot)) w Hc) as (w' & Hg & Hr).
  destruct (get_docker_client_ok d w Hc) as (w0 & Hg0 & _ & Hb & _ & Hs).
  assert (w0 = w') as -> by congruence.
  rewrite Hfail in Hr.
  unfold delete_bot. rewrite !bind_run, verify_bot_ownership_run, Hfind, Hu, Nat.eqb_refl.
  rewrite !bind_run, Ht, bind_run, Hr.
  split; intros He; rewrite He; cbn; rewrite ?Hb, ?Hs; auto.
Qed.

Lemma delete_bot_ignores_report_witness :
  let d := with_containers_get (inl (DockerAPIError (s "500 Server Error"))) healthy_daemon in
  snd (delete_bot d 1 (s "10.0.0.1") 7 world_with_sandbox) = inr tt /\
  bots (fst (delete_bot d 1 (s "10.0.0.1") 7 world_with_sandbox)) = [].
Proof.
  intros d.
  apply (proj1 (delete_bot_ignores_report d 1 (s "10.0.0.1") 7 world_with_sandbox
                  {| b_id := 1; user_id := 7; plan_id := 1; runtime := PYTHON;
                     name := s "echo"; container_id := Some (s "c0ffee");
                     status := RUNNING; start_cmd := None;
                     source_type := Some FILE |}
                  (DockerAPIError (s "500 Server Error"))
                  eq_refl eq_refl eq_refl (or_introl eq_refl) eq_refl)).
  reflexivity.
Defined.

(** X17.  Starting an owned bot whose artifact directory is empty is
    refused with BadRequest before the runtime is asked anything: the
    answer is the same for every runtime, the table and the audit log are
    unchanged, and no file appears. *)
Theorem start_bot_without_files d i ip u (w : World) (bot : Bot) (plan : Plan) :
  find_bot i (bots w) = Some bot -> user_id bot = u ->
  find_plan (plan_id bot) (plans w) = Some plan ->
  is_empty (dir_of i (storage w)) = true ->
  snd (start_bot d i ip u w)
  = inl (BadRequestException (s "No files uploaded. Please upload bot code first.")) /\
  bots (fst (start_bot d i ip u w)) = bots w /\
  audit_logs (fst (start_bot d i ip u w)) = audit_logs w /\
  (forall j, dir_of j (storage (fst (start_bot d i ip u w))) = dir_of j (storage w)) /\
  forall d', start_bot d' i ip u w = start_bot d i ip u w.
Proof.
  intros Hfind Hu Hplan Hdir.
  assert (H : forall d0, start_bot d0 i ip u w
              = (with_storage (fun st => if dir_exists i st then st else dir_set i [] st) w,
                 inl (BadRequestException
                        (s "No files uploaded. Please upload bot code first.")))).
  { intros d0. unfold start_bot.
    rewrite !bind_run, verify_bot_ownership_run, Hfind, Hu, Nat.eqb_refl.
    rewrite !bind_run. cbn [get_world]. rewrite Hplan.
    rewrite !bind_run. cbn [get_bot_storage_path modify].
    rewrite !bind_run. cbn [get_world storage with_storage].
    now rewrite dir_of_mkdir, Hdir. }
  rewrite (H d). cbn [fst snd bots audit_logs storage with_storage].
  repeat split.
  - intros j. apply dir_of_mkdir_other.
  - intros d'. now rewrite (H d').
Qed.

Lemma start_bot_without_files_witness :
  snd (start_bot healthy_daemon 1 (s "10.0.0.1") 7 created_world)
  = inl (BadRequestException (s "No files uploaded. Please upload bot code first.")).
Proof.
  apply (start_bot_without_files healthy_daemon 1 (s "10.0.0.1") 7 created_world
           {| b_id := 1; user_id := 7; plan_id := 1; runtime := PYTHON;
              name := s "echo"; container_id := None; status := CREATED;
              start_cmd := None; source_type := None |}
           {| p_id := 1; p_name := s "Free"; max_bots := 1;
              cpu_limit := s "0.5"; ram_limit := s "256m" |});
    reflexivity.
Defined.

Lemma stop_container_run d cid (w : World) :
  client_available d w ->
  exists w', get_docker_client d w = (w', inr tt) /\
    stop_container d cid w
    = match first_failure (containers_get d) (container_stop d) with
      | None => (w', inr true)
      | Some e => if is_api_error e then (w', inr false) else (w', inl e)
      end.
Proof.
  intros Hc. unfold stop_container.
  destruct (container_op_run d w (container_stop d) (fun _ => ret false) Hc)
    as (w' & Hg & ->).
  exists w'. split; [exact Hg|].
  destruct (first_failure _ _) as [e|]; [|reflexivity]. now destruct (is_api_error e).
Qed.

Lemma restart_container_run d cid (w : World) :
  client_available d w ->
  exists w', get_docker_client d w = (w', inr tt) /\
    restart_container d cid w
    = match first_failure (containers_get d) (container_restart d) with
      | None => (w', inr true)
      | Some e => if is_api_error e then (w', inr false) else (w', inl e)
      end.
Proof.
  intros Hc. unfold restart_container.
  destruct (container_op_run d w (container_restart d) (fun _ => ret false) Hc)
    as (w' & Hg & ->).
  exists w'. split; [exact Hg|].
  destruct (first_failure _ _) as [e|]; [|reflexivity]. now destruct (is_api_error e).
Qed.

Lemma start_container_run d cid (w : World) :
  client_available d w ->
  exists w', get_docker_client d w = (w', inr tt) /\
    start_container d cid w
    = match first_failure (containers_get d) (container_start d) with
      | None => (w', inr true)
      | Some e => if is_api_error e then (w', inr false) else (w', inl e)
      end.
Proof.
  intros Hc. unfold start_container.
  destruct (container_op_run d w (container_start d) (fun _ => ret false) Hc)
    as (w' & Hg & ->).
  exists w'. split; [exact Hg|].
  destruct (first_failure _ _) as [e|]; [|reflexivity]. now destruct (is_api_error e).
Qed.

(** X18.  Stop and restart do not touch the row when they fail: for an
    owned bot without a sandbox they answer BadRequest and change nothing,
    and when the runtime fails with an API error they answer BadRequest
    and leave the table and the audit log as they were. *)
Theorem stop_restart_failure d i ip u (w : World) (bot : Bot) :
  find_bot i (bots w) = Some bot -> user_id bot = u ->
  (truthy (container_id bot) = false ->
     stop_bot d i ip u w = (w, inl (BadRequestException (s "Bot has no container"))) /\
     restart_bot d i ip u w = (w, inl (BadRequestException (s "Bot has no container")))) /\
  (truthy (container_id bot) = true -> client_available d w ->
     (forall e, first_failure (containers_get d) (container_stop d) = Some e ->
                is_api_error e = true ->
        snd (stop_bot d i ip u w)
        = inl (BadRequestException (s "Failed to stop container")) /\
        bots (fst (stop_bot d i ip u w)) = bots w /\
        audit_logs (fst (stop_bot d i ip u w)) = audit_logs w) /\
     (forall e, first_failure (containers_get d) (container_restart d) = Some e ->
                is_api_error e = true ->
        snd (restart_bot d i ip u w)
        = inl (BadRequestException (s "Failed to restart container")) /\
        bots (fst (restart_bot d i ip u w)) = bots w /\
        audit_logs (fst (restart_bot d i ip u w)) = audit_logs w)).
Proof.
  intros Hfind Hu. unfold stop_bot, restart_bot.
  rewrite !bind_run, verify_bot_ownership_run, Hfind, Hu, Nat.eqb_refl. split.
  - intros ->. auto.
  - intros -> Hc. cbn [negb].
    destruct (get_docker_client_ok d w Hc) as (w0 & Hg0 & _ & Hb & _).
    assert (Ha : audit_logs w0 = audit_logs w).
    { pose proof (keeps_client audit_logs d (fun _ => eq_refl) w) as H.
      now rewrite Hg0 in H. }
    split; intros e Hf He.
    + destruct (stop_container_run d (cid_of (container_id bot)) w Hc) as (w' & Hg & Hr).
      assert (w0 = w') as -> by congruence.
      rewrite bind_run, Hr, Hf, He. cbn. auto.
    + destruct (restart_container_run d (cid_of (container_id bot)) w Hc) as (w' & Hg & Hr).
      assert (w0 = w') as -> by congruence.
      rewrite bind_run, Hr, Hf, He. cbn. auto.
Qed.

Lemma stop_restart_failure_witness :
  let d := with_containers_get (inl (DockerNotFound (s "No such container"))) healthy_daemon in
  snd (stop_bot d 1 (s "10.0.0.1") 7 world_with_sandbox)
  = inl (BadRequestException (s "Failed to stop container")) /\
  bots (fst (stop_bot d 1 (s "10.0.0.1") 7 world_with_sandbox)) = bots world_with_sandbox /\
  audit_logs (fst (stop_bot d 1 (s "10.0.0.1") 7 world_with_sandbox)) = [].
Proof.
  intros d.
  apply (proj1 (proj2 (stop_restart_failure d 1 (s "10.0.0.1") 7 world_with_sandbox
                  {| b_id := 1; user_id := 7; plan_id := 1; runtime := PYTHON;
                     name := s "echo"; container_id := Some (s "c0ffee");
                     status := RUNNING; start_cmd := None;
                     source_type := Some FILE |} eq_refl eq_refl)
                  eq_refl (or_introl eq_refl))
               (DockerNotFound (s "No such container")) eq_refl eq_refl).
Defined.

(** ** Start, stop and restart when the runtime cooperates *)

Lemma find_update_other (i j : nat) (f : Bot -> Bot) (l : list Bot) :
  (forall x, b_id (f x) = b_id x) -> j <> i ->
  find_bot j (update_bot i f l) = find_bot j l.
Proof.
  intros Hf Hj. unfold find_bot. induction l as [|x l IH]; [reflexivity|].
  cbn [update_bot]. destruct (b_id x =? i) eqn:E; cbn [find].
  - apply Nat.eqb_eq in E. rewrite Hf.
    destruct (Nat.eqb_spec (b_id x) j); [congruence | reflexivity].
  - now rewrite IH.
Qed.

Lemma set_container_id_same (b : Bot) : set_container_id (container_id b) b = b.
Proof. now destruct b. Qed.

Lemma update_bot_same (i : nat) (l : list Bot) (b : Bot) :
  find_bot i l = Some b ->
  update_bot i (set_container_id (container_id b)) l = l.
Proof.
  unfold find_bot. induction l as [|x l IH]; [reflexivity|].
  cbn [find update_bot]. destruct (b_id x =? i).
  - intros [= ->]. now rewrite set_container_id_same.
  - intros H. f_equal. now apply IH.
Qed.

Lemma only_row_changed_refl (i : nat) (w : World) : only_row_changed i w w.
Proof. repeat split. Qed.

Lemma only_row_changed_trans (i : nat) (w1 w2 w3 : World) :
  only_row_changed i w1 w2 -> only_row_changed i w2 w3 -> only_row_changed i w1 w3.
Proof.
  intros (P1 & S1 & B1) (P2 & S2 & B2). repeat split.
  - congruence.
  - intros j. now rewrite S2.
  - intros j Hj. now rewrite B2, B1.
Qed.

Lemma cooperative_available (d : Daemon) (w : World) :
  cooperative d -> client_available d w.
Proof. intros (H & _). now right. Qed.

(** The client call changes nothing that a handler looks at. *)
Lemma client_call (d : Daemon) (w : World) :
  client_available d w ->
  exists w', get_docker_client d w = (w', inr tt) /\
             bots w' = bots w /\ plans w' = plans w /\ storage w' = storage w /\
             audit_logs w' = audit_logs w /\ next_bot_id w' = next_bot_id w.
Proof.
  intros Hc. destruct (get_docker_client_ok d w Hc) as (w' & Hg & _ & Hb & Hp & Hs).
  exists w'. repeat split; auto.
  - pose proof (keeps_client audit_logs d (fun _ => eq_refl) w) as H. now rewrite Hg in H.
  - pose proof (keeps_client next_bot_id d (fun _ => eq_refl) w) as H. now rewrite Hg in H.
Qed.

Lemma create_container_ok d i rt st cpu ram (w : World) :
  cooperative d ->
  exists w' cid,
    create_container d i rt st cpu ram w = (w', inr cid) /\
    containers_create d = inr cid /\
    bots w' = bots w /\ plans w' = plans w /\ audit_logs w' = audit_logs w /\
    forall j, dir_of j (storage w') = dir_of j (storage w).
Proof.
  intros Hco. pose proof (cooperative_available d w Hco) as Hc.
  destruct Hco as (_ & (q & Hq) & Himg & (c & cs & Hcr) & _).
  destruct (client_call d w Hc) as (w0 & Hg & Hb & Hp & Hs & Ha & _).
  exists (with_storage (fun st => if dir_exists i st then st else dir_set i [] st) w0),
         (c :: cs).
  split.
  - unfold create_container. rewrite bind_run, Hg.
    rewrite !bind_run. cbn [get_bot_storage_path modify]. rewrite bind_run.
    unfold lift at 1. rewrite Hq.
    unfold try_except, lift, raise. rewrite !bind_run, Hcr.
    unfold image_ready in Himg.
    destruct (images_get d) as [e1|[]]; [|reflexivity].
    apply andb_true_iff in Himg as [-> Hpull].
    now destruct (images_pull d) as [e2|[]].
  - cbn [bots plans audit_logs storage with_storage]. repeat split; auto.
    intros j. now rewrite dir_of_mkdir_other, Hs.
Qed.

(** A start with a cooperative runtime. *)
Lemma start_bot_started d i ip u (w : World) (bot : Bot) :
  startable i u w bot -> cooperative d ->
  let bot' := set_status RUNNING (set_container_id (handle_after_start d bot) bot) in
  snd (start_bot d i ip u w) = inr (bot_response bot') /\
  startable i u (fst (start_bot d i ip u w)) bot' /\
  truthy (container_id bot') = true /\
  only_row_changed i w (fst (start_bot d i ip u w)) /\
  audit_logs (fst (start_bot d i ip u w))
  = audit_logs w ++ [audit_entry (Start d i ip u) w].
Proof.
  intros (Hfind & Hu & (plan & Hplan) & Hdir) Hco bot'.
  unfold start_bot.
  rewrite !bind_run, verify_bot_ownership_run, Hfind, Hu, Nat.eqb_refl.
  rewrite !bind_run. cbn [get_world]. rewrite Hplan.
  rewrite !bind_run. cbn [get_bot_storage_path modify].
  rewrite !bind_run. cbn [get_world storage with_storage].
  rewrite dir_of_mkdir, Hdir. cbn [is_empty].
  set (w0 := with_storage _ w).
  assert (H0 : bots w0 = bots w /\ plans w0 = plans w /\ audit_logs w0 = audit_logs w /\
               forall j, dir_of j (storage w0) = dir_of j (storage w)).
  { subst w0. cbn. repeat split. intros j. apply dir_of_mkdir_other. }
  clearbody w0. destruct H0 as (Hb0 & Hp0 & Ha0 & Hs0).
  (* the create block *)
  assert (He : exists w1,
             ensure_container d bot plan i w0
             = (w1, inr (set_container_id (handle_after_start d bot) bot)) /\
             truthy (handle_after_start d bot) = true /\
             bots w1 = update_bot i (set_container_id (handle_after_start d bot)) (bots w0) /\
             plans w1 = plans w0 /\ audit_logs w1 = audit_logs w0 /\
             forall j, dir_of j (storage w1) = dir_of j (storage w0)).
  { unfold ensure_container, handle_after_start.
    destruct (truthy (container_id bot)) eqn:Ht; cbn [negb].
    - exists w0. rewrite set_container_id_same. repeat split; auto.
      now rewrite Hb0, (update_bot_same i (bots w) bot Hfind).
    - destruct (create_container_ok d (b_id bot) (runtime bot) (start_cmd bot)
                  (cpu_limit plan) (ram_limit plan) w0 Hco)
        as (w1 & cid & Hc & Hcr & Hb1 & Hp1 & Ha1 & Hs1).
      destruct Hco as (_ & _ & _ & (c & cs & Hcr') & _).
      rewrite Hcr' in *. injection Hcr as <-.
      exists (with_bots (update_bot i (set_container_id (Some (c :: cs)))) w1).
      rewrite bind_run, Hc. cbn. rewrite Hb1. repeat split; auto. }
  destruct He as (w1 & He & Htr & Hb1 & Hp1 & Ha1 & Hs1).
  (* the start of the sandbox *)
  destruct (start_container_run d (cid_of (handle_after_start d bot)) w1
              (cooperative_available d w1 Hco)) as (w2 & Hg & Hst).
  destruct (client_call d w1 (cooperative_available d w1 Hco))
    as (w2' & Hg' & Hb2 & Hp2 & Hs2 & Ha2 & _).
  assert (w2' = w2) as -> by congruence.
  assert (Hff : first_failure (containers_get d) (container_start d) = None).
  { destruct Hco as (_ & _ & _ & _ & (c & ->) & -> & _). reflexivity. }
  rewrite Hff in Hst.
  rewrite bind_run. unfold try_except, start_attempt.
  rewrite bind_run, He, bind_run. cbn [container_id set_container_id].
  rewrite Hst. cbn.
  assert (Hrow : find_bot i (update_bot i (set_status RUNNING) (bots w2)) = Some bot').
  { rewrite Hb2, Hb1, Hb0. subst bot'.
    apply find_update_bot; [reflexivity|]. now apply find_update_bot. }
  repeat split; cbn [bots plans storage audit_logs with_audit with_bots].
  - exact Hrow.
  - exact Hu.
  - exists plan. now rewrite Hp2, Hp1, Hp0.
  - now rewrite Hs2, Hs1, Hs0.
  - exact Htr.
  - now rewrite Hp2, Hp1, Hp0.
  - intros j. now rewrite Hs2, Hs1, Hs0.
  - intros j Hj. rewrite Hb2, Hb1, Hb0.
    now rewrite !find_update_other by (auto || reflexivity).
  - now rewrite Ha2, Ha1, Ha0.
Qed.

(** A stop or a restart with a cooperative runtime. *)
Lemma stop_restart_done d i ip u (w : World) (bot : Bot) :
  startable i u w bot -> truthy (container_id bot) = true -> cooperative d ->
  (snd (stop_bot d i ip u w) = inr (bot_response (set_status STOPPED bot)) /\
   startable i u (fst (stop_bot d i ip u w)) (set_status STOPPED bot) /\
   only_row_changed i w (fst (stop_bot d i ip u w)) /\
   audit_logs (fst (stop_bot d i ip u w))
   = audit_logs w ++ [audit_entry (Stop d i ip u) w]) /\
  (snd (restart_bot d i ip u w) = inr (bot_response (set_status RUNNING bot)) /\
   startable i u (fst (restart_bot d i ip u w)) (set_status RUNNING bot) /\
   only_row_changed i w (fst (restart_bot d i ip u w)) /\
   audit_logs (fst (restart_bot d i ip u w))
   = audit_logs w ++ [audit_entry (Restart d i ip u) w]).
Proof.
  intros (Hfind & Hu & (plan & Hplan) & Hdir) Ht Hco.
  pose proof (cooperative_available d w Hco) as Hc.
  destruct (client_call d w Hc) as (w1 & Hg & Hb & Hp & Hs & Ha & _).
  destruct (stop_container_run d (cid_of (container_id bot)) w Hc) as (w1' & Hg' & Hstop).
  assert (w1' = w1) as -> by congruence.
  destruct (restart_container_run d (cid_of (container_id bot)) w Hc) as (w1' & Hg'' & Hre).
  assert (w1' = w1) as -> by congruence.
  assert (Hf1 : first_failure (containers_get d) (container_stop d) = None)
    by (destruct Hco as (_ & _ & _ & _ & (c & ->) & _ & -> & _); reflexivity).
  assert (Hf2 : first_failure (containers_get d) (container_restart d) = None)
    by (destruct Hco as (_ & _ & _ & _ & (c & ->) & _ & _ & ->); reflexivity).
  rewrite Hf1 in Hstop. rewrite Hf2 in Hre.
  unfold stop_bot, restart_bot.
  rewrite !bind_run, verify_bot_ownership_run, Hfind, Hu, Nat.eqb_refl, Ht.
  cbn [negb]. rewrite !bind_run, Hstop, Hre. cbn [negb].
  split; cbn; (repeat split; cbn [bots plans storage audit_logs with_audit with_bots]).
  all: rewrite ?Hb, ?Hp, ?Hs, ?Ha; auto.
  all: try (apply find_update_bot; [reflexivity | exact Hfind]).
  all: try (exists plan; exact Hplan).
  all: intros j Hj; apply find_update_other; [reflexivity | exact Hj].
Qed.

Lemma startable_status (i u : nat) (w : World) (bot : Bot) :
  startable i u w bot -> status_of i w = Some (status bot).
Proof. intros (H & _). unfold status_of. now rewrite H. Qed.

(** X19.  With a runtime that cooperates, start, stop, start again and
    restart take an owned bot with files to RUNNING, STOPPED, RUNNING and
    RUNNING; the handle persisted by the first start is the one the bot
    keeps (no second sandbox is created), and plans, files and the rows of
    other bots are untouched. *)
Theorem start_stop_start_restart d1 d2 d3 d4 i ip u (w : World) (bot : Bot) :
  startable i u w bot ->
  cooperative d1 -> cooperative d2 -> cooperative d3 -> cooperative d4 ->
  let w1 := fst (start_bot d1 i ip u w) in
  let w2 := fst (stop_bot d2 i ip u w1) in
  let w3 := fst (start_bot d3 i ip u w2) in
  let w4 := fst (restart_bot d4 i ip u w3) in
  let handle_of w := option_map container_id (find_bot i (bots w)) in
  status_of i w1 = Some RUNNING /\ status_of i w2 = Some STOPPED /\
  status_of i w3 = Some RUNNING /\ status_of i w4 = Some RUNNING /\
  truthy (handle_after_start d1 bot) = true /\
  handle_of w1 = Some (handle_after_start d1 bot) /\
  handle_of w2 = Some (handle_after_start d1 bot) /\
  handle_of w3 = Some (handle_after_start d1 bot) /\
  handle_of w4 = Some (handle_after_start d1 bot) /\
  only_row_changed i w w4.
Proof.
  intros Hs0 H1 H2 H3 H4 w1 w2 w3 w4 handle_of.
  destruct (start_bot_started d1 i ip u w bot Hs0 H1) as (_ & Hs1 & Ht1 & Hr1 & _).
  fold w1 in Hs1, Hr1.
  destruct (stop_restart_done d2 i ip u w1 _ Hs1 Ht1 H2) as [(_ & Hs2 & Hr2 & _) _].
  fold w2 in Hs2, Hr2.
  destruct (start_bot_started d3 i ip u w2 _ Hs2 H3) as (_ & Hs3 & Ht3 & Hr3 & _).
  fold w3 in Hs3, Hr3.
  destruct (stop_restart_done d4 i ip u w3 _ Hs3 Ht3 H4) as [_ (_ & Hs4 & Hr4 & _)].
  fold w4 in Hs4, Hr4.
  pose proof (startable_status _ _ _ _ Hs1) as E1.
  pose proof (startable_status _ _ _ _ Hs2) as E2.
  pose proof (startable_status _ _ _ _ Hs3) as E3.
  pose proof (startable_status _ _ _ _ Hs4) as E4.
  assert (Hh : handle_after_start d3
                 (set_status STOPPED
                    (set_status RUNNING (set_container_id (handle_after_start d1 bot) bot)))
               = handle_after_start d1 bot).
  { unfold handle_after_start at 1. cbn [container_id set_status set_container_id].
    cbn [container_id set_status set_container_id] in Ht1. now rewrite Ht1. }
  subst handle_of. cbv beta.
  destruct Hs1 as (F1 & _), Hs2 as (F2 & _), Hs3 as (F3 & _), Hs4 as (F4 & _).
  rewrite F1, F2, F3, F4. cbn [option_map container_id set_status set_container_id].
  rewrite Hh.
  assert (Hr : only_row_changed i w w4).
  { eapply only_row_changed_trans; [|exact Hr4].
    eapply only_row_changed_trans; [|exact Hr3].
    eapply only_row_changed_trans; [exact Hr1 | exact Hr2]. }
  repeat split; auto; apply Hr.
Qed.

Lemma start_stop_start_restart_witness :
  let d := healthy_daemon in
  let w1 := fst (start_bot d 1 (s "10.0.0.1") 7 uploaded_world) in
  let w2 := fst (stop_bot d 1 (s "10.0.0.1") 7 w1) in
  let w3 := fst (start_bot d 1 (s "10.0.0.1") 7 w2) in
  status_of 1 w3 = Some RUNNING /\
  option_map container_id (find_bot 1 (bots w3)) = Some (Some (s "c0ffee")).
Proof.
  intros d w1 w2 w3.
  assert (Hco : cooperative d).
  { repeat split; try reflexivity.
    - now exists 50000%Z.
    - now exists "c"%char, (s "0ffee").
    - eexists. reflexivity. }
  assert (Hst : startable 1 7 uploaded_world
                  {| b_id := 1; user_id := 7; plan_id := 1; runtime := PYTHON;
                     name := s "echo"; container_id := None; status := CREATED;
                     start_cmd := None; source_type := Some FILE |}).
  { repeat split; try reflexivity. eexists. reflexivity. }
  destruct (start_stop_start_restart d d d d 1 (s "10.0.0.1") 7 uploaded_world _
              Hst Hco Hco Hco Hco)
    as (_ & _ & H3 & _ & _ & _ & _ & H7 & _).
  split; [exact H3 | exact H7].
Defined.

(** ** The audit log *)

Lemma keeps_audit_driver d cid :
  keeps audit_logs (start_container d cid) /\
  keeps audit_logs (stop_container d cid) /\
  keeps audit_logs (restart_container d cid) /\
  keeps audit_logs (remove_container d cid).
Proof.
  unfold start_container, stop_container, restart_container, remove_container.
  repeat split; keeps_tac.
Qed.

Lemma keeps_audit_ensure d bot plan i :
  keeps audit_logs (ensure_container d bot plan i).
Proof. unfold ensure_container, create_container. keeps_tac. Qed.

Lemma start_attempt_audit d bot plan i ip u (w : World) :
  audit_logs (fst (start_attempt d bot plan i ip u w))
  = audit_logs w ++
    match snd (start_attempt d bot plan i ip u w) with
    | inr _ => [audit_entry (Start d i ip u) w]
    | inl _ => []
    end.
Proof.
  unfold start_attempt. rewrite bind_run.
  pose proof (keeps_audit_ensure d bot plan i w) as H1.
  destruct (ensure_container d bot plan i w) as [w1 [e|bot1]]; cbn [fst snd] in *.
  - now rewrite H1, app_nil_r.
  - rewrite bind_run.
    pose proof (proj1 (keeps_audit_driver d (cid_of (container_id bot1))) w1) as H2.
    destruct (start_container d _ w1) as [w2 [e|[|]]]; cbn [fst snd] in *.
    + now rewrite H2, H1, app_nil_r.
    + cbn. now rewrite H2, H1.
    + cbn. now rewrite H2, H1, app_nil_r.
Qed.

(** X20.  Every request that is answered without an exception adds
    exactly one entry to the audit log, naming the user, the action, the
    bot and the address given; a request that is answered with an
    exception adds none, and no entry is ever removed. *)
Theorem audit_log_follows_success (r : Request) (w : World) :
  audit_logs (handle r w)
  = audit_logs w ++ (if succeeds r w then [audit_entry r w] else []).
Proof.
  destruct r as [bd ip u|i ip f u|d i ip u|d i ip u|d i ip u|d i ip u];
    cbn [handle succeeds audit_entry].
  - destruct (create_bot_effect bd ip u w) as [[e He]|(plan & _ & _ & _ & _ & H)].
    + rewrite He. cbn. now rewrite app_nil_r.
    + cbv zeta in H. destruct H as (-> & _ & _ & _ & -> & _). reflexivity.
  - unfold upload_bot_files. rewrite !bind_run, verify_bot_ownership_run.
    destruct (find_bot i (bots w)) as [bot|]; [|cbn; now rewrite app_nil_r].
    destruct (user_id bot =? u); [|cbn; now rewrite app_nil_r].
    rewrite !bind_run. cbn [get_bot_storage_path modify].
    rewrite !bind_run. cbn [set_dir modify].
    fold (stored_name f). rewrite bind_run.
    destruct (endswith (s ".zip") (stored_name f)).
    + rewrite bind_run. cbn [set_dir modify]. rewrite unpack_archive_run.
      destruct (zip_members f) as [members|]; [|cbn; now rewrite app_nil_r].
      destruct (check_members _ _ _) as [w1 [e|[]]]; [cbn; now rewrite app_nil_r|].
      destruct (zip_failure f) as [[n e]|]; cbn; [now rewrite app_nil_r | reflexivity].
    + destruct (negb (str_in _ _)); cbn; [now rewrite app_nil_r | reflexivity].
  - unfold start_bot. rewrite !bind_run, verify_bot_ownership_run.
    destruct (find_bot i (bots w)) as [bot|]; [|cbn; now rewrite app_nil_r].
    destruct (user_id bot =? u); [|cbn; now rewrite app_nil_r].
    rewrite !bind_run. cbn [get_world].
    destruct (find_plan (plan_id bot) (plans w)) as [plan|]; [|cbn; now rewrite app_nil_r].
    rewrite !bind_run. cbn [get_bot_storage_path modify].
    rewrite !bind_run. cbn [get_world].
    set (w0 := with_storage _ w).
    destruct (is_empty (dir_of i (storage w0))); [cbn; now rewrite app_nil_r|].
    rewrite bind_run. unfold try_except.
    pose proof (start_attempt_audit d bot plan i ip u w0) as Ha.
    destruct (start_attempt d bot plan i ip u w0) as [w1 [e|bot1]]; cbn [fst snd] in *.
    + cbn. rewrite Ha. reflexivity.
    + cbn. rewrite Ha. reflexivity.
  - unfold stop_bot. rewrite !bind_run, verify_bot_ownership_run.
    destruct (find_bot i (bots w)) as [bot|]; [|cbn; now rewrite app_nil_r].
    destruct (user_id bot =? u); [|cbn; now rewrite app_nil_r].
    destruct (truthy (container_id bot)); cbn [negb]; [|cbn; now rewrite app_nil_r].
    rewrite bind_run.
    pose proof (proj1 (proj2 (keeps_audit_driver d (cid_of (container_id bot)))) w) as H.
    destruct (stop_container d _ w) as [w1 [e|[|]]]; cbn [fst snd] in *; cbn; rewrite H;
      [now rewrite app_nil_r | reflexivity | now rewrite app_nil_r].
  - unfold restart_bot. rewrite !bind_run, verify_bot_ownership_run.
    destruct (find_bot i (bots w)) as [bot|]; [|cbn; now rewrite app_nil_r].
    destruct (user_id bot =? u); [|cbn; now rewrite app_nil_r].
    destruct (truthy (container_id bot)); cbn [negb]; [|cbn; now rewrite app_nil_r].
    rewrite bind_run.
    pose proof (proj1 (proj2 (proj2 (keeps_audit_driver d (cid_of (container_id bot))))) w) as H.
    destruct (restart_container d _ w) as [w1 [e|[|]]]; cbn [fst snd] in *; cbn; rewrite H;
      [now rewrite app_nil_r | reflexivity | now rewrite app_nil_r].
  - unfold delete_bot. rewrite !bind_run, verify_bot_ownership_run.
    destruct (find_bot i (bots w)) as [bot|]; [|cbn; now rewrite app_nil_r].
    destruct (user_id bot =? u); [|cbn; now rewrite app_nil_r].
    rewrite !bind_run.
    destruct (truthy (container_id bot)).
    + rewrite bind_run.
      pose proof (proj2 (proj2 (proj2 (keeps_audit_driver d (cid_of (container_id bot))))) w) as H.
      destruct (remove_container d _ w) as [w1 [e|b]]; cbn [fst snd] in *; cbn; rewrite H;
        [now rewrite app_nil_r | reflexivity].
    + cbn. reflexivity.
Qed.

(** ** Uploads that are accepted *)

Lemma check_member_passes (rt : BotRuntime) (m : str) :
  check_member rt m = None <-> refused_member rt m = false.
Proof.
  unfold check_member, refused_member. rewrite dotdot_in_parts.
  destruct (is_absolute m), (str_in (s "..") (split_on "/" m)),
           (endswith (s "/") m), (is_empty (suffix m)),
           (str_in (suffix m) (allowed_extensions (get_runtime_config rt)));
    cbn [orb andb negb]; split; intros H; congruence.
Qed.

Lemma check_members_passes (rt : BotRuntime) (members : list str) (w : World) :
  check_members rt members w = (w, inr tt) <->
  existsb (refused_member rt) members = false.
Proof.
  induction members as [|m rest IH]; cbn [existsb check_members]; [now split|].
  pose proof (check_member_passes rt m) as Hm.
  destruct (check_member rt m) as [e|].
  - split; [discriminate|]. intros H. apply orb_false_iff in H as [H _].
    apply Hm in H. discriminate.
  - rewrite (proj1 Hm eq_refl). cbn [orb]. exact IH.
Qed.

Lemma remove_path_gone (p : str) (d : directory) : str_in p (remove_path p d) = false.
Proof.
  unfold str_in, remove_path. induction d as [|q d IH]; [reflexivity|].
  cbn [filter]. destruct (str_eqb q p) eqn:E; cbn [negb]; [exact IH|].
  cbn [existsb]. rewrite IH, orb_false_r.
  destruct (str_eqb p q) eqn:E'; [|reflexivity].
  apply str_eqb_eq in E'. subst q.
  assert (str_eqb p p = true) by now apply str_eqb_eq. congruence.
Qed.

(** X21.  For an owned bot and a payload that opens as a zip archive and
    is stored under a name ending in [.zip], the upload is accepted exactly
    when no member is absolute, has a [..] segment, or is a file with an
    extension outside the allow-list, and [extractall] does not raise.
    When it is accepted the answer is the stored name, the row records the
    source type ZIP, and the archive file is no longer in the bot's
    directory.  When the members pass the checks and [extractall] raises,
    the call ends with that exception, or with BadRequest in place of
    [BadZipFile]; the members written before the failure and the archive
    file stay in the directory, and the table and the audit log are as
    before. *)
Theorem upload_archive_accepted i ip file u (w : World) (bot : Bot) (members : list str) :
  find_bot i (bots w) = Some bot -> user_id bot = u ->
  endswith (s ".zip") (stored_name file) = true ->
  zip_members file = Some members ->
  let out := upload_bot_files i ip file u w in
  let saved := add_path (stored_name file) (kept (dir_of i (storage w))) in
  (snd out = inr (stored_name file) <->
   existsb (refused_member (runtime bot)) members = false /\ zip_failure file = None) /\
  (existsb (refused_member (runtime bot)) members = false -> zip_failure file = None ->
   find_bot i (bots (fst out)) = Some (set_source_type (Some ZIP) bot) /\
   str_in (stored_name file) (dir_of i (storage (fst out))) = false /\
   dir_of i (storage (fst out))
   = remove_path (stored_name file) (extract_members members saved)) /\
  (existsb (refused_member (runtime bot)) members = false ->
   forall n e, zip_failure file = Some (n, e) ->
   snd out = inl (if is_bad_zip e then BadRequestException (s "Invalid zip file") else e) /\
   dir_of i (storage (fst out)) = extract_members (firstn n members) saved /\
   bots (fst out) = bots w /\ audit_logs (fst out) = audit_logs w).
Proof.
  intros Hfind Hu Hzip Hmem out saved. subst out saved.
  unfold upload_bot_files.
  rewrite !bind_run, verify_bot_ownership_run, Hfind, Hu, Nat.eqb_refl.
  rewrite !bind_run. cbn [get_bot_storage_path modify].
  rewrite !bind_run. cbn [set_dir modify].
  fold (stored_name file). rewrite bind_run, Hzip.
  rewrite bind_run. cbn [set_dir modify]. rewrite unpack_archive_run, Hmem.
  match goal with |- context [check_members _ _ ?w0] => set (w1 := w0) end.
  assert (Hd1 : dir_of i (storage w1)
                = add_path (stored_name file) (kept (dir_of i (storage w)))).
  { subst w1. cbn [storage with_storage]. now rewrite !dir_of_dir_set, dir_of_mkdir. }
  assert (Hb1 : bots w1 = bots w) by reflexivity.
  assert (Ha1 : audit_logs w1 = audit_logs w) by reflexivity.
  clearbody w1.
  destruct (existsb (refused_member (runtime bot)) members) eqn:Hbad.
  - destruct (check_members_refused (runtime bot) members w1 Hbad) as [detail ->].
    cbn [snd]. split; [split; [discriminate | intros [? _]; discriminate]|].
    split; discriminate.
  - rewrite (proj2 (check_members_passes (runtime bot) members w1) Hbad).
    destruct (zip_failure file) as [[n e]|].
    + cbn [fst snd set_dir modify]. split; [split; [discriminate | intros [_ ?]; discriminate]|].
      split; [discriminate|]. intros _ n' e' [= <- <-].
      cbn [storage with_storage bots audit_logs].
      rewrite dir_of_dir_set, Hd1. auto.
    + cbn. split; [split; auto|]. split; [|discriminate]. intros _ _.
      rewrite !dir_of_dir_set, Hd1, Hb1. repeat split.
      * now apply find_update_bot.
      * apply remove_path_gone.
Qed.

Lemma upload_archive_accepted_witness :
  let good := {| filename := Some (s "bot.zip");
                 zip_members := Some [s "main.py"; s "lib/"; s "lib/util.py"; s "README"];
                 zip_failure := None |} in
  let clash := {| filename := Some (s "bot.zip");
                  zip_members := Some [s "main.py"; s "bot.zip/main.py"];
                  zip_failure :=
                    Some (1, OtherError (s "[Errno 20] Not a directory")) |} in
  (snd (upload_bot_files 1 (s "10.0.0.1") good 7 created_world) = inr (s "bot.zip") /\
   dir_of 1 (storage (fst (upload_bot_files 1 (s "10.0.0.1") good 7 created_world)))
   = [s "main.py"; s "lib/"; s "lib/util.py"; s "README"]) /\
  (snd (upload_bot_files 1 (s "10.0.0.1") clash 7 created_world)
   = inl (OtherError (s "[Errno 20] Not a directory")) /\
   dir_of 1 (storage (fst (upload_bot_files 1 (s "10.0.0.1") clash 7 created_world)))
   = [s "bot.zip"; s "main.py"]).
Proof.
  intros good clash.
  pose (bot := {| b_id := 1; user_id := 7; plan_id := 1; runtime := PYTHON;
                  name := s "echo"; container_id := None; status := CREATED;
                  start_cmd := None; source_type := None |}).
  split.
  - destruct (upload_archive_accepted 1 (s "10.0.0.1") good 7 created_world bot
                [s "main.py"; s "lib/"; s "lib/util.py"; s "README"]
                eq_refl eq_refl eq_refl eq_refl) as (H1 & H2 & _).
    split; [apply H1; split; reflexivity|].
    destruct (H2 eq_refl eq_refl) as (_ & _ & ->). reflexivity.
  - destruct (upload_archive_accepted 1 (s "10.0.0.1") clash 7 created_world bot
                [s "main.py"; s "bot.zip/main.py"]
                eq_refl eq_refl eq_refl eq_refl) as (_ & _ & H3).
    destruct (H3 eq_refl 1 _ eq_refl) as (-> & -> & _). split; reflexivity.
Defined.

(** X22.  For an owned bot and a file stored under a name that does not
    end in [.zip], the upload is accepted exactly when the extension of
    that name is in the allow-list of the bot's runtime.  When it is
    accepted the file is the only entry of the directory besides what the
    cleaning kept, and the row records the source type FILE; when it is
    refused the directory has been cleaned all the same. *)
Theorem upload_single_file i ip file u (w : World) (bot : Bot) :
  find_bot i (bots w) = Some bot -> user_id bot = u ->
  endswith (s ".zip") (stored_name file) = false ->
  let allowed := str_in (suffix (stored_name file))
                        (allowed_extensions (get_runtime_config (runtime bot))) in
  let w' := fst (upload_bot_files i ip file u w) in
  (snd (upload_bot_files i ip file u w) = inr (stored_name file) <-> allowed = true) /\
  (allowed = true ->
   dir_of i (storage w') = add_path (stored_name file) (kept (dir_of i (storage w))) /\
   find_bot i (bots w') = Some (set_source_type (Some FILE) bot)) /\
  (allowed = false ->
   dir_of i (storage w') = kept (dir_of i (storage w)) /\ bots w' = bots w).
Proof.
  intros Hfind Hu Hzip allowed w'. subst allowed w'.
  unfold upload_bot_files.
  rewrite !bind_run, verify_bot_ownership_run, Hfind, Hu, Nat.eqb_refl.
  rewrite !bind_run. cbn [get_bot_storage_path modify].
  rewrite !bind_run. cbn [set_dir modify].
  fold (stored_name file). rewrite bind_run, Hzip.
  destruct (str_in _ _); cbn [negb].
  - cbn. rewrite !dir_of_dir_set, dir_of_mkdir.
    repeat split; try discriminate. now apply find_update_bot.
  - cbn. rewrite !dir_of_dir_set, dir_of_mkdir.
    repeat split; discriminate.
Qed.

Lemma upload_single_file_witness :
  let file := {| filename := Some (s "main.py"); zip_members := None;
                 zip_failure := None |} in
  snd (upload_bot_files 1 (s "10.0.0.1") file 7 created_world) = inr (s "main.py") /\
  dir_of 1 (storage (fst (upload_bot_files 1 (s "10.0.0.1") file 7 created_world)))
  = [s "main.py"].
Proof.
  intros file.
  destruct (upload_single_file 1 (s "10.0.0.1") file 7 created_world
              {| b_id := 1; user_id := 7; plan_id := 1; runtime := PYTHON;
                 name := s "echo"; container_id := None; status := CREATED;
                 start_cmd := None; source_type := None |}
              eq_refl eq_refl eq_refl) as (H1 & H2 & _).
  split; [apply H1; reflexivity|].
  destruct (H2 eq_refl) as [-> _]. reflexivity.
Defined.

(** ** The handle of a bot *)

Lemma start_bot_edit d i ip u (w : World) :
  row_edit (bots w) (bots (fst (start_bot d i ip u w))).
Proof.
  unfold start_bot. rewrite !bind_run, verify_bot_ownership_run.
  destruct (find_bot i (bots w)) as [bot|] eqn:Hfind; [|constructor].
  destruct (user_id bot =? u); [|constructor].
  rewrite !bind_run. cbn [get_world].
  destruct (find_plan (plan_id bot) (plans w)) as [plan|]; [|constructor].
  rewrite !bind_run. cbn [get_bot_storage_path modify].
  rewrite !bind_run. cbn [get_world].
  set (w0 := with_storage _ w).
  assert (Hb0 : bots w0 = bots w) by reflexivity. clearbody w0. rewrite <- Hb0.
  rewrite <- Hb0 in Hfind. clear Hb0 w.
  destruct (is_empty (dir_of i (storage w0))); [constructor|].
  rewrite bind_run. unfold try_except, start_attempt. rewrite bind_run.
  destruct (ensure_container_spec d bot plan i w0) as [_ He].
  destruct (ensure_container d bot plan i w0) as [w1 [e|bot1]]; cbn [fst snd] in *.
  - cbn. rewrite He. now apply re_field.
  - rewrite bind_run.
    destruct (db_frame_start_container d (cid_of (container_id bot1)) w1) as [Hb2 _].
    assert (Hend : forall st,
               row_edit (bots w0) (update_bot i (set_status st) (bots w1))).
    { intros st. destruct He as [(_ & _ & ->)|(cid & Ht & _ & ->)].
      - now apply re_field.
      - now apply (re_first_handle _ i cid (set_status st) bot). }
    destruct (start_container d _ w1) as [w2 [e|[|]]]; cbn [fst snd] in *; cbn;
      rewrite Hb2; apply Hend.
Qed.

Lemma stop_bot_edit d i ip u (w : World) :
  row_edit (bots w) (bots (fst (stop_bot d i ip u w))).
Proof.
  unfold stop_bot. rewrite !bind_run, verify_bot_ownership_run.
  destruct (find_bot i (bots w)) as [bot|]; [|constructor].
  destruct (user_id bot =? u); [|constructor].
  destruct (truthy (container_id bot)); cbn [negb]; [|constructor].
  rewrite bind_run.
  destruct (db_frame_stop_container d (cid_of (container_id bot)) w) as [Hb _].
  destruct (stop_container d _ w) as [w1 [e|[|]]]; cbn [fst snd] in *; cbn; rewrite Hb;
    [constructor | now apply re_field | constructor].
Qed.

Lemma restart_bot_edit d i ip u (w : World) :
  row_edit (bots w) (bots (fst (restart_bot d i ip u w))).
Proof.
  unfold restart_bot. rewrite !bind_run, verify_bot_ownership_run.
  destruct (find_bot i (bots w)) as [bot|]; [|constructor].
  destruct (user_id bot =? u); [|constructor].
  destruct (truthy (container_id bot)); cbn [negb]; [|constructor].
  rewrite bind_run.
  destruct (db_frame_restart_container d (cid_of (container_id bot)) w) as [Hb _].
  destruct (restart_container d _ w) as [w1 [e|[|]]]; cbn [fst snd] in *; cbn; rewrite Hb;
    [constructor | now apply re_field | constructor].
Qed.

Lemma upload_bot_files_edit i ip file u (w : World) :
  row_edit (bots w) (bots (fst (upload_bot_files i ip file u w))).
Proof.
  unfold upload_bot_files. rewrite !bind_run, verify_bot_ownership_run.
  destruct (find_bot i (bots w)) as [bot|]; [|constructor].
  destruct (user_id bot =? u); [|constructor].
  rewrite !bind_run. cbn [get_bot_storage_path modify].
  rewrite !bind_run. cbn [set_dir modify].
  fold (stored_name file). rewrite bind_run.
  destruct (endswith (s ".zip") (stored_name file)).
  - rewrite bind_run. cbn [set_dir modify]. rewrite unpack_archive_run.
    destruct (zip_members file) as [members|]; [|constructor].
    destruct (check_members _ _ _) as [w1 [e|[]]]; [constructor|].
    destruct (zip_failure file) as [[n e]|]; cbn; [constructor | now apply re_field].
  - destruct (negb (str_in _ _)); cbn; [constructor | now apply re_field].
Qed.

Lemma handle_edit (r : Request) (w : World) :
  (exists d j ip u, r = Delete d j ip u) \/
  row_edit (bots w) (bots (handle r w)).
Proof.
  destruct r as [bd ip u|i ip f u|d i ip u|d i ip u|d i ip u|d i ip u]; cbn [handle].
  - right. destruct (create_bot_rows bd ip u w) as [_ [->|(b & plan & -> & _)]];
      constructor.
  - right. apply upload_bot_files_edit.
  - right. apply start_bot_edit.
  - right. apply stop_bot_edit.
  - right. apply restart_bot_edit.
  - left. eauto.
Qed.

Lemma find_bot_app (i : nat) (l l' : list Bot) (b : Bot) :
  find_bot i l = Some b -> find_bot i (l ++ l') = Some b.
Proof.
  unfold find_bot. induction l as [|x l IH]; [discriminate|].
  cbn [find app]. destruct (b_id x =? i); auto.
Qed.

(** X23.  The handle of a bot does not change once it is set: whatever
    request is handled, and whatever the runtime answers, a bot that has a
    non-empty handle is still there afterwards with the same handle,
    unless the request is the deletion of that very bot. *)
Theorem handle_never_changes (r : Request) (w : World) (i : nat) (b : Bot) :
  find_bot i (bots w) = Some b -> truthy (container_id b) = true ->
  (forall d ip u, r <> Delete d i ip u) ->
  exists b', find_bot i (bots (handle r w)) = Some b' /\
             container_id b' = container_id b.
Proof.
  intros Hfind Ht Hr.
  assert (Hupd : forall j g l b0,
             (forall x, container_id (g x) = container_id x) ->
             (forall x, b_id (g x) = b_id x) ->
             find_bot i l = Some b0 ->
             exists b', find_bot i (update_bot j g l) = Some b' /\
                        container_id b' = container_id b0).
  { intros j g l b0 Hc Hi Hf. destruct (Nat.eq_dec i j) as [<-|Hij].
    - exists (g b0). split; [now apply find_update_bot | apply Hc].
    - exists b0. split; [|reflexivity]. now rewrite find_update_other. }
  destruct (handle_edit r w) as [(d & j & ip & u & ->)|He].
  - cbn [handle].
    destruct (delete_bot_rows d j ip u w) as [_ [->| ->]]; [eauto|].
    exists b. split; [|reflexivity].
    rewrite find_delete_row_other; [exact Hfind|].
    intros ->. now apply (Hr d ip u).
  - inversion He as [Heq|j g Hc Hi Heq|j cid g b0 Hf0 Ht0 Hc Hi Heq|b0 Heq].
    + eauto.
    + now apply Hupd.
    + destruct (Nat.eq_dec i j) as [<-|Hij]; [congruence|].
      apply Hupd; auto. now rewrite find_update_other.
    + exists b. split; [now apply find_bot_app | reflexivity].
Qed.

Lemma handle_never_changes_witness :
  let r := Start (with_containers_create (inr (s "deadbeef")) healthy_daemon)
                 1 (s "10.0.0.1") 7 in
  option_map container_id (find_bot 1 (bots (handle r world_with_sandbox)))
  = Some (Some (s "c0ffee")).
Proof.
  intros r.
  destruct (handle_never_changes r world_with_sandbox 1
              {| b_id := 1; user_id := 7; plan_id := 1; runtime := PYTHON;
                 name := s "echo"; container_id := Some (s "c0ffee");
                 status := RUNNING; start_cmd := None;
                 source_type := Some FILE |} eq_refl eq_refl)
    as (b' & H1 & H2).
  - intros d ip u. discriminate.
  - rewrite H1. cbn [option_map]. now rewrite H2.
Defined.

(** ** Creation and listing *)

(** X24.  A create request is accepted exactly when the name is valid, the
    start command is absent, empty or valid, the plan named exists, the
    user owns fewer bots than that plan allows, and the user has no bot of
    that name. *)
Theorem create_bot_accepts bd ip u (w : World) :
  succeeds (Create bd ip u) w = true <->
  validate_bot_name (bc_name bd) = true /\
  (truthy (bc_start_cmd bd) = true ->
   validate_start_command (cid_of (bc_start_cmd bd)) = true) /\
  (exists plan, find_plan (bc_plan_id bd) (plans w) = Some plan /\
                (Z.of_nat (user_bot_count u (bots w)) < max_bots plan)%Z) /\
  existsb (fun b => (user_id b =? u) && str_eqb (name b) (bc_name bd)) (bots w) = false.
Proof.
  cbn [succeeds]. unfold create_bot, cid_of.
  destruct (validate_bot_name (bc_name bd)); cbn [negb];
    [|split; [discriminate | intros (H & _); discriminate]].
  destruct (truthy (bc_start_cmd bd)); cbn [andb].
  - destruct (validate_start_command _); cbn [negb];
      [|split; [discriminate | intros (_ & H & _); specialize (H eq_refl); discriminate]].
    rewrite bind_run. cbn [get_world].
    destruct (find_plan (bc_plan_id bd) (plans w)) as [plan|];
      [|split; [discriminate | intros (_ & _ & (p & H & _) & _); discriminate]].
    destruct (Z.geb_spec (Z.of_nat (user_bot_count u (bots w))) (max_bots plan))
      as [Hge|Hlt].
    + split; [discriminate|]. intros (_ & _ & (p & [= <-] & H) & _). lia.
    + destruct (existsb _ (bots w)).
      * split; [discriminate | intros (_ & _ & _ & H); discriminate].
      * split; [|reflexivity]. intros _. repeat split; eauto.
  - rewrite bind_run. cbn [get_world].
    destruct (find_plan (bc_plan_id bd) (plans w)) as [plan|];
      [|split; [discriminate | intros (_ & _ & (p & H & _) & _); discriminate]].
    destruct (Z.geb_spec (Z.of_nat (user_bot_count u (bots w))) (max_bots plan))
      as [Hge|Hlt].
    + split; [discriminate|]. intros (_ & _ & (p & [= <-] & H) & _). lia.
    + destruct (existsb _ (bots w)).
      * split; [discriminate | intros (_ & _ & _ & H); discriminate].
      * split; [|reflexivity]. intros _. repeat split; eauto. discriminate.
Qed.

(** X25.  After a create request that is accepted, the owner's list of
    bots is the list as it was followed by the new bot, which has the next
    id, the state CREATED and no source; the lists of all other users are
    as before.  Listing changes nothing. *)
Theorem create_then_list bd ip u (w : World) :
  succeeds (Create bd ip u) w = true ->
  let w' := handle (Create bd ip u) w in
  let view := {| r_id := next_bot_id w; r_name := bc_name bd;
                 r_runtime := bc_runtime bd; r_status := CREATED;
                 r_start_cmd := bc_start_cmd bd; r_source_type := None |} in
  snd (create_bot bd ip u w) = inr view /\
  (exists l, list_bots u w = (w, inr l) /\ list_bots u w' = (w', inr (l ++ [view]))) /\
  forall v, v <> u -> snd (list_bots v w') = snd (list_bots v w).
Proof.
  intros Hok w' view. subst w'. cbn [handle succeeds] in *.
  destruct (create_bot_effect bd ip u w) as [[e He]|(plan & _ & _ & _ & _ & H)].
  - rewrite He in Hok. discriminate.
  - cbv zeta in H. destruct H as (Hr & Hb & _).
    split; [exact Hr|]. split.
    + exists (map bot_response (filter (fun b => user_id b =? u) (bots w))).
      split; [reflexivity|].
      unfold list_bots. rewrite bind_run. cbn [get_world ret].
      rewrite Hb, filter_app, map_app. cbn [filter user_id].
      rewrite Nat.eqb_refl. reflexivity.
    + intros v Hv. unfold list_bots. rewrite !bind_run. cbn [get_world ret snd].
      rewrite Hb, filter_app. cbn [filter user_id].
      apply Nat.eqb_neq in Hv. rewrite Nat.eqb_sym in Hv. rewrite Hv.
      now rewrite app_nil_r.
Qed.

Lemma create_then_list_witness :
  let bd := {| bc_name := s "second"; bc_runtime := NODE;
               bc_start_cmd := Some (s "node bot.js"); bc_plan_id := 2 |} in
  snd (list_bots 7 (handle (Create bd (s "10.0.0.1") 7) uploaded_world))
  = inr [ {| r_id := 1; r_name := s "echo"; r_runtime := PYTHON; r_status := CREATED;
             r_start_cmd := None; r_source_type := Some FILE |};
          {| r_id := 2; r_name := s "second"; r_runtime := NODE; r_status := CREATED;
             r_start_cmd := Some (s "node bot.js"); r_source_type := None |} ].
Proof.
  intros bd.
  destruct (create_then_list bd (s "10.0.0.1") 7 uploaded_world eq_refl)
    as (_ & (l & Hl & Hl') & _).
  cbv zeta in Hl'. rewrite Hl'. cbn [snd].
  injection Hl as <-. reflexivity.
Defined.

(* ===================================================================== *)
(** * Who may read a log stream *)
(* ===================================================================== *)

(** X26.  Unless the token names a user who owns the bot and the bot has
    a sandbox, a log session is: accept, one text frame, close.  The
    runtime is not consulted and the world is unchanged.  A token that
    does not verify gives the text of the outer handler and the code 1011;
    a token without a number, or with the number of no user, gives
    [Authentication failed] and 1008; a bot that does not exist or belongs
    to someone else gives [Authorization failed:] with the exception's
    text and 1008; the owner of a bot without a sandbox gets the hint to
    start the bot and 1000. *)
Theorem log_session_refused (d : Daemon) (users : list User) (t : token) (i : nat) (w : World) :
  may_read users t i w = false ->
  exists text code,
    (forall d', bot_logs_session d' users t i w
                = (w, [Accept; SendText text; Close code])) /\
    (t = InvalidToken ->
       text = s "Error: " ++ str_exn (HTTPException 401 (s "Invalid or expired token")) /\
       code = 1011) /\
    (t = Claims NoSubject \/ t = Claims NotANumber \/
     (exists n, t = Claims (Number n) /\ find_user n users = None) ->
       text = s "Authentication failed" /\ code = 1008) /\
    (forall n user, t = Claims (Number n) -> find_user n users = Some user ->
       (find_bot i (bots w) = None ->
          text = s "Authorization failed: " ++ str_exn (NotFoundException (s "Bot not found")) /\
          code = 1008) /\
       (forall bot, find_bot i (bots w) = Some bot -> user_id bot <> u_id user ->
          text = s "Authorization failed: "
                   ++ str_exn (ForbiddenException (s "You don't have access to this bot")) /\
          code = 1008) /\
       (forall bot, find_bot i (bots w) = Some bot -> user_id bot = u_id user ->
          text = s "Bot has no container. Please start the bot first." /\
          code = 1000)).
Proof.
  unfold may_read, bot_logs_session, get_current_user_ws, bot_logs_websocket.
  destruct t as [|[| |n]]; cbn [decode_token option_map].
  - intros _. do 2 eexists. split; [reflexivity|]. split; [auto|].
    split; [intros [H|[H|(n & H & _)]]; discriminate | discriminate].
  - intros _. do 2 eexists. split; [reflexivity|]. split; [discriminate|].
    split; [auto | discriminate].
  - intros _. do 2 eexists. split; [reflexivity|]. split; [discriminate|].
    split; [auto | discriminate].
  - destruct (find_user n users) as [user|] eqn:Hu; cbn [option_map].
    + rewrite verify_bot_ownership_run.
      destruct (find_bot i (bots w)) as [bot|].
      * destruct (Nat.eqb_spec (user_id bot) (u_id user)) as [Heq|Hne]; cbn [andb].
        -- intros ->. cbn [negb]. do 2 eexists.
           split; [reflexivity|]. split; [discriminate|].
           split; [intros [H|[H|(m & [= <-] & H)]]; congruence|].
           intros m user' [= <-] Hf. rewrite Hu in Hf. injection Hf as <-.
           split; [discriminate|]. split; [|auto].
           intros bot' [= <-] Hne. contradiction.
        -- intros _. do 2 eexists. split; [reflexivity|]. split; [discriminate|].
           split; [intros [H|[H|(m & [= <-] & H)]]; congruence|].
           intros m user' [= <-] Hf. rewrite Hu in Hf. injection Hf as <-.
           split; [discriminate|]. split; [auto|].
           intros bot' [= <-] Heq. contradiction.
      * intros _. do 2 eexists. split; [reflexivity|]. split; [discriminate|].
        split; [intros [H|[H|(m & [= <-] & H)]]; congruence|].
        intros m user' [= <-] Hf. rewrite Hu in Hf. injection Hf as <-.
        split; [auto|]. split; discriminate.
    + intros _. do 2 eexists. split; [reflexivity|]. split; [discriminate|].
      split; [eauto|]. intros m user' [= <-] Hf. congruence.
Qed.

Lemma log_session_refused_witness :
  bot_logs_session healthy_daemon [] InvalidToken 1 world_with_sandbox
  = (world_with_sandbox,
     [Accept; SendText (s "Error: 401: Invalid or expired token"); Close 1011]).
Proof.
  destruct (log_session_refused healthy_daemon [] InvalidToken 1 world_with_sandbox eq_refl)
    as (text & code & H & Hc & _).
  rewrite (H healthy_daemon). destruct (Hc eq_refl) as [-> ->]. reflexivity.
Defined.

Lemma find_user_map (f : User -> User) (n : Z) (users : list User) :
  (forall x, u_id (f x) = u_id x) ->
  find_user n (map f users) = option_map f (find_user n users).
Proof.
  intros Hf. unfold find_user. induction users as [|x l IH]; [reflexivity|].
  cbn [map find]. rewrite Hf. destruct (Z.of_nat (u_id x) =? n)%Z; [reflexivity | exact IH].
Qed.

(** X27.  The log session does not look at the status of the account: it
    runs for a suspended user exactly as it would if every account were
    active, although [get_current_user] refuses that user with 403. *)
Theorem log_session_ignores_suspension (d : Daemon) (users : list User) (t : token)
        (i : nat) (w : World) :
  bot_logs_session d users t i w
  = bot_logs_session d (map (set_u_status ACTIVE) users) t i w /\
  (forall n user, t = Claims (Number n) -> find_user n users = Some user ->
                  u_status user = SUSPENDED ->
     get_current_user users t
     = inl (HTTPException 403 (s "Account suspended. Contact administrator.")) /\
     bot_logs_session d users t i w = bot_logs_websocket d (Some (u_id user)) i w).
Proof.
  split.
  - unfold bot_logs_session, get_current_user_ws.
    destruct t as [|[| |n]]; cbn [decode_token]; try reflexivity.
    rewrite find_user_map by reflexivity.
    now destruct (find_user n users).
  - intros n user -> Hf Hs.
    unfold get_current_user, bot_logs_session, get_current_user_ws.
    cbn [decode_token]. now rewrite Hf, Hs.
Qed.

Lemma log_session_ignores_suspension_witness :
  let users := [ {| u_id := 7; email := s "a@x.io"; password_hash := s "$argon2id$";
                    role := USER; u_status := SUSPENDED |} ] in
  get_current_user users (Claims (Number 7))
  = inl (HTTPException 403 (s "Account suspended. Contact administrator.")) /\
  snd (bot_logs_session healthy_daemon users (Claims (Number 7)) 1 world_with_sandbox)
  = [ Accept;
      SendText (s "=== Recent Logs ===" ++ [newline] ++ s "hi" ++ [newline]
                  ++ s "=== Live Stream ===" ++ [newline]);
      SendText (s "hi") ].
Proof.
  intros users.
  destruct (proj2 (log_session_ignores_suspension healthy_daemon users (Claims (Number 7))
                     1 world_with_sandbox) 7%Z _ eq_refl eq_refl eq_refl) as [H1 H2].
  split; [exact H1|]. rewrite H2. reflexivity.
Defined.

(* ===================================================================== *)
(** * Roles and suspension *)
(* ===================================================================== *)

Lemma role_in_admins (r : UserRole) :
  existsb (role_eqb r) [ADMIN; OWNER] = true <-> r <> USER.
Proof. destruct r; cbn; split; congruence. Qed.

(** X28.  [get_admin_user] returns a user exactly when the token carries
    the number of a row of the user table, that account is active and its
    role is not USER.  Every refusal is a 401 or a 403, and whoever passes
    [get_owner_user] passes [get_admin_user]. *)
Theorem get_admin_user_iff (users : list User) (t : token) :
  (forall user,
     get_admin_user users t = inr user <->
     exists n, t = Claims (Number n) /\ find_user n users = Some user /\
               u_status user = ACTIVE /\ role user <> USER) /\
  (forall e, get_admin_user users t = inl e ->
     exists detail, e = HTTPException 401 detail \/ e = HTTPException 403 detail) /\
  (forall user, get_owner_user users t = inr user ->
                get_admin_user users t = inr user).
Proof.
  unfold get_admin_user, get_owner_user, get_current_user, require_role.
  split; [|split].
  - intros user. split.
    + destruct t as [|[| |n]]; cbn [decode_token]; try discriminate.
      destruct (find_user n users) as [x|] eqn:Hf; try discriminate.
      destruct (u_status x) eqn:Hs; try discriminate.
      destruct (existsb (role_eqb (role x)) [ADMIN; OWNER]) eqn:Hr; try discriminate.
      intros [= <-]. exists n. repeat split; auto. now apply role_in_admins.
    + intros (n & -> & Hf & Hs & Hr). cbn [decode_token]. rewrite Hf, Hs.
      apply role_in_admins in Hr. now rewrite Hr.
  - intros e. destruct t as [|[| |n]]; cbn [decode_token].
    1-3: intros [= <-]; eexists; left; reflexivity.
    destruct (find_user n users) as [x|].
    + destruct (u_status x).
      * destruct (existsb (role_eqb (role x)) [ADMIN; OWNER]); [discriminate|].
        intros [= <-]. eexists; right; reflexivity.
      * intros [= <-]. eexists; right; reflexivity.
    + intros [= <-]. eexists; left; reflexivity.
  - intros user. destruct t as [|[| |n]]; cbn [decode_token]; try discriminate.
    destruct (find_user n users) as [x|]; try discriminate.
    destruct (u_status x); try discriminate.
    destruct (role x); cbn; try discriminate; auto.
Qed.

Lemma get_admin_user_iff_witness :
  let owner := {| u_id := 3; email := s "boss@x.io"; password_hash := s "$argon2id$";
                  role := OWNER; u_status := ACTIVE |} in
  get_admin_user [owner] (Claims (Number 3)) = inr owner.
Proof.
  intros owner.
  apply (proj1 (get_admin_user_iff [owner] (Claims (Number 3)))).
  exists 3%Z. repeat split; discriminate.
Defined.

Lemma find_user_nat (i : nat) (users : list User) :
  find_user (Z.of_nat i) users = find (fun x => u_id x =? i) users.
Proof.
  unfold find_user. induction users as [|x l IH]; [reflexivity|].
  cbn [find]. rewrite IH.
  destruct (Nat.eqb_spec (u_id x) i) as [->|Hne].
  - now rewrite Z.eqb_refl.
  - destruct (Z.eqb_spec (Z.of_nat (u_id x)) (Z.of_nat i)) as [He|_]; [|reflexivity].
    apply Nat2Z.inj in He. contradiction.
Qed.

Lemma find_update_user_same (i : nat) (f : User -> User) (users : list User) :
  (forall x, u_id (f x) = u_id x) ->
  find (fun x => u_id x =? i) (update_user i f users)
  = option_map f (find (fun x => u_id x =? i) users).
Proof.
  intros Hf. induction users as [|x l IH]; [reflexivity|].
  cbn [update_user find]. destruct (u_id x =? i) eqn:He.
  - cbn [find]. now rewrite Hf, He.
  - cbn [find]. now rewrite He.
Qed.

Lemma find_update_user_other (i j : nat) (f : User -> User) (users : list User) :
  (forall x, u_id (f x) = u_id x) -> i <> j ->
  find (fun x => u_id x =? j) (update_user i f users)
  = find (fun x => u_id x =? j) users.
Proof.
  intros Hf Hij. induction users as [|x l IH]; [reflexivity|].
  cbn [update_user find]. destruct (Nat.eqb_spec (u_id x) i) as [He|Hne].
  - cbn [find]. rewrite Hf. destruct (Nat.eqb_spec (u_id x) j) as [Hj|_]; [|reflexivity].
    congruence.
  - cbn [find]. now rewrite IH.
Qed.

Lemma update_user_undo (i : nat) (f g : User -> User) (users : list User) (x : User) :
  (forall y, u_id (f y) = u_id y) ->
  find (fun y => u_id y =? i) users = Some x -> g (f x) = x ->
  update_user i g (update_user i f users) = users.
Proof.
  intros Hf. induction users as [|y l IH]; [discriminate|].
  cbn [find update_user]. destruct (u_id y =? i) eqn:He.
  - intros [= ->] Hg. cbn [update_user]. now rewrite Hf, He, Hg.
  - intros Hx Hg. cbn [update_user]. rewrite He. f_equal. now apply IH.
Qed.

(** X29.  What the suspend endpoint does for an admin within the rate
    limit, on an account that exists.  An ADMIN who names an ADMIN or
    OWNER account gets 403 and nothing changes.  In every other case the
    call succeeds: from then on [get_current_user] refuses the account
    with 403, every other account is found as before, no bot changes and
    the audit log grows by one user_suspend entry of the caller. *)
Theorem suspend_user_rule (users : list User) (w : World) (t : token)
        (user_id : nat) (request : RequestInfo) (current_user target : User) :
  get_admin_user users t = inr current_user ->
  find (fun x => u_id x =? user_id) users = Some target ->
  let out := as_admin users t false (suspend_user user_id request) (users, w) in
  (role target <> USER /\ role current_user <> OWNER ->
     out = ((users, w),
            inl (HTTPException 403 (s "Only OWNER can suspend ADMIN or OWNER accounts")))) /\
  (role target = USER \/ role current_user = OWNER ->
     snd out = inr (s "User " ++ email target ++ s " has been suspended") /\
     get_current_user (fst (fst out)) (Claims (Number (Z.of_nat user_id)))
     = inl (HTTPException 403 (s "Account suspended. Contact administrator.")) /\
     (forall j, j <> user_id ->
        find_user (Z.of_nat j) (fst (fst out)) = find_user (Z.of_nat j) users) /\
     bots (snd (fst out)) = bots w /\
     audit_logs (snd (fst out))
     = audit_logs w ++ [ {| a_user_id := u_id current_user; action := s "user_suspend";
                            target_id := str_of_nat user_id;
                            ip_address := get_client_ip request;
                            details := Some (s "Suspended by " ++ email current_user) |} ]).
Proof.
  intros Hadm Hfind out. subst out. unfold as_admin. rewrite Hadm.
  unfold suspend_user. rewrite Hfind. split.
  - intros [Ht Hc]. apply role_in_admins in Ht. rewrite Ht.
    destruct (role current_user); cbn [role_eqb negb andb];
      [reflexivity | reflexivity | congruence].
  - intros Hok.
    assert (existsb (role_eqb (role target)) [ADMIN; OWNER] &&
            negb (role_eqb (role current_user) OWNER) = false) as ->.
    { destruct Hok as [-> | ->]; [reflexivity|].
      cbn [role_eqb negb]. apply andb_false_r. }
    cbn [fst snd]. split; [reflexivity|]. split; [|split; [|split]].
    + unfold get_current_user. cbn [decode_token].
      rewrite find_user_nat, find_update_user_same, Hfind by reflexivity.
      reflexivity.
    + intros j Hj. rewrite !find_user_nat.
      apply find_update_user_other; [reflexivity | congruence].
    + reflexivity.
    + reflexivity.
Qed.

Lemma suspend_user_rule_witness :
  let admin := {| u_id := 1; email := s "root@x.io"; password_hash := s "$argon2id$";
                  role := ADMIN; u_status := ACTIVE |} in
  let other := {| u_id := 2; email := s "ops@x.io"; password_hash := s "$argon2id$";
                  role := ADMIN; u_status := ACTIVE |} in
  let user := {| u_id := 7; email := s "a@x.io"; password_hash := s "$argon2id$";
                 role := USER; u_status := ACTIVE |} in
  let users := [admin; other; user] in
  let request := {| x_forwarded_for := None; client_host := Some (s "10.0.0.9") |} in
  as_admin users (Claims (Number 1)) false (suspend_user 2 request)
           (users, world_with_sandbox)
  = ((users, world_with_sandbox),
     inl (HTTPException 403 (s "Only OWNER can suspend ADMIN or OWNER accounts"))) /\
  get_current_user
    (fst (fst (as_admin users (Claims (Number 1)) false (suspend_user 7 request)
                        (users, world_with_sandbox))))
    (Claims (Number 7))
  = inl (HTTPException 403 (s "Account suspended. Contact administrator.")).
Proof.
  intros admin other user users request. split.
  - apply (suspend_user_rule users world_with_sandbox (Claims (Number 1)) 2 request
             admin other eq_refl eq_refl).
    split; discriminate.
  - apply (suspend_user_rule users world_with_sandbox (Claims (Number 1)) 7 request
             admin user eq_refl eq_refl).
    left; reflexivity.
Defined.

(** X30.  The activate endpoint has no role rule: for an admin within the
    rate limit it succeeds on every account that exists, and afterwards
    [get_current_user] accepts the account.  Run after a successful
    suspension of an account that was active, it gives back the user
    table as it was, and the audit log has the two entries. *)
Theorem activate_user_restores (users : list User) (w : World) (t : token)
        (user_id : nat) (request : RequestInfo) (current_user target : User) :
  get_admin_user users t = inr current_user ->
  find (fun x => u_id x =? user_id) users = Some target ->
  let out := as_admin users t false (activate_user user_id request) (users, w) in
  (snd out = inr (s "User " ++ email target ++ s " has been activated") /\
   get_current_user (fst (fst out)) (Claims (Number (Z.of_nat user_id)))
   = inr (set_u_status ACTIVE target)) /\
  (u_status target = ACTIVE ->
   forall site' msg,
     as_admin users t false (suspend_user user_id request) (users, w) = (site', inr msg) ->
     let back := activate_user user_id request current_user site' in
     fst (fst back) = users /\
     map action (audit_logs (snd (fst back)))
     = map action (audit_logs w) ++ [s "user_suspend"; s "user_activate"]).
Proof.
  intros Hadm Hfind out. subst out. unfold as_admin. rewrite Hadm. split.
  - unfold activate_user. rewrite Hfind. cbn [fst snd]. split; [reflexivity|].
    unfold get_current_user. cbn [decode_token].
    rewrite find_user_nat, find_update_user_same, Hfind by reflexivity.
    reflexivity.
  - intros Hact site' msg. unfold suspend_user. rewrite Hfind.
    destruct (existsb (role_eqb (role target)) [ADMIN; OWNER] &&
              negb (role_eqb (role current_user) OWNER)); [discriminate|].
    intros [= <- _]. unfold activate_user.
    rewrite find_update_user_same, Hfind by reflexivity.
    cbn [option_map fst snd]. split.
    + apply (update_user_undo user_id _ _ users target); auto.
      destruct target; cbn in *; now subst.
    + unfold create_audit_log, modify. cbn [fst with_audit audit_logs].
      rewrite !map_app, <- app_assoc. reflexivity.
Qed.

Lemma activate_user_restores_witness :
  let admin := {| u_id := 1; email := s "root@x.io"; password_hash := s "$argon2id$";
                  role := ADMIN; u_status := ACTIVE |} in
  let owner := {| u_id := 3; email := s "boss@x.io"; password_hash := s "$argon2id$";
                  role := OWNER; u_status := SUSPENDED |} in
  let users := [admin; owner] in
  let request := {| x_forwarded_for := None; client_host := None |} in
  get_current_user
    (fst (fst (as_admin users (Claims (Number 1)) false (activate_user 3 request)
                        (users, world_with_sandbox))))
    (Claims (Number 3))
  = inr (set_u_status ACTIVE owner).
Proof.
  intros admin owner users request.
  exact (proj2 (proj1 (activate_user_restores users world_with_sandbox (Claims (Number 1))
                         3 request admin owner eq_refl eq_refl))).
Defined.
